(** * yolo-veggie-detector: the model lifecycle and the detection request contract

    A shallow embedding of [yolo_detector.py] (class [YOLODetector]) and of the
    two POST handlers of [main.py] ([/yolo-detect], [/upload-image]), with the
    properties the specification states about them.

    Conventions of the embedding.
    - The module-level singleton [yolo_detector], the file system, the clock
      and the record of calls made so far form one [world]; every function of
      the source becomes a computation in a state-and-exception monad over it.
      A raised exception keeps the mutations done before it, as in Python.
    - The external libraries are parameters: [YOLO] (ultralytics' constructor)
      and [cv2_imdecode] (OpenCV's decoder).  A loaded model is a record
      holding its class names and its inference function.
    - A Python float is a double: it is read as the rational it denotes, and
      an operation on floats returns the double nearest to the exact result,
      a tie going to the even significand.  The numbers the detection library
      hands over come out of its tensors and are finite single-precision
      numbers, far from the range in which a double overflows
      ([Floats.float32_sub_finite], [Floats.float32_percent_finite]); the
      readings of the clock are finite doubles.  [round] is Python's
      round-half-to-even.
    - Calls to [logger] and [print] have no effect on any value returned or
      stored and are left out. *)

From Stdlib Require Import ZArith QArith Qround Qabs Qpower Lia Lqa String Ascii.
From Stdlib.Strings Require Import Byte.
From stdpp Require Import gmap strings list pretty.

Local Open Scope string_scope.
Local Open Scope Z_scope.

(** ** Numbers: floats, and Python's [round] and [int] on them *)

Module PyNum.

(** [round(x)]: the nearest integer, a tie going to the even neighbour. *)
Definition py_round (q : Q) : Z :=
  let f := Qfloor q in
  match (q - inject_Z f ?= 1 # 2)%Q with
  | Lt => f
  | Gt => f + 1
  | Eq => if Z.even f then f else f + 1
  end.

(** The binade of a rational: the [e] with [2^e <= |q| < 2^(e+1)]. *)
Definition binade (q : Q) : Z :=
  if Qle_bool 1 (Qabs q) then Z.log2 (Qfloor (Qabs q))
  else - Z.log2_up (Qceiling (/ Qabs q)).

(** The exponent of the unit in the last place at [q], in the binary format
    with [prec] significant bits whose smallest positive number is
    [2^emin]. *)
Definition ulp_exponent (prec emin : Z) (q : Q) : Z :=
  Z.max (binade q - (prec - 1)) emin.

(** The number of that format nearest to [q], a tie going to the even
    significand (IEEE 754 round-to-nearest-even, below the overflow
    threshold). *)
Definition round_binary (prec emin : Z) (q : Q) : Q :=
  let k := ulp_exponent prec emin q in
  Qred (inject_Z (py_round (q / 2 ^ k)) * 2 ^ k).

(** binary64, the Python float, and binary32, the element of a tensor. *)
Definition to_double : Q -> Q := round_binary 53 (-1074).
Definition to_single : Q -> Q := round_binary 24 (-149).

(** The float a decimal literal of the program denotes. *)
Definition float_literal (q : Q) : Q := to_double q.

#[global] Arguments float_literal : simpl never.

(** [a - b], [a * b] and [a / b] on floats. *)
Definition float_sub (a b : Q) : Q := to_double (a - b).
Definition float_mul (a b : Q) : Q := to_double (a * b).
Definition float_div (a b : Q) : Q := to_double (a / b).

(** [round(x, ndigits)] for [ndigits >= 0]: the float nearest to the value
    of [x] rounded half to even at the [ndigits]-th decimal. *)
Definition py_round_n (ndigits : nat) (x : Q) : Q :=
  let scale := inject_Z (10 ^ Z.of_nat ndigits) in
  to_double (inject_Z (py_round (x * scale)) / scale).

(** The largest single-precision number, [(2^24 - 1) * 2^104]. *)
Definition float32_max : Q := inject_Z ((2 ^ 24 - 1) * 2 ^ 104).

(** A finite single-precision number, and [float(x)]: the Python float of
    the same value. *)
Definition is_float32 (q : Q) : bool :=
  Qeq_bool (to_single q) q && Qle_bool (Qabs q) float32_max.

Record float32 := mk_float32 {
  float : Q;
  float_finite : is_float32 float = true
}.

(** [int(x)]: truncation towards zero. *)
Definition py_int (q : Q) : Z :=
  if Qle_bool 0 q then Qfloor q else Qceiling q.

End PyNum.

(** ** Python values: byte strings, timestamps, JSON documents *)

Module Py.

(** [bytes.startswith] and [bytes.endswith]. *)
Fixpoint startswith (s prefix : list byte) : bool :=
  match prefix, s with
  | [], _ => true
  | _ :: _, [] => false
  | p :: prefix', c :: s' => Byte.eqb p c && startswith s' prefix'
  end.

Definition endswith (s suffix : list byte) : bool :=
  startswith (rev s) (rev suffix).

(** [str.startswith] and [str.endswith] with a one-character argument. *)
Definition str_startswith_char (s : string) (c : ascii) : bool :=
  match s with
  | String c' _ => Ascii.eqb c' c
  | EmptyString => false
  end.

Fixpoint str_endswith_char (s : string) (c : ascii) : bool :=
  match s with
  | EmptyString => false
  | String c' EmptyString => Ascii.eqb c' c
  | String _ s' => str_endswith_char s' c
  end.

(** [x or default] on an optional string: [None] and [""] are both falsy. *)
Definition str_or (x : option string) (default : string) : string :=
  match x with
  | Some (String _ _ as s) => s
  | _ => default
  end.

(** The truth value of an optional string, as tested by [if error:]. *)
Definition truthy (x : option string) : bool :=
  match x with
  | Some (String _ _) => true
  | _ => false
  end.

(** A [datetime.datetime]: a civil date and time of day. *)
Record datetime := mk_datetime {
  year : Z; month : Z; day : Z;
  hour : Z; minute : Z; second : Z; microsecond : Z
}.

(** The fields of a [datetime] lie in their calendar ranges. *)
Definition datetime_wf (t : datetime) : Prop :=
  1000 <= year t <= 9999 /\ 1 <= month t <= 12 /\ 1 <= day t <= 31 /\
  0 <= hour t <= 23 /\ 0 <= minute t <= 59 /\ 0 <= second t <= 59.

(** The last decimal digit of [n] as a character. *)
Definition digit (n : Z) : ascii :=
  match n mod 10 with
  | 0 => "0" | 1 => "1" | 2 => "2" | 3 => "3" | 4 => "4"
  | 5 => "5" | 6 => "6" | 7 => "7" | 8 => "8" | _ => "9"
  end%char.

(** The value of a decimal digit character. *)
Definition digit_value (c : ascii) : Z :=
  match c with
  | "0" => 0 | "1" => 1 | "2" => 2 | "3" => 3 | "4" => 4
  | "5" => 5 | "6" => 6 | "7" => 7 | "8" => 8 | "9" => 9
  | _ => -1
  end%char.

(** [%02d], [%04d] and [%06d] (the low digits of [n] when it is wider). *)
Definition zero_pad2 (n : Z) : string :=
  String (digit (n / 10)) (String (digit n) "").

Definition zero_pad4 (n : Z) : string :=
  String (digit (n / 1000)) (String (digit (n / 100)) (zero_pad2 n)).

Definition zero_pad6 (n : Z) : string :=
  String (digit (n / 100000)) (String (digit (n / 10000)) (zero_pad4 n)).

(** [t.strftime("%Y%m%d_%H%M%S")]. *)
Definition strftime_Ymd_HMS (t : datetime) : string :=
  zero_pad4 (year t) ++ zero_pad2 (month t) ++ zero_pad2 (day t) ++ "_" ++
  zero_pad2 (hour t) ++ zero_pad2 (minute t) ++ zero_pad2 (second t).

(** [t.isoformat()]: the microseconds are printed only when they are not zero. *)
Definition isoformat (t : datetime) : string :=
  zero_pad4 (year t) ++ "-" ++ zero_pad2 (month t) ++ "-" ++ zero_pad2 (day t) ++ "T" ++
  zero_pad2 (hour t) ++ ":" ++ zero_pad2 (minute t) ++ ":" ++ zero_pad2 (second t) ++
  (if Z.eqb (microsecond t) 0 then "" else "." ++ zero_pad6 (microsecond t)).

(** Two timestamps that agree down to the second. *)
Definition same_second (t u : datetime) : Prop :=
  year t = year u /\ month t = month u /\ day t = day u /\
  hour t = hour u /\ minute t = minute u /\ second t = second u.

(** What a handler passes to [JSONResponse]. *)
#[local] Unset Elimination Schemes.
Inductive json :=
  | JNull
  | JInt (z : Z)
  | JFloat (q : Q)
  | JStr (s : string)
  | JList (items : list json)
  | JDict (fields : list (string * json)).
#[local] Set Elimination Schemes.

(** [d[key]] on a JSON value, [None] when [d] is no dictionary or has no such key. *)
Fixpoint assoc (key : string) (fields : list (string * json)) : option json :=
  match fields with
  | [] => None
  | (k, v) :: rest => if String.eqb k key then Some v else assoc key rest
  end.

Definition jget (key : string) (d : json) : option json :=
  match d with
  | JDict fields => assoc key fields
  | _ => None
  end.

End Py.

(** ** The detection library's data *)

Module Lib.
Import PyNum.

(** [Exc A]: a raised exception, kept as its message [str(e)], or a value. *)
Definition Exc (A : Type) : Type := string + A.

(** A [numpy.ndarray] of [uint8] with three axes: rows, columns, channels. *)
Record ndarray := mk_ndarray {
  shape : Z * Z * Z;
  item : Z -> Z -> Z -> byte
}.

(** [np.zeros(shape, dtype=np.uint8)]. *)
Definition np_zeros (shape : Z * Z * Z) : ndarray :=
  {| shape := shape; item := fun _ _ _ => x00 |}.

(** One element of [result.boxes]: [box.conf[0]], [box.cls[0]] and
    [box.xyxy[0].tolist()]. *)
Record Box := mk_Box {
  conf : float32;
  cls : float32;
  xyxy : float32 * float32 * float32 * float32
}.

(** One element of the list a model call returns; [boxes] may be [None]. *)
Record Results := mk_Results {
  boxes : option (list Box)
}.

(** A constructed [ultralytics.YOLO] object: the [names] dictionary and the
    call [model(img, conf=..., verbose=False)], which may raise. *)
Record Model := mk_Model {
  names : gmap Z string;
  predict : ndarray -> option Q -> Exc (list Results)
}.

(** A node of the file system. *)
Inductive node :=
  | File (content : list byte)
  | Dir.

(** The two library entry points the program calls: [YOLO(model_path)], given
    the path and the node found there, and [cv2.imdecode(buf, IMREAD_COLOR)],
    which returns [None] for bytes that are no image. *)
Record Libraries := mk_Libraries {
  YOLO : string -> node -> Exc Model;
  cv2_imdecode : list byte -> Exc (option ndarray)
}.

End Lib.

(** ** The world: detector singleton, file system, clock *)

Module World.
Import Py Lib.

(** The attributes [YOLODetector.__init__] creates. *)
Record YOLODetector := mk_YOLODetector {
  model : option Model;
  model_loaded : bool;
  last_load_attempt : option datetime;
  load_error : option string
}.

(** [YOLODetector()]. *)
Definition YOLODetector_init : YOLODetector :=
  {| model := None; model_loaded := false;
     last_load_attempt := None; load_error := None |}.

(** One reading of the system clock: [time.time()] and [datetime.now()]. *)
Record instant := mk_instant {
  epoch : Q;
  local : datetime
}.

(** Calls whose number the specification counts. *)
Inductive call :=
  | CallLoadModel (model_path : option string)
  | CallYOLO (model_path : string)
  | CallModel (m : Model) (img : ndarray) (conf : option Q)
  | CallImdecode (buf : list byte).

(** - [yolo_detector]: the module-level instance of [yolo_detector.py];
    - [fs], [cwd]: the file system, keyed by path as the program spells it;
    - [write_fault]: the error the operating system answers when a path is
      created or opened for writing (permission, quota), if any;
    - [io_fault]: the error that interrupts the writing of a file once it is
      open (full disk, device error), if any, with the number of bytes that
      reached the file before it;
    - [clock], [ticks]: the [n]-th reading of the clock and the number of
      readings made so far;
    - [calls]: the calls made so far, oldest first. *)
Record world := mk_world {
  yolo_detector : YOLODetector;
  fs : gmap string node;
  cwd : string;
  write_fault : string -> option string;
  io_fault : string -> option (string * nat);
  clock : nat -> instant;
  ticks : nat;
  calls : list call
}.

Definition with_detector (d : YOLODetector) (w : world) : world :=
  {| yolo_detector := d; fs := fs w; cwd := cwd w;
     write_fault := write_fault w; io_fault := io_fault w;
     clock := clock w; ticks := ticks w; calls := calls w |}.

Definition with_fs (f : gmap string node) (w : world) : world :=
  {| yolo_detector := yolo_detector w; fs := f; cwd := cwd w;
     write_fault := write_fault w; io_fault := io_fault w;
     clock := clock w; ticks := ticks w; calls := calls w |}.

Definition with_ticks (n : nat) (w : world) : world :=
  {| yolo_detector := yolo_detector w; fs := fs w; cwd := cwd w;
     write_fault := write_fault w; io_fault := io_fault w;
     clock := clock w; ticks := n; calls := calls w |}.

Definition with_calls (cs : list call) (w : world) : world :=
  {| yolo_detector := yolo_detector w; fs := fs w; cwd := cwd w;
     write_fault := write_fault w; io_fault := io_fault w;
     clock := clock w; ticks := ticks w; calls := cs |}.

(** *** The monad: state and exceptions *)

Definition M (A : Type) : Type := world -> Exc A * world.

Definition ret {A} (a : A) : M A := fun w => (inr a, w).

Definition raise {A} (e : string) : M A := fun w => (inl e, w).

Definition bind {A B} (m : M A) (k : A -> M B) : M B :=
  fun w =>
    match m w with
    | (inr a, w') => k a w'
    | (inl e, w') => (inl e, w')
    end.

(** [try: body / except Exception as e: handler(str(e))]. *)
Definition try_except {A} (body : M A) (handler : string -> M A) : M A :=
  fun w =>
    match body w with
    | (inl e, w') => handler e w'
    | r => r
    end.

Definition gets {A} (f : world -> A) : M A := fun w => (inr (f w), w).

Definition modify (f : world -> world) : M unit := fun w => (inr tt, f w).

(** Lift the answer of a library call. *)
Definition lift {A} (r : Exc A) : M A := fun w => (r, w).

Definition log_call (c : call) : M unit :=
  modify (fun w => with_calls (calls w ++ [c]) w).

(** How many times [load_model] has been called. *)
Fixpoint load_attempts (cs : list call) : nat :=
  match cs with
  | [] => 0
  | CallLoadModel _ :: rest => S (load_attempts rest)
  | _ :: rest => load_attempts rest
  end.

Declare Scope monad_scope.
Delimit Scope monad_scope with monad.
Notation "x <- m ;; k" := (bind m (fun x => k))
  (at level 100, m at next level, right associativity) : monad_scope.
Notation "m ;; k" := (bind m (fun _ => k))
  (at level 100, right associativity) : monad_scope.
#[global] Open Scope monad_scope.

(** The value and the final world of a run. *)
Definition result {A} (r : Exc A * world) : Exc A := fst r.
Definition final {A} (r : Exc A * world) : world := snd r.

(** A computation that calls [load_model] no further time. *)
Definition keeps_loads {A} (m : M A) : Prop :=
  forall w, load_attempts (calls (final (m w))) = load_attempts (calls w).

(** *** The clock *)

Definition tick : M instant :=
  fun w => (inr (clock w (ticks w)), with_ticks (S (ticks w)) w).

(** [time.time()]. *)
Definition time_time : M Q := i <- tick ;; ret (epoch i).

(** [datetime.now()]. *)
Definition datetime_now : M datetime := i <- tick ;; ret (local i).

(** *** The file system *)

(** [os.path.exists(path)]. *)
Definition os_path_exists (path : string) : M bool :=
  gets (fun w => match fs w !! path with Some _ => true | None => false end).

(** [os.getcwd()]. *)
Definition os_getcwd : M string := gets cwd.

(** [os.path.join(a, b)] on POSIX. *)
Definition os_path_join (a b : string) : string :=
  if str_startswith_char b "/" then b
  else match a with
       | "" => b
       | _ => if str_endswith_char a "/" then a ++ b else a ++ "/" ++ b
       end.

(** The directory part of a path: what precedes its last ["/"], [None] for a
    path without one (a name in the working directory). *)
Fixpoint dirname (path : string) : option string :=
  match path with
  | "" => None
  | String c rest =>
      match dirname rest with
      | Some d => Some (String c d)
      | None => if Ascii.eqb c "/" then Some "" else None
      end
  end.

(** A name without ["/"]: it has no directory part. *)
Fixpoint slash_free (name : string) : bool :=
  match name with
  | "" => true
  | String c rest => negb (Ascii.eqb c "/") && slash_free rest
  end.

(** [os.makedirs(path)] for a path whose parent exists: raises when [path]
    is there already. *)
Definition os_makedirs (path : string) : M unit :=
  fun w =>
    match fs w !! path with
    | Some _ => (inl ("[Errno 17] File exists: '" ++ path ++ "'"), w)
    | None =>
        match write_fault w path with
        | Some e => (inl e, w)
        | None => (inr tt, with_fs (<[path := Dir]> (fs w)) w)
        end
    end.

(** [open(path, 'wb')]: the directory part must be a directory and [path]
    must not be one; the file is created, or truncated when it is there
    already. *)
Definition open_wb (path : string) : M unit :=
  fun w =>
    let parent :=
      match dirname path with
      | None | Some "" => Some Dir
      | Some d => fs w !! d
      end in
    match parent with
    | None => (inl ("[Errno 2] No such file or directory: '" ++ path ++ "'"), w)
    | Some (File _) => (inl ("[Errno 20] Not a directory: '" ++ path ++ "'"), w)
    | Some Dir =>
        match fs w !! path with
        | Some Dir => (inl ("[Errno 21] Is a directory: '" ++ path ++ "'"), w)
        | _ =>
            match write_fault w path with
            | Some e => (inl e, w)
            | None => (inr tt, with_fs (<[path := File []]> (fs w)) w)
            end
        end
    end.

(** [f.write(data)] on the file just opened, and its closing: the file
    holds [data] afterwards, or what had been written of it when the
    operating system raised its error. *)
Definition file_write (path : string) (data : list byte) : M unit :=
  fun w =>
    match io_fault w path with
    | Some (e, n) => (inl e, with_fs (<[path := File (take n data)]> (fs w)) w)
    | None => (inr tt, with_fs (<[path := File data]> (fs w)) w)
    end.

(** [with open(path, 'wb') as f: f.write(data)]. *)
Definition open_wb_write (path : string) (data : list byte) : M unit :=
  open_wb path;;
  file_write path data.

(** [open(path, 'rb').read()], [None] when there is no such file. *)
Definition read_file (path : string) (w : world) : option (list byte) :=
  match fs w !! path with
  | Some (File data) => Some data
  | _ => None
  end.

End World.

(** ** yolo_detector.py *)

Module Detector.
Import PyNum Py Lib World.

(** The dictionaries [detect_objects] builds. *)
Record BoundingBox := mk_BoundingBox {
  x1 : Z; y1 : Z; x2 : Z; y2 : Z; width : Z; height : Z
}.

Record DetectionInfo := mk_DetectionInfo {
  object : string;
  confidence : Q;
  bounding_box : BoundingBox
}.

Record ImageDimensions := mk_ImageDimensions {
  image_width : Z;
  image_height : Z
}.

Record DetectionResults := mk_DetectionResults {
  total_objects : Z;
  objects_detected : list DetectionInfo;
  image_dimensions : ImageDimensions
}.

(** Assignments to the attributes of the singleton. *)
Definition set_model (m : option Model) : M unit :=
  modify (fun w =>
    let d := yolo_detector w in
    with_detector {| model := m; model_loaded := model_loaded d;
                     last_load_attempt := last_load_attempt d;
                     load_error := load_error d |} w).

Definition set_model_loaded (b : bool) : M unit :=
  modify (fun w =>
    let d := yolo_detector w in
    with_detector {| model := model d; model_loaded := b;
                     last_load_attempt := last_load_attempt d;
                     load_error := load_error d |} w).

Definition set_last_load_attempt (t : option datetime) : M unit :=
  modify (fun w =>
    let d := yolo_detector w in
    with_detector {| model := model d; model_loaded := model_loaded d;
                     last_load_attempt := t;
                     load_error := load_error d |} w).

Definition set_load_error (e : option string) : M unit :=
  modify (fun w =>
    let d := yolo_detector w in
    with_detector {| model := model d; model_loaded := model_loaded d;
                     last_load_attempt := last_load_attempt d;
                     load_error := e |} w).

(** [np.zeros((640, 640, 3), dtype=np.uint8)]. *)
Definition dummy_image : ndarray := np_zeros (640, 640, 3).

Section WithLibraries.
Context (lib : Libraries).

(** [YOLO(model_path)]: the constructor reads the node at [model_path]. *)
Definition call_YOLO (model_path : string) : M Model :=
  log_call (CallYOLO model_path);;
  nd <- gets (fun w => fs w !! model_path);;
  match nd with
  | Some n => lift (YOLO lib model_path n)
  | None => raise ("[Errno 2] No such file or directory: '" ++ model_path ++ "'")
  end.

(** [self.model(img, conf=..., verbose=False)]; calling [None] raises. *)
Definition call_model (img : ndarray) (conf : option Q) : M (Model * list Results) :=
  self_model <- gets (fun w => model (yolo_detector w));;
  match self_model with
  | None => raise "'NoneType' object is not callable"
  | Some m =>
      log_call (CallModel m img conf);;
      results <- lift (predict m img conf);;
      ret (m, results)
  end.

(** [YOLODetector.load_model].  Lines 39-43 (the size of the file, which is
    only logged) and lines 59-61 (the class names, only logged) are left
    out. *)
Definition load_model (model_path : option string) : M bool :=
  log_call (CallLoadModel model_path);;
  try_except
    (let model_path := str_or model_path "best.pt" in
     now <- datetime_now;;
     set_last_load_attempt (Some now);;
     found <- os_path_exists model_path;;
     if negb found then
       here <- os_getcwd;;
       set_load_error
         (Some ("YOLO model file '" ++ model_path ++ "' not found in " ++ here));;
       ret false
     else
       m <- call_YOLO model_path;;
       set_model (Some m);;
       test_results <- call_model dummy_image None;;
       set_model_loaded true;;
       set_load_error None;;
       ret true)
    (fun e =>
       set_load_error (Some ("Error loading YOLO model: " ++ e));;
       ret false).

(** The label of a class id: [names[class_id]], or ["class_<id>"]. *)
Definition class_name (m : Model) (class_id : Z) : string :=
  match names m !! class_id with
  | Some name => name
  | None => "class_" ++ pretty class_id
  end.

(** The dictionary built for one box (lines 95-113). *)
Definition detection_info (m : Model) (box : Box) : DetectionInfo :=
  let confidence := float (conf box) in
  let class_id := py_int (float (cls box)) in
  let '(bx1, by1, bx2, by2) := xyxy box in
  let '(bx1, by1, bx2, by2) := (float bx1, float by1, float bx2, float by2) in
  {| object := class_name m class_id;
     confidence := py_round_n 1 (float_mul confidence 100);
     bounding_box :=
       {| x1 := py_round bx1; y1 := py_round by1;
          x2 := py_round bx2; y2 := py_round by2;
          width := py_round (float_sub bx2 bx1);
          height := py_round (float_sub by2 by1) |} |}.

(** The body of the inner loop: append, and count. *)
Definition process_box (m : Model) (acc : list DetectionInfo * Z) (box : Box)
  : list DetectionInfo * Z :=
  let '(detections, total) := acc in
  ((detections ++ [detection_info m box])%list, total + 1).

(** The body of the outer loop: skip a result whose [boxes] is [None]. *)
Definition process_result (m : Model) (acc : list DetectionInfo * Z) (r : Results)
  : list DetectionInfo * Z :=
  match boxes r with
  | Some bs => fold_left (process_box m) bs acc
  | None => acc
  end.

(** The boxes a model call emitted, in emission order: those of every result
    whose [boxes] is not [None]. *)
Definition all_boxes (results : list Results) : list Box :=
  flat_map (fun r => default [] (boxes r)) results.

(** A box whose corners come ordered, one whose confidence is a
    probability, and one whose corners are at most [2^50] in magnitude. *)
Definition corner_ordered (b : Box) : Prop :=
  let '(bx1, by1, bx2, by2) := xyxy b in
  (float bx1 <= float bx2)%Q /\ (float by1 <= float by2)%Q.

Definition probability (b : Box) : Prop :=
  (0 <= float (conf b))%Q /\ (float (conf b) <= 1)%Q.

Definition in_frame (b : Box) : Prop :=
  let '(bx1, by1, bx2, by2) := xyxy b in
  (Qabs (float bx1) <= 2 ^ 50)%Q /\ (Qabs (float by1) <= 2 ^ 50)%Q /\
  (Qabs (float bx2) <= 2 ^ 50)%Q /\ (Qabs (float by2) <= 2 ^ 50)%Q.

(** [YOLODetector.detect_objects]: the pair [(result, error)]. *)
Definition detect_objects (image_data : list byte)
  : M (option DetectionResults * option string) :=
  loaded <- gets (fun w => model_loaded (yolo_detector w));;
  if negb loaded then ret (None, Some "YOLO model not loaded")
  else
    try_except
      (log_call (CallImdecode image_data);;
       decoded <- lift (cv2_imdecode lib image_data);;
       match decoded with
       | None => ret (None, Some "Failed to decode image")
       | Some img =>
           called <- call_model img (Some (float_literal (3 # 10)));;
           let '(m, results) := called in
           let '(detections, total) :=
             fold_left (process_result m) results ([], 0) in
           let '(rows, cols, _) := shape img in
           ret (Some {| total_objects := total;
                        objects_detected := detections;
                        image_dimensions :=
                          {| image_width := cols; image_height := rows |} |},
                None)
       end)
      (fun e => ret (None, Some ("Detection error: " ++ e))).

(** What a load of [path] meets in a world: no file, a file that does not
    parse, a model that parses and fails the test inference, or a model that
    passes it. *)
Inductive load_outcome :=
  | FileMissing
  | ParseFailed (e : string)
  | SmokeFailed (m : Model) (e : string)
  | Loadable (m : Model).

Definition outcome_at (path : string) (w : world) : load_outcome :=
  match fs w !! path with
  | None => FileMissing
  | Some nd =>
      match YOLO lib path nd with
      | inl e => ParseFailed e
      | inr m =>
          match predict m dummy_image None with
          | inl e => SmokeFailed m e
          | inr _ => Loadable m
          end
      end
  end.

Definition loadable (path : string) (w : world) : bool :=
  match outcome_at path w with
  | Loadable _ => true
  | _ => false
  end.

(** The calls a load adds and the detector it leaves behind, read off
    [load_model] branch by branch; [Lifecycle.load_model_run] proves that this
    is what the function does. *)
Definition calls_of_load (mp : option string) (path : string) (o : load_outcome)
  : list call :=
  match o with
  | FileMissing => [CallLoadModel mp]
  | ParseFailed _ => [CallLoadModel mp; CallYOLO path]
  | SmokeFailed m _ | Loadable m =>
      [CallLoadModel mp; CallYOLO path; CallModel m dummy_image None]
  end.

Definition detector_after_load
    (path here : string) (now : datetime) (d : YOLODetector) (o : load_outcome)
  : YOLODetector :=
  match o with
  | FileMissing =>
      {| model := model d; model_loaded := model_loaded d;
         last_load_attempt := Some now;
         load_error :=
           Some ("YOLO model file '" ++ path ++ "' not found in " ++ here) |}
  | ParseFailed e =>
      {| model := model d; model_loaded := model_loaded d;
         last_load_attempt := Some now;
         load_error := Some ("Error loading YOLO model: " ++ e) |}
  | SmokeFailed m e =>
      {| model := Some m; model_loaded := model_loaded d;
         last_load_attempt := Some now;
         load_error := Some ("Error loading YOLO model: " ++ e) |}
  | Loadable m =>
      {| model := Some m; model_loaded := true;
         last_load_attempt := Some now; load_error := None |}
  end.

(** [initialize_yolo] (its printing left out). *)
Definition initialize_yolo : M bool :=
  success <- load_model None;;
  ret success.

End WithLibraries.

End Detector.

(** ** main.py: the two POST handlers *)

Module Server.
Import PyNum Py Lib World Detector.

(** The request, as the handlers use it: [await request.body()]. *)
Record Request := mk_Request {
  body : list byte
}.

(** [JSONResponse(content, status_code=...)]; the status defaults to 200. *)
Record JSONResponse := mk_JSONResponse {
  content : json;
  status_code : Z
}.

(** [round(time.time() - start_time, 3)]. *)
Definition elapsed (start_time : Q) : M Q :=
  t <- time_time;;
  ret (py_round_n 3 (float_sub t start_time)).

(** The error body shared by the failure returns:
    [{"status": "error", "error": msg, "processing_time": ...}]. *)
Definition error_response (status : Z) (msg : string) (start_time : Q)
  : M JSONResponse :=
  processing_time <- elapsed start_time;;
  ret {| content := JDict [("status", JStr "error");
                           ("error", JStr msg);
                           ("processing_time", JFloat processing_time)];
         status_code := status |}.

(** The detector's dictionaries as JSON. *)
Definition bounding_box_json (b : BoundingBox) : json :=
  JDict [("x1", JInt (x1 b)); ("y1", JInt (y1 b));
         ("x2", JInt (x2 b)); ("y2", JInt (y2 b));
         ("width", JInt (width b)); ("height", JInt (height b))].

Definition detection_json (d : DetectionInfo) : json :=
  JDict [("object", JStr (object d));
         ("confidence", JFloat (confidence d));
         ("bounding_box", bounding_box_json (bounding_box d))].

Definition dimensions_json (d : ImageDimensions) : json :=
  JDict [("width", JInt (image_width d)); ("height", JInt (image_height d))].

(** An error answer with the given status and message. *)
Definition is_error_response (status : Z) (msg : string) (r : Exc JSONResponse)
  : Prop :=
  exists resp,
    r = inr resp /\ status_code resp = status /\
    jget "status" (content resp) = Some (JStr "error") /\
    jget "error" (content resp) = Some (JStr msg).

(** The answers the specification names [PayloadTooSmall] and
    [ModelNotLoaded]. *)
Definition PayloadTooSmall (r : Exc JSONResponse) : Prop :=
  is_error_response 400 "Image too small - minimum 1KB required" r.

Definition ModelNotLoaded (r : Exc JSONResponse) : Prop :=
  is_error_response 503 "YOLO model not loaded" r.

(** A success answer of [/upload-image] that names [path] as [saved_to]. *)
Definition saved_as (path : string) (r : Exc JSONResponse) : Prop :=
  exists resp,
    r = inr resp /\ status_code resp = 200 /\
    jget "status" (content resp) = Some (JStr "success") /\
    jget "saved_to" (content resp) = Some (JStr path).

(** The path [upload_image_direct] writes for a timestamp. *)
Definition upload_path (stamp : datetime) : string :=
  "received_images/esp32_image_" ++ strftime_Ymd_HMS stamp ++ ".jpg".

(** The JPEG start-of-image and end-of-image markers. *)
Definition is_jpeg (image_data : list byte) : bool :=
  startswith image_data [xff; xd8] && endswith image_data [xff; xd9].

Section WithLibraries.
Context (lib : Libraries).

(** Lines 68-151 of [yolo_detect_objects]: what the handler does once a
    model is there.  The summary of lines 137-149 is only logged and is left
    out. *)
Definition yolo_validate_and_detect
    (request : Request) (start_time : Q) (request_time : string)
  : M JSONResponse :=
  let image_data := body request in
  let image_size := Z.of_nat (length image_data) in
  if image_size <? 1000 then
    error_response 400 "Image too small - minimum 1KB required" start_time
  else if image_size >? 10 * 1024 * 1024 then
    error_response 413 "Image too large - maximum 10MB allowed" start_time
  else if negb (is_jpeg image_data) then
    error_response 400 "Invalid JPEG format" start_time
  else
    detection_start <- time_time;;
    detected <- detect_objects lib image_data;;
    let '(detection_results, error) := detected in
    detection_time <- elapsed detection_start;;
    if truthy error then
      error_response 500 (str_or error "") start_time
    else
      processing_time <- elapsed start_time;;
      match detection_results with
      | None => raise "'NoneType' object is not subscriptable"
      | Some res =>
          ret {| content :=
                   JDict [("status", JStr "success");
                          ("message", JStr "YOLO detection completed successfully");
                          ("image_info",
                           JDict [("size_bytes", JInt image_size);
                                  ("size_kb",
                                   JFloat (py_round_n 1
                                     (float_div (inject_Z image_size) 1024)));
                                  ("dimensions", dimensions_json (image_dimensions res));
                                  ("format", JStr "JPEG")]);
                          ("detection_results",
                           JDict [("total_objects", JInt (total_objects res));
                                  ("objects_detected",
                                   JList (map detection_json (objects_detected res)));
                                  ("detection_time", JFloat detection_time)]);
                          ("processing_time", JFloat processing_time);
                          ("server_timestamp", JStr request_time)];
                 status_code := 200 |}
      end.

(** The 503 answer of lines 60-66. *)
Definition model_not_loaded_response (start_time : Q) : M JSONResponse :=
  d <- gets yolo_detector;;
  processing_time <- elapsed start_time;;
  ret {| content :=
           JDict [("status", JStr "error");
                  ("error", JStr "YOLO model not loaded");
                  ("details",
                   JStr (str_or (load_error d) "Unknown model loading error"));
                  ("last_attempt",
                   match last_load_attempt d with
                   | Some t => JStr (isoformat t)
                   | None => JNull
                   end);
                  ("processing_time", JFloat processing_time)];
         status_code := 503 |}.

(** [POST /yolo-detect]: the model check comes first, before the body is
    read. *)
Definition yolo_detect_objects (request : Request) : M JSONResponse :=
  start_time <- time_time;;
  now <- datetime_now;;
  let request_time := isoformat now in
  try_except
    (loaded <- gets (fun w => model_loaded (yolo_detector w));;
     if negb loaded then
       reload_success <- load_model lib None;;
       if negb reload_success then model_not_loaded_response start_time
       else yolo_validate_and_detect request start_time request_time
     else yolo_validate_and_detect request start_time request_time)
    (fun e => error_response 500 ("YOLO detection error: " ++ e) start_time).

(** [POST /upload-image]. *)
Definition upload_image_direct (request : Request) : M JSONResponse :=
  start_time <- time_time;;
  now <- datetime_now;;
  let request_time := isoformat now in
  try_except
    (let image_data := body request in
     let image_size := Z.of_nat (length image_data) in
     if image_size <? 1000 then
       error_response 400 "Image too small - minimum 1KB required" start_time
     else if image_size >? 5 * 1024 * 1024 then
       error_response 413 "Image too large - maximum 5MB allowed" start_time
     else if negb (is_jpeg image_data) then
       error_response 400 "Invalid JPEG format" start_time
     else
       stamp <- datetime_now;;
       let timestamp := strftime_Ymd_HMS stamp in
       let filename := "esp32_image_" ++ timestamp ++ ".jpg" in
       let save_dir := "received_images" in
       there <- os_path_exists save_dir;;
       (if negb there then os_makedirs save_dir else ret tt);;
       let file_path := os_path_join save_dir filename in
       open_wb_write file_path image_data;;
       processing_time <- elapsed start_time;;
       ret {| content :=
                JDict [("status", JStr "success");
                       ("message", JStr "Image received and saved successfully");
                       ("image_info",
                        JDict [("filename", JStr filename);
                               ("size_bytes", JInt image_size);
                               ("size_kb",
                                JFloat (py_round_n 1
                                  (float_div (inject_Z image_size) 1024)));
                               ("format", JStr "JPEG")]);
                       ("processing_time", JFloat processing_time);
                       ("server_timestamp", JStr request_time);
                       ("saved_to", JStr file_path)];
              status_code := 200 |})
    (fun e => error_response 500 ("Save error: " ++ e) start_time).

End WithLibraries.

(** *** The server over time *)

(** The test inference, on the blank image and without a confidence
    threshold, has been run on [m] and has returned. *)
Definition smoke_passed (m : Model) (cs : list call) : Prop :=
  CallModel m dummy_image None ∈ cs /\
  exists res, predict m dummy_image None = inr res.

(** A detector that says it is loaded holds a model that has passed the
    test inference. *)
Definition loaded_means_tested (w : world) : Prop :=
  model_loaded (yolo_detector w) = true ->
  exists m, model (yolo_detector w) = Some m /\ smoke_passed m (calls w).

(** A property of the world that a computation keeps. *)
Definition preserves {A} (I : world -> Prop) (m : M A) : Prop :=
  forall w, I w -> I (final (m w)).

(** The worlds a running server can be in: it starts with the detector
    [YOLODetector()] builds; then [load_model] is called while nothing is
    loaded (at startup by [initialize_yolo]; the handler makes its own call
    under [if not yolo_detector.model_loaded]), requests are served,
    [detect_objects] is called, and files come and go. *)
Inductive reachable (lib : Libraries) : world -> Prop :=
  | reach_start w :
      yolo_detector w = YOLODetector_init -> reachable lib w
  | reach_load_model mp w :
      reachable lib w -> model_loaded (yolo_detector w) = false ->
      reachable lib (final (load_model lib mp w))
  | reach_detect_objects image_data w :
      reachable lib w -> reachable lib (final (detect_objects lib image_data w))
  | reach_yolo_detect request w :
      reachable lib w -> reachable lib (final (yolo_detect_objects lib request w))
  | reach_upload request w :
      reachable lib w -> reachable lib (final (upload_image_direct request w))
  | reach_files files w :
      reachable lib w -> reachable lib (with_fs files w).

End Server.

(** ** main.py: the rest of the application *)

Module Application.
Import PyNum Py Lib World Detector Server.

(** The middleware [log_requests] (lines 31-44): it reads the clock, awaits
    the handler, reads the clock again and hands the response on.  An
    exception of the handler passes through it. *)
Definition log_requests {A} (call_next : M A) : M A :=
  start_time <- time_time;;
  response <- call_next;;
  finish_time <- time_time;;
  ret response.

(** [GET /] and [GET /health]. *)
Definition root : M JSONResponse :=
  ret {| content := JDict [("status", JStr "online");
                           ("message", JStr "Image Processing API is running")];
         status_code := 200 |}.

Definition health_check : M JSONResponse :=
  ret {| content := JDict [("status", JStr "ok")]; status_code := 200 |}.

(** The tally of lines 139-145, a dictionary in insertion order: a label
    already present has its count raised in place, a new one is appended
    with count 1. *)
Fixpoint summary_add (obj_name : string) (summary : list (string * Z))
  : list (string * Z) :=
  match summary with
  | [] => [(obj_name, 1)]
  | (k, count) :: rest =>
      if String.eqb obj_name k then (k, count + 1) :: rest
      else (k, count) :: summary_add obj_name rest
  end.

Definition object_summary (detections : list DetectionInfo) : list (string * Z) :=
  fold_left (fun summary d => summary_add (object d) summary) detections [].

(** [", ".join(parts)]. *)
Fixpoint join (sep : string) (parts : list string) : string :=
  match parts with
  | [] => ""
  | [part] => part
  | part :: rest => part ++ sep ++ join sep rest
  end.

(** Line 147: [", ".join([f"{count}x {obj}" for obj, count in ...items()])]. *)
Definition summary_str (summary : list (string * Z)) : string :=
  join ", " (map (fun entry => pretty (snd entry) ++ "x " ++ fst entry) summary).

(** [summary[name]], with 0 for a label that is not there. *)
Fixpoint summary_count (obj_name : string) (summary : list (string * Z)) : Z :=
  match summary with
  | [] => 0
  | (k, count) :: rest =>
      if String.eqb obj_name k then count else summary_count obj_name rest
  end.

(** How many detections carry the label. *)
Fixpoint occurrences (obj_name : string) (detections : list DetectionInfo) : Z :=
  match detections with
  | [] => 0
  | d :: rest =>
      (if String.eqb obj_name (object d) then 1 else 0) + occurrences obj_name rest
  end.

(** The counts of a tally added up. *)
Fixpoint summary_total (summary : list (string * Z)) : Z :=
  match summary with
  | [] => 0
  | (_, count) :: rest => count + summary_total rest
  end.

(** How many times the decoder and a model have been called. *)
Fixpoint decodes (cs : list call) : nat :=
  match cs with
  | [] => 0
  | CallImdecode _ :: rest => S (decodes rest)
  | _ :: rest => decodes rest
  end.

Fixpoint inferences (cs : list call) : nat :=
  match cs with
  | [] => 0
  | CallModel _ _ _ :: rest => S (inferences rest)
  | _ :: rest => inferences rest
  end.

(** The body every error answer has: [status], a non-empty [error] and the
    [processing_time]. *)
Definition error_body (resp : JSONResponse) : Prop :=
  jget "status" (content resp) = Some (JStr "error") /\
  (exists msg, jget "error" (content resp) = Some (JStr msg) /\ msg <> "") /\
  (exists t, jget "processing_time" (content resp) = Some (JFloat t)).

Definition success_body (resp : JSONResponse) : Prop :=
  jget "status" (content resp) = Some (JStr "success") /\
  (exists t, jget "processing_time" (content resp) = Some (JFloat t)).

(** An answer is a 200 success or an error with one of the given codes. *)
Definition answer_within (codes : list Z) (resp : JSONResponse) : Prop :=
  (status_code resp = 200 /\ success_body resp) \/
  (status_code resp ∈ codes /\ error_body resp).

(** The file system lets the file of an upload be opened: [received_images]
    is a directory or can be made one, [path] is no directory, and the
    operating system raises no error on either. *)
Definition openable (path : string) (w : world) : bool :=
  match fs w !! "received_images" with
  | Some Dir => true
  | Some (File _) => false
  | None =>
      match write_fault w "received_images" with
      | None => true
      | Some _ => false
      end
  end
  && match fs w !! path with
     | Some Dir => false
     | _ => true
     end
  && match write_fault w path with
     | None => true
     | Some _ => false
     end.

(** The file system lets an upload through: the file can be opened and the
    writing is not interrupted. *)
Definition writable (path : string) (w : world) : bool :=
  openable path w
  && match io_fault w path with
     | None => true
     | Some _ => false
     end.

(** The files after an upload that made [received_images], if it could and
    had to, and wrote nothing. *)
Definition fs_with_directory (w : world) : gmap string node :=
  match fs w !! "received_images", write_fault w "received_images" with
  | None, None => <["received_images" := Dir]> (fs w)
  | _, _ => fs w
  end.

(** What an upload does, in full: the three checks in their order, then the
    directory and the file. *)
Definition uploaded (request : Request) (w : world)
    (resp : JSONResponse) (w' : world) : Prop :=
  let size := Z.of_nat (length (body request)) in
  let path := upload_path (local (clock w (S (S (ticks w))))) in
  yolo_detector w' = yolo_detector w /\
  calls w' = calls w /\
  if size <? 1000 then
    PayloadTooSmall (inr resp) /\ fs w' = fs w
  else if size >? 5 * 1024 * 1024 then
    is_error_response 413 "Image too large - maximum 5MB allowed" (inr resp) /\
    fs w' = fs w
  else if negb (is_jpeg (body request)) then
    is_error_response 400 "Invalid JPEG format" (inr resp) /\ fs w' = fs w
  else if writable path w then
    saved_as path (inr resp) /\
    fs w' = <[path := File (body request)]> (<["received_images" := Dir]> (fs w))
  else
    (exists e, is_error_response 500 ("Save error: " ++ e) (inr resp)) /\
    fs w' = if openable path w
            then match io_fault w path with
                 | Some (_, n) =>
                     <[path := File (take n (body request))]> (fs_with_directory w)
                 | None => fs_with_directory w
                 end
            else fs_with_directory w.

(** What a 200 answer of [/yolo-detect] says about the request: the payload
    passed the three checks, [size_bytes] is its length and [total_objects]
    is the length of [objects_detected]. *)
Definition detect_success_shape (request : Request) (resp : JSONResponse) : Prop :=
  let size := Z.of_nat (length (body request)) in
  (1000 <= size <= 10 * 1024 * 1024 /\ is_jpeg (body request) = true) /\
  exists info found n objects,
    jget "image_info" (content resp) = Some info /\
    jget "size_bytes" info = Some (JInt size) /\
    jget "detection_results" (content resp) = Some found /\
    jget "total_objects" found = Some (JInt n) /\
    jget "objects_detected" found = Some (JList objects) /\
    n = Z.of_nat (length objects).

(** A computation that never raises, and one whose value, when it returns
    one, satisfies [P]. *)
Definition no_raise {A} (m : M A) : Prop :=
  forall w, exists a, result (m w) = inr a.

Definition post {A} (P : A -> Prop) (m : M A) : Prop :=
  forall w a, result (m w) = inr a -> P a.

Section WithLibraries.
Context (lib : Libraries).

(** What [detect_objects] returns as its error, case by case. *)
Definition detect_error (image_data : list byte) (w : world)
  : option string :=
  if negb (model_loaded (yolo_detector w)) then Some "YOLO model not loaded"
  else
    match cv2_imdecode lib image_data with
    | inl e => Some ("Detection error: " ++ e)
    | inr None => Some "Failed to decode image"
    | inr (Some img) =>
        match model (yolo_detector w) with
        | None => Some "Detection error: 'NoneType' object is not callable"
        | Some m =>
            match predict m img (Some (float_literal (3 # 10))) with
            | inl e => Some ("Detection error: " ++ e)
            | inr _ => None
            end
        end
    end.

(** What the handler does once a model is there, in full: the three checks
    in their order, then one decoding and at most one inference. *)
Definition validated (request : Request) (w : world)
    (resp : JSONResponse) (w' : world) : Prop :=
  let size := Z.of_nat (length (body request)) in
  yolo_detector w' = yolo_detector w /\
  fs w' = fs w /\
  if size <? 1000 then
    PayloadTooSmall (inr resp) /\ calls w' = calls w
  else if size >? 10 * 1024 * 1024 then
    is_error_response 413 "Image too large - maximum 10MB allowed" (inr resp) /\
    calls w' = calls w
  else if negb (is_jpeg (body request)) then
    is_error_response 400 "Invalid JPEG format" (inr resp) /\ calls w' = calls w
  else
    (exists extra,
       calls w' = (calls w ++ extra)%list /\
       decodes extra = 1%nat /\ (inferences extra <= 1)%nat /\
       load_attempts extra = 0%nat) /\
    match detect_error (body request) w with
    | Some msg => is_error_response 500 msg (inr resp)
    | None => status_code resp = 200 /\ success_body resp
    end.

(** Detection requests served one after the other, each through the
    middleware. *)
Fixpoint serve_all (requests : list Request) : M (list JSONResponse) :=
  match requests with
  | [] => ret []
  | request :: rest =>
      response <- log_requests (yolo_detect_objects lib request);;
      responses <- serve_all rest;;
      ret (response :: responses)
  end.

(** The [__main__] block of main.py as far as the detector goes: the model
    is loaded once before the server starts. *)
Definition startup : M bool := initialize_yolo lib.

End WithLibraries.

End Application.

(** ** Sample worlds

    Concrete libraries, models, images and worlds on which the statements
    below are evaluated. *)

Module Samples.
Import PyNum Py Lib World Detector Server.

(** A 1000-byte payload between the two JPEG markers, filled with [fill]. *)
Definition jpeg_of (fill : byte) : list byte :=
  ([xff; xd8] ++ repeat fill 996 ++ [xff; xd9])%list.

Definition tomato_jpeg : list byte := jpeg_of x00.
Definition empty_jpeg : list byte := jpeg_of x01.
Definition short_payload : list byte := [xff; xd8; xff; xd9].

(** A decoded 480 x 640 picture. *)
Definition picture : ndarray :=
  {| shape := (480, 640, 3); item := fun _ _ _ => x7f |}.

(** The single-precision number of value [q] (zero when there is none). *)
Definition single (q : Q) : float32 :=
  match is_float32 q as ok return is_float32 q = ok -> float32 with
  | true => fun H => mk_float32 q H
  | false => fun _ => mk_float32 0 eq_refl
  end eq_refl.

(** A box whose corners lie on quarter pixels. *)
Definition quarter_box : Box :=
  {| conf := single (7 # 8); cls := single 1;
     xyxy := (single (1 # 4), single 10, single (3 # 4), single (25 # 2)) |}.

Definition tomato_box : Box :=
  {| conf := single (15 # 16); cls := single 0;
     xyxy := (single 12, single 20, single 112, single 170) |}.

(** A box whose left edge is at [2^-100] and whose right edge is at [1.5]:
    the float difference is [1.5]. *)
Definition sliver_box : Box :=
  {| conf := single (1 # 2); cls := single 0;
     xyxy := (single (1 # 2 ^ 100), single 0, single (3 # 2), single 1) |}.

(** A box from [-100] to [2^60]. *)
Definition wide_box : Box :=
  {| conf := single (1 # 2); cls := single 0;
     xyxy := (single (-100), single 0, single (inject_Z (2 ^ 60)), single 1) |}.

(** A model that finds two objects in a picture of height 480 and nothing in
    any other array (so nothing in the blank 640 x 640 test image). *)
Definition veggie_model : Model :=
  {| names := {[ 0 := "tomato" ]};
     predict := fun img _ =>
       match shape img with
       | (480, _, _) => inr [mk_Results (Some [tomato_box; quarter_box])]
       | _ => inr [mk_Results (Some [])]
       end |}.

(** A model that finds nothing, and one that parses but cannot run. *)
Definition blind_model : Model :=
  {| names := {[ 0 := "tomato" ]};
     predict := fun _ _ => inr [mk_Results None; mk_Results (Some [])] |}.

Definition broken_model : Model :=
  {| names := ∅;
     predict := fun _ _ => inl "CUDA error: no kernel image is available" |}.

(** The artifact's first byte selects the model; anything else does not parse. *)
Definition sample_lib : Libraries :=
  {| YOLO := fun _ nd =>
       match nd with
       | File (x01 :: _) => inr veggie_model
       | File (x02 :: _) => inr blind_model
       | File (x03 :: _) => inr broken_model
       | File _ => inl "invalid load key"
       | Dir => inl "[Errno 21] Is a directory"
       end;
     cv2_imdecode := fun buf =>
       match buf with
       | [] => inl "OpenCV: (-215:Assertion failed) !buf.empty()"
       | _ => if is_jpeg buf then inr (Some picture) else inr None
       end |}.

(** A clock whose readings all fall in one second, 09:05:59 on 2024-03-07,
    about a millisecond apart; the readings of [time.time()] are doubles,
    1/1024 of a second apart. *)
Definition fast_clock (n : nat) : instant :=
  {| epoch := (Z.of_nat n + 1750837615616) # 1024;
     local := mk_datetime 2024 3 7 9 5 59 (Z.of_nat n * 1000) |}.

(** A clock that advances one second per reading. *)
Definition slow_clock (n : nat) : instant :=
  {| epoch := inject_Z (Z.of_nat n + 1709802300);
     local := mk_datetime 2024 3 7 9 5 (Z.of_nat n) 0 |}.

(** A freshly started server: nothing loaded, an empty working directory. *)
Definition fresh_world (clk : nat -> instant) : world :=
  {| yolo_detector := YOLODetector_init;
     fs := ∅; cwd := "/srv/app";
     write_fault := fun _ => None; io_fault := fun _ => None;
     clock := clk; ticks := 0; calls := [] |}.

(** The same with an artifact [best.pt] whose first byte is [tag]. *)
Definition world_with_artifact (tag : byte) (clk : nat -> instant) : world :=
  with_fs {[ "best.pt" := File [tag; x50; x4b] ]} (fresh_world clk).

(** A server whose detector holds [m], loaded. *)
Definition world_loaded (m : Model) (clk : nat -> instant) : world :=
  with_detector
    {| model := Some m; model_loaded := true;
       last_load_attempt := Some (local (clk 0%nat)); load_error := None |}
    (fresh_world clk).

End Samples.

(** ** Further sample worlds *)

Module MoreSamples.
Import PyNum Py Lib World Detector Server Samples.

(** 1000 bytes without the JPEG markers. *)
Definition plain_payload : list byte := repeat x00 1000.

(** A payload one byte longer than [limit]. *)
Definition oversized (limit : Z) : list byte := repeat x00 (Z.to_nat (limit + 1)).

(** A model that passes the test inference and raises on a real picture. *)
Definition flaky_model : Model :=
  {| names := {[ 0 := "tomato" ]};
     predict := fun img _ =>
       match shape img with
       | (480, _, _) => inl "CUDA out of memory"
       | _ => inr []
       end |}.

(** A decoder that rejects payloads filled with [x01] and raises on those
    filled with [x02], and a constructor that knows the flaky model. *)
Definition picky_lib : Libraries :=
  {| YOLO := fun path nd =>
       match nd with
       | File (x04 :: _) => inr flaky_model
       | _ => YOLO sample_lib path nd
       end;
     cv2_imdecode := fun buf =>
       match buf with
       | _ :: _ :: x01 :: _ => inr None
       | _ :: _ :: x02 :: _ => inl "OpenCV: unsupported image"
       | _ => cv2_imdecode sample_lib buf
       end |}.

(** A working directory in which [received_images] is a regular file. *)
Definition world_blocked (clk : nat -> instant) : world :=
  with_fs {[ "received_images" := File [] ]} (fresh_world clk).

(** A disk that fills up: writing to a file stops after its first 100
    bytes. *)
Definition world_full_disk (clk : nat -> instant) : world :=
  {| yolo_detector := YOLODetector_init;
     fs := ∅; cwd := "/srv/app";
     write_fault := fun _ => None;
     io_fault := fun _ => Some ("[Errno 28] No space left on device", 100%nat);
     clock := clk; ticks := 0; calls := [] |}.

(** Three detections with two labels. *)
Definition three_detections : list DetectionInfo :=
  let bb := {| x1 := 0; y1 := 0; x2 := 1; y2 := 1; width := 1; height := 1 |} in
  [ {| object := "tomato"; confidence := 90; bounding_box := bb |};
    {| object := "potato"; confidence := 80; bounding_box := bb |};
    {| object := "tomato"; confidence := 70; bounding_box := bb |} ].

End MoreSamples.

(** * Properties *)

(** ** Rounding and formatting *)

Module Rounding.
Import PyNum Py.

Example py_round_ties :
  (py_round (1 # 2), py_round (3 # 2), py_round (5 # 2), py_round (-1 # 2),
   py_round (-3 # 2), py_round (7 # 4), py_round (-7 # 4))
  = (0, 2, 2, 0, -2, 2, -2).
Proof. reflexivity. Qed.

(** [0.1] is the double [0x3FB999999999999A]; [round(18.75, 1)] is the
    double nearest to [18.8]; [0.3075 * 100] is the double [30.75] and rounds
    to the one nearest to [30.8]. *)
Example to_double_tenth : to_double (1 # 10) = 3602879701896397 # 2 ^ 55.
Proof. vm_compute. reflexivity. Qed.

Example py_round_n_tenths :
  py_round_n 1 (75 # 4) = to_double (188 # 10) /\
  float_mul (to_double (3075 # 10000)) 100 = (123 # 4)%Q /\
  py_round_n 1 (float_mul (to_double (3075 # 10000)) 100) = to_double (308 # 10).
Proof. repeat split; vm_compute; reflexivity. Qed.

(** The smallest doubles: half of [2^-1074] rounds to zero, one and a half
    times it to twice it. *)
Example to_double_subnormal :
  to_double (1 # 2 ^ 1075) = 0%Q /\ to_double (3 # 2 ^ 1075) = (1 # 2 ^ 1073)%Q.
Proof. split; vm_compute; reflexivity. Qed.

Lemma frac_bounds (q : Q) :
  (0 <= q - inject_Z (Qfloor q))%Q /\ (q - inject_Z (Qfloor q) < 1)%Q.
Proof.
  pose proof (Qfloor_le q) as Hlo.
  pose proof (Qlt_floor q) as Hhi.
  rewrite inject_Z_plus in Hhi.
  change (inject_Z 1) with 1%Q in Hhi.
  split; lra.
Qed.

(** The result is the floor or the floor plus one. *)
Lemma py_round_floor (q : Q) :
  py_round q = Qfloor q \/ py_round q = Qfloor q + 1.
Proof.
  unfold py_round.
  destruct (q - inject_Z (Qfloor q) ?= 1 # 2)%Q; auto.
  destruct (Z.even (Qfloor q)); auto.
Qed.

(** The rounding error is at most one half, in both directions. *)
Lemma py_round_lower (q : Q) : (q - (1 # 2) <= inject_Z (py_round q))%Q.
Proof.
  unfold py_round.
  destruct (frac_bounds q) as [H0 H1].
  destruct (Qcompare_spec (q - inject_Z (Qfloor q)) (1 # 2)) as [He | Hl | Hg];
    [destruct (Z.even (Qfloor q)) | |];
    rewrite ?inject_Z_plus; change (inject_Z 1) with 1%Q; lra.
Qed.

Lemma py_round_upper (q : Q) : (inject_Z (py_round q) <= q + (1 # 2))%Q.
Proof.
  unfold py_round.
  destruct (frac_bounds q) as [H0 H1].
  destruct (Qcompare_spec (q - inject_Z (Qfloor q)) (1 # 2)) as [He | Hl | Hg];
    [destruct (Z.even (Qfloor q)) | |];
    rewrite ?inject_Z_plus; change (inject_Z 1) with 1%Q; lra.
Qed.

(** [round] is monotone: the order of two floats survives rounding. *)
Lemma py_round_mono (p q : Q) : (p <= q)%Q -> py_round p <= py_round q.
Proof.
  intros Hpq.
  pose proof (Qfloor_resp_le _ _ Hpq) as Hfl.
  destruct (Z.eq_dec (Qfloor p) (Qfloor q)) as [Heq | Hne].
  - unfold py_round. rewrite <- Heq.
    destruct (Qcompare_spec (p - inject_Z (Qfloor p)) (1 # 2)) as [He | Hl | Hg];
      destruct (Qcompare_spec (q - inject_Z (Qfloor p)) (1 # 2)) as [He' | Hl' | Hg'];
      destruct (Z.even (Qfloor p)); try lia; exfalso; lra.
  - destruct (py_round_floor p) as [-> | ->], (py_round_floor q) as [-> | ->]; lia.
Qed.

(** An integer is its own rounding. *)
Lemma py_round_inject_Z (z : Z) : py_round (inject_Z z) = z.
Proof.
  unfold py_round. rewrite Qfloor_Z.
  destruct (Qcompare_spec (inject_Z z - inject_Z z) (1 # 2)) as [He | Hl | Hg];
    [exfalso; lra | reflexivity | exfalso; lra].
Qed.

Example strftime_sample :
  strftime_Ymd_HMS (mk_datetime 2024 3 7 9 5 59 120) = "20240307_090559".
Proof. reflexivity. Qed.

Example isoformat_sample :
  isoformat (mk_datetime 2024 3 7 9 5 59 120) = "2024-03-07T09:05:59.000120"
  /\ isoformat (mk_datetime 2024 11 17 19 45 0 0) = "2024-11-17T19:45:00".
Proof. split; reflexivity. Qed.

Example jpeg_brackets :
  startswith [xff; xd8; x00; xff; xd9] [xff; xd8] = true
  /\ endswith [xff; xd8; x00; xff; xd9] [xff; xd9] = true
  /\ endswith [xd9] [xff; xd9] = false.
Proof. repeat split; reflexivity. Qed.

End Rounding.

(** ** Floats: rounding to the nearest double *)

Module Floats.
Import PyNum Rounding.

Local Open Scope Q_scope.

(** *** Powers of two *)

Lemma two_pow_pos (k : Z) : 0 < 2 ^ k.
Proof. apply Qpower_0_lt. reflexivity. Qed.

Lemma two_pow_mono (j k : Z) : (j <= k)%Z -> 2 ^ j <= 2 ^ k.
Proof. intros H. apply Qpower_le_compat_l; [exact H | discriminate]. Qed.

Lemma two_pow_inject (n : Z) : (0 <= n)%Z -> inject_Z (2 ^ n) == 2 ^ n.
Proof. intros H. rewrite Zpower_Qpower by exact H. reflexivity. Qed.

Lemma two_pow_split (j k : Z) : 2 ^ (j - k) * 2 ^ k == 2 ^ j.
Proof.
  rewrite <- Qpower_plus by discriminate.
  replace (j - k + k)%Z with j by lia. reflexivity.
Qed.

(** *** The binade of a rational *)

#[local] Instance binade_comp : Proper (Qeq ==> eq) binade.
Proof.
  intros p q Hpq. unfold binade.
  assert (Ha : Qabs p == Qabs q) by (rewrite Hpq; reflexivity).
  assert (Hb : Qle_bool 1 (Qabs p) = Qle_bool 1 (Qabs q)).
  { destruct (Qle_bool 1 (Qabs p)) eqn:H1, (Qle_bool 1 (Qabs q)) eqn:H2;
      try reflexivity.
    - rewrite Qle_bool_iff in H1. rewrite Ha, <- Qle_bool_iff in H1. congruence.
    - rewrite Qle_bool_iff in H2. rewrite <- Ha, <- Qle_bool_iff in H2. congruence. }
  rewrite Hb. destruct (Qle_bool 1 (Qabs q)).
  - rewrite Ha. reflexivity.
  - rewrite Ha. reflexivity.
Qed.

Lemma binade_0 : binade 0 = 0%Z.
Proof. reflexivity. Qed.


Lemma Qabs_nonzero (q : Q) : ~ q == 0 -> 0 < Qabs q.
Proof.
  intros Hq. apply Qabs_case; intros H.
  - destruct (Qeq_dec q 0) as [Hz | Hnz]; [contradiction | lra].
  - destruct (Qeq_dec q 0) as [Hz | Hnz]; [contradiction | lra].
Qed.

Lemma binade_spec (q : Q) : ~ q == 0 -> 2 ^ binade q <= Qabs q.
Proof.
  intros Hq. unfold binade.
  pose proof (Qabs_nonzero q Hq) as Hpos.
  destruct (Qle_bool 1 (Qabs q)) eqn:Hle.
  - rewrite Qle_bool_iff in Hle.
    assert (Hf : (1 <= Qfloor (Qabs q))%Z).
    { change 1%Z with (Qfloor 1). apply Qfloor_resp_le, Hle. }
    pose proof (Z.log2_spec (Qfloor (Qabs q)) ltac:(lia)) as [Hlo _].
    pose proof (Z.log2_nonneg (Qfloor (Qabs q))) as Hnn.
    rewrite <- two_pow_inject by exact Hnn.
    apply Qle_trans with (inject_Z (Qfloor (Qabs q))); [| apply Qfloor_le].
    rewrite <- Zle_Qle. exact Hlo.
  - assert (Hlt : Qabs q < 1).
    { apply Qnot_le_lt. intros H. rewrite <- Qle_bool_iff in H. congruence. }
    set (c := Qceiling (/ Qabs q)).
    assert (Hc : / Qabs q <= inject_Z c) by apply Qle_ceiling.
    assert (Hinv : 1 < / Qabs q).
    { apply Qlt_shift_inv_l; [exact Hpos | lra]. }
    assert (Hc1 : (1 < c)%Z).
    { rewrite Zlt_Qlt. change (inject_Z 1) with 1. lra. }
    pose proof (Z.log2_up_spec c Hc1) as [_ Hup].
    pose proof (Z.log2_up_nonneg c) as Hnn.
    rewrite Qpower_opp.
    apply Qle_shift_inv_r; [apply two_pow_pos |].
    rewrite <- two_pow_inject by exact Hnn.
    rewrite Zle_Qle in Hup.
    assert (H1 : 1 == / Qabs q * Qabs q) by (field; lra).
    rewrite H1, (Qmult_comm (Qabs q)). apply Qmult_le_compat_r; lra.
Qed.

Lemma binade_le (n : Z) (q : Q) :
  (0 <= n)%Z -> Qabs q < 2 ^ (n + 1) -> (binade q <= n)%Z.
Proof.
  intros Hn Hq.
  destruct (Qeq_dec q 0) as [Hz | Hnz].
  - rewrite Hz, binade_0. exact Hn.
  - pose proof (binade_spec q Hnz) as Hlo.
    destruct (Z_le_gt_dec (binade q) n) as [H | H]; [exact H | exfalso].
    pose proof (two_pow_mono (n + 1) (binade q) ltac:(lia)). lra.
Qed.

(** *** Rounding to a binary format *)

Lemma ulp_exponent_le (prec emin n : Z) (q : Q) :
  (0 <= n)%Z -> (emin <= n - (prec - 1))%Z -> Qabs q < 2 ^ (n + 1) ->
  (ulp_exponent prec emin q <= n - (prec - 1))%Z.
Proof.
  intros Hn He Hq. unfold ulp_exponent.
  pose proof (binade_le n q Hn Hq). lia.
Qed.

Lemma round_binary_eq (prec emin : Z) (q : Q) :
  let k := ulp_exponent prec emin q in
  round_binary prec emin q == inject_Z (py_round (q / 2 ^ k)) * 2 ^ k.
Proof. cbn zeta. unfold round_binary. apply Qred_correct. Qed.

Lemma round_binary_lower (prec emin : Z) (q : Q) :
  q - 2 ^ ulp_exponent prec emin q / 2 <= round_binary prec emin q.
Proof.
  rewrite round_binary_eq. cbn zeta.
  set (k := ulp_exponent prec emin q).
  pose proof (two_pow_pos k) as Hp.
  pose proof (py_round_lower (q / 2 ^ k)) as Hlo.
  assert (Hq : q == q / 2 ^ k * 2 ^ k) by (field; lra).
  set (y := q / 2 ^ k) in *. set (z := inject_Z (py_round y)) in *.
  rewrite Hq at 1.
  assert (H : (y - (1 # 2)) * 2 ^ k <= z * 2 ^ k)
    by (apply Qmult_le_compat_r; lra).
  set (p := 2 ^ k) in *. clearbody z y p.
  unfold Qdiv. change (/ 2) with (1 # 2). clear - H. lra.
Qed.

Lemma round_binary_upper (prec emin : Z) (q : Q) :
  round_binary prec emin q <= q + 2 ^ ulp_exponent prec emin q / 2.
Proof.
  rewrite round_binary_eq. cbn zeta.
  set (k := ulp_exponent prec emin q).
  pose proof (two_pow_pos k) as Hp.
  pose proof (py_round_upper (q / 2 ^ k)) as Hhi.
  assert (Hq : q == q / 2 ^ k * 2 ^ k) by (field; lra).
  set (y := q / 2 ^ k) in *. set (z := inject_Z (py_round y)) in *.
  rewrite Hq at 1.
  assert (H : z * 2 ^ k <= (y + (1 # 2)) * 2 ^ k)
    by (apply Qmult_le_compat_r; lra).
  set (p := 2 ^ k) in *. clearbody z y p.
  unfold Qdiv. change (/ 2) with (1 # 2). clear - H. lra.
Qed.

(** A multiple of [2^j] lies on every grid of step [2^k] with [k <= j]:
    rounding to such a grid cannot cross it. *)
Lemma on_grid (z j k : Z) :
  (k <= j)%Z -> inject_Z z * 2 ^ j == inject_Z (z * 2 ^ (j - k)) * 2 ^ k.
Proof.
  intros Hk. rewrite inject_Z_mult, two_pow_inject by lia.
  rewrite <- Qmult_assoc, two_pow_split. reflexivity.
Qed.

Lemma round_binary_le_grid (prec emin : Z) (q : Q) (z j : Z) :
  (ulp_exponent prec emin q <= j)%Z ->
  q <= inject_Z z * 2 ^ j -> round_binary prec emin q <= inject_Z z * 2 ^ j.
Proof.
  intros Hk Hq. rewrite round_binary_eq. cbn zeta.
  set (k := ulp_exponent prec emin q) in *.
  pose proof (two_pow_pos k) as Hp.
  rewrite (on_grid z j k Hk) in Hq |- *.
  apply Qmult_le_compat_r; [| lra].
  rewrite <- Zle_Qle.
  rewrite <- (py_round_inject_Z (z * 2 ^ (j - k))) at 1.
  apply py_round_mono. apply Qle_shift_div_r; [exact Hp | exact Hq].
Qed.

Lemma round_binary_ge_grid (prec emin : Z) (q : Q) (z j : Z) :
  (ulp_exponent prec emin q <= j)%Z ->
  inject_Z z * 2 ^ j <= q -> inject_Z z * 2 ^ j <= round_binary prec emin q.
Proof.
  intros Hk Hq. rewrite round_binary_eq. cbn zeta.
  set (k := ulp_exponent prec emin q) in *.
  pose proof (two_pow_pos k) as Hp.
  rewrite (on_grid z j k Hk) in Hq |- *.
  apply Qmult_le_compat_r; [| lra].
  rewrite <- Zle_Qle.
  rewrite <- (py_round_inject_Z (z * 2 ^ (j - k))) at 1.
  apply py_round_mono. apply Qle_shift_div_l; [exact Hp | exact Hq].
Qed.

(** *** Doubles *)

(** Rounding to a double does not cross an integer, below [2^53]. *)
Lemma to_double_le_int (q : Q) (z : Z) :
  Qabs q < 2 ^ 53 -> q <= inject_Z z -> to_double q <= inject_Z z.
Proof.
  intros Hq Hz.
  pose proof (ulp_exponent_le 53 (-1074) 52 q ltac:(lia) ltac:(lia) Hq) as Hk.
  pose proof (round_binary_le_grid 53 (-1074) q z 0 ltac:(lia)) as H.
  change (2 ^ 0) with 1 in H. rewrite Qmult_1_r in H. apply H, Hz.
Qed.

Lemma to_double_ge_int (q : Q) (z : Z) :
  Qabs q < 2 ^ 53 -> inject_Z z <= q -> inject_Z z <= to_double q.
Proof.
  intros Hq Hz.
  pose proof (ulp_exponent_le 53 (-1074) 52 q ltac:(lia) ltac:(lia) Hq) as Hk.
  pose proof (round_binary_ge_grid 53 (-1074) q z 0 ltac:(lia)) as H.
  change (2 ^ 0) with 1 in H. rewrite Qmult_1_r in H. apply H, Hz.
Qed.

(** Nor does it leave [[-2^n, 2^n]]. *)
Lemma to_double_bounded (n : Z) (q : Q) :
  (0 <= n)%Z -> Qabs q <= 2 ^ n -> Qabs (to_double q) <= 2 ^ n.
Proof.
  intros Hn Hq.
  assert (Hlt : Qabs q < 2 ^ (n + 1)).
  { apply Qle_lt_trans with (2 ^ n); [exact Hq |].
    apply Qpower_lt_compat_l; [lia | reflexivity]. }
  pose proof (ulp_exponent_le 53 (-1074) n q Hn ltac:(lia) Hlt) as Hk.
  apply Qabs_Qle_condition in Hq. destruct Hq as [Hlo Hhi].
  apply Qabs_Qle_condition. split.
  - pose proof (round_binary_ge_grid 53 (-1074) q (-1) n ltac:(lia)) as H.
    change (inject_Z (-1) * 2 ^ n) with (- (1) * 2 ^ n) in H.
    assert (Hm : - (1) * 2 ^ n == - 2 ^ n) by ring.
    rewrite Hm in H. apply H, Hlo.
  - pose proof (round_binary_le_grid 53 (-1074) q 1 n ltac:(lia)) as H.
    change (inject_Z 1) with 1 in H. rewrite Qmult_1_l in H. apply H, Hhi.
Qed.

Lemma to_double_error (n : Z) (q : Q) :
  (0 <= n)%Z -> Qabs q < 2 ^ (n + 1) ->
  q - 2 ^ (n - 53) <= to_double q /\ to_double q <= q + 2 ^ (n - 53).
Proof.
  intros Hn Hq.
  pose proof (ulp_exponent_le 53 (-1074) n q Hn ltac:(lia) Hq) as Hk.
  pose proof (round_binary_lower 53 (-1074) q) as Hlo.
  pose proof (round_binary_upper 53 (-1074) q) as Hhi.
  fold (to_double q) in Hlo, Hhi.
  set (k := ulp_exponent 53 (-1074) q) in *.
  assert (Hhalf : 2 ^ k / 2 <= 2 ^ (n - 53)).
  { assert (H2 : 2 ^ k / 2 == 2 ^ (k - 1)).
    { rewrite Qpower_minus by discriminate. reflexivity. }
    rewrite H2. apply two_pow_mono. lia. }
  split; lra.
Qed.

(** *** [round(x, ndigits)] *)

Lemma scale_pos (ndigits : nat) : 0 < inject_Z (10 ^ Z.of_nat ndigits).
Proof.
  change 0 with (inject_Z 0). rewrite <- Zlt_Qlt. apply Z.pow_pos_nonneg; lia.
Qed.

(** The decimal [round] aims at is within half a unit of the last digit
    asked for. *)
Lemma decimal_round_error (ndigits : nat) (x : Q) :
  let scale := inject_Z (10 ^ Z.of_nat ndigits) in
  let r := inject_Z (py_round (x * scale)) / scale in
  x - (1 # 2) / scale <= r /\ r <= x + (1 # 2) / scale.
Proof.
  cbn zeta. pose proof (scale_pos ndigits) as Hs.
  set (scale := inject_Z (10 ^ Z.of_nat ndigits)) in *.
  pose proof (py_round_lower (x * scale)) as Hlo.
  pose proof (py_round_upper (x * scale)) as Hhi.
  set (t := inject_Z (py_round (x * scale))) in *.
  split.
  - apply Qle_shift_div_l; [exact Hs |].
    assert (H : (x - (1 # 2) / scale) * scale == x * scale - (1 # 2))
      by (field; lra).
    rewrite H. exact Hlo.
  - apply Qle_shift_div_r; [exact Hs |].
    assert (H : (x + (1 # 2) / scale) * scale == x * scale + (1 # 2))
      by (field; lra).
    rewrite H. exact Hhi.
Qed.

(** [round(x, ndigits)] stays between two integers that bound [x]. *)
Lemma py_round_n_range (ndigits : nat) (lo hi : Z) (x : Q) :
  (- 2 ^ 52 <= lo)%Z -> (hi <= 2 ^ 52)%Z ->
  inject_Z lo <= x -> x <= inject_Z hi ->
  inject_Z lo <= py_round_n ndigits x /\ py_round_n ndigits x <= inject_Z hi.
Proof.
  intros Hlo Hhi Hx1 Hx2. unfold py_round_n.
  pose proof (scale_pos ndigits) as Hs.
  set (scale := inject_Z (10 ^ Z.of_nat ndigits)) in *.
  set (r := inject_Z (py_round (x * scale)) / scale).
  assert (Hr1 : inject_Z lo <= r).
  { unfold r. apply Qle_shift_div_l; [exact Hs |].
    unfold scale at 1. rewrite <- inject_Z_mult, <- Zle_Qle.
    rewrite <- (py_round_inject_Z (lo * 10 ^ Z.of_nat ndigits)).
    apply py_round_mono. rewrite inject_Z_mult. fold scale.
    apply Qmult_le_compat_r; [exact Hx1 | lra]. }
  assert (Hr2 : r <= inject_Z hi).
  { unfold r. apply Qle_shift_div_r; [exact Hs |].
    unfold scale at 2. rewrite <- inject_Z_mult, <- Zle_Qle.
    rewrite <- (py_round_inject_Z (hi * 10 ^ Z.of_nat ndigits)).
    apply py_round_mono. rewrite inject_Z_mult. fold scale.
    apply Qmult_le_compat_r; [exact Hx2 | lra]. }
  assert (Hsmall : Qabs r < 2 ^ 53).
  { apply Qle_lt_trans with (2 ^ 52); [| reflexivity].
    rewrite <- (two_pow_inject 52) by lia.
    rewrite Zle_Qle in Hlo, Hhi. rewrite inject_Z_opp in Hlo.
    apply Qabs_Qle_condition. split; lra. }
  split; [apply to_double_ge_int | apply to_double_le_int]; assumption.
Qed.

(** *** Single-precision numbers *)

Lemma float32_bounded (x : float32) : Qabs (float x) <= 2 ^ 128.
Proof.
  destruct x as [q Hq]. cbn [float]. unfold is_float32 in Hq.
  apply andb_prop in Hq. destruct Hq as [_ Hq]. rewrite Qle_bool_iff in Hq.
  apply Qle_trans with float32_max; [exact Hq | discriminate].
Qed.

(** No float operation on them comes near the largest double, [2^1024]
    less one unit in the last place. *)
Lemma float32_sub_finite (a b : float32) :
  Qabs (float_sub (float a) (float b)) <= 2 ^ 129.
Proof.
  apply (to_double_bounded 129); [lia |].
  pose proof (float32_bounded a) as Ha. pose proof (float32_bounded b) as Hb.
  apply Qabs_Qle_condition in Ha, Hb. apply Qabs_Qle_condition.
  change (2 ^ 129) with (2 ^ 128 + 2 ^ 128). split; lra.
Qed.

Lemma float32_percent_finite (a : float32) :
  Qabs (py_round_n 1 (float_mul (float a) 100)) <= 2 ^ 136.
Proof.
  pose proof (float32_bounded a) as Ha.
  assert (Hm : Qabs (float_mul (float a) 100) <= 2 ^ 135).
  { apply (to_double_bounded 135); [lia |].
    apply Qabs_Qle_condition in Ha. apply Qabs_Qle_condition.
    assert (H : 100 * 2 ^ 128 <= 2 ^ 135) by discriminate.
    split; lra. }
  unfold py_round_n. apply (to_double_bounded 136); [lia |].
  destruct (decimal_round_error 1 (float_mul (float a) 100)) as [Hlo Hhi].
  cbn zeta in Hlo, Hhi.
  change (inject_Z (10 ^ Z.of_nat 1)) with 10 in *.
  set (r := inject_Z (py_round (float_mul (float a) 100 * 10)) / 10) in *.
  apply Qabs_Qle_condition in Hm. apply Qabs_Qle_condition.
  assert (H : 2 ^ 135 + (1 # 2) / 10 <= 2 ^ 136) by discriminate.
  split; lra.
Qed.

End Floats.

(** ** The model lifecycle manager: [load_model] *)

Module Lifecycle.
Import PyNum Py Lib World Detector Samples.

(** Unfold one run of the monad down to the world. *)
Ltac run_monad :=
  cbv [bind ret raise try_except gets modify lift log_call tick time_time
       datetime_now os_path_exists os_getcwd set_model set_model_loaded
       set_last_load_attempt set_load_error call_YOLO call_model result final];
  cbn [fst snd yolo_detector fs cwd write_fault clock ticks calls
       with_detector with_fs with_ticks with_calls
       model model_loaded last_load_attempt load_error negb].

(** One run of [load_model], in full: it never raises, returns whether the
    artifact is loadable, reads the clock once and leaves the file system
    alone. *)
Lemma load_model_run (lib : Libraries) (mp : option string) (w : world) :
  let path := str_or mp "best.pt" in
  let o := outcome_at lib path w in
  load_model lib mp w =
    (inr (loadable lib path w),
     with_detector
       (detector_after_load path (cwd w) (local (clock w (ticks w)))
                            (yolo_detector w) o)
       (with_ticks (S (ticks w))
          (with_calls (calls w ++ calls_of_load mp path o) w))).
Proof.
  intros path o. subst o. unfold load_model, loadable, outcome_at.
  fold path. run_monad.
  destruct (fs w !! path) as [nd |] eqn:Hfs; cbn; [| reflexivity].
  rewrite Hfs.
  destruct (YOLO lib path nd) as [e | m]; cbn; [rewrite <- app_assoc; reflexivity |].
  destruct (predict m dummy_image None) as [e | res]; cbn;
    rewrite <- !app_assoc; reflexivity.
Qed.

(** A load that fails leaves [model_loaded] as it found it. *)
Lemma load_model_failure_keeps_loaded (lib : Libraries) (mp : option string) (w : world) :
  let r := load_model lib mp w in
  result r = inr false ->
  model_loaded (yolo_detector (final r)) = model_loaded (yolo_detector w).
Proof.
  cbn zeta. rewrite load_model_run. unfold loadable, result, final. cbn.
  destruct (outcome_at lib (str_or mp "best.pt") w); cbn; congruence.
Qed.

(** C3 (amended).  Every call of [load_model] returns, without raising, and
    records the time of the attempt.  When it returns [True] the detector has
    [model_loaded = True] and no error message.  When it returns [False] the
    detector has a non-empty error message, and [model_loaded] is [False]
    provided it was [False] before the call. *)
Theorem load_model_records_state (lib : Libraries) (mp : option string) (w : world) :
  let r := load_model lib mp w in
  let d := yolo_detector w in
  let d' := yolo_detector (final r) in
  last_load_attempt d' = Some (local (clock w (ticks w))) /\
  match result r with
  | inr true => model_loaded d' = true /\ load_error d' = None
  | inr false =>
      (exists msg, load_error d' = Some msg /\ msg <> "") /\
      (model_loaded d = false -> model_loaded d' = false)
  | inl _ => False
  end.
Proof.
  cbn zeta. rewrite load_model_run. unfold loadable, result, final. cbn.
  destruct (outcome_at lib (str_or mp "best.pt") w); cbn;
    (split; [reflexivity |]); try (split; [eexists; split; [reflexivity | discriminate] | tauto]).
  split; reflexivity.
Qed.

(** The theorem at work: an artifact that parses but cannot run, met by a
    detector that has nothing loaded. *)
Lemma load_model_records_state_witness :
  let r := load_model sample_lib None (world_with_artifact x03 fast_clock) in
  result r = inr false /\
  model_loaded (yolo_detector (final r)) = false /\
  last_load_attempt (yolo_detector (final r)) = Some (mk_datetime 2024 3 7 9 5 59 0).
Proof.
  pose proof (load_model_records_state sample_lib None
                (world_with_artifact x03 fast_clock)) as H.
  cbn zeta in H. destruct H as [Hattempt H].
  change (result (load_model sample_lib None (world_with_artifact x03 fast_clock)))
    with (@inr string bool false) in H.
  destruct H as [_ Hloaded].
  split; [reflexivity | split; [apply Hloaded; reflexivity | exact Hattempt]].
Defined.

(** C3 as stated fails: a load succeeds, the artifact is then removed, and
    the next load fails while [model_loaded] stays [True]. *)
Lemma load_model_failure_after_success :
  let r1 := load_model sample_lib None (world_with_artifact x01 fast_clock) in
  let w2 := with_fs (delete "best.pt" (fs (final r1))) (final r1) in
  let r2 := load_model sample_lib None w2 in
  result r1 = inr true /\
  result r2 = inr false /\
  model_loaded (yolo_detector (final r2)) <> false.
Proof. vm_compute. repeat split; discriminate. Qed.

End Lifecycle.

(** ** The detection service: [detect_objects] *)

Module Detection.
Import PyNum Py Lib World Detector Samples.
Import Rounding Floats Lifecycle.

(** The inner loop appends one dictionary per box and counts them. *)
Lemma process_box_fold (m : Model) (bs : list Box) :
  forall (acc : list DetectionInfo) (n : Z),
    fold_left (process_box m) bs (acc, n) =
      ((acc ++ map (detection_info m) bs)%list, n + Z.of_nat (length bs)).
Proof.
  induction bs as [| b bs IH]; intros acc n.
  - cbn. rewrite app_nil_r, Z.add_0_r. reflexivity.
  - cbn [fold_left process_box map length]. rewrite IH.
    rewrite <- app_assoc. cbn [app]. f_equal.
    rewrite Nat2Z.inj_succ. clear. lia.
Qed.

(** The outer loop does so over all results, skipping those without boxes. *)
Lemma process_result_fold (m : Model) (rs : list Results) :
  forall (acc : list DetectionInfo) (n : Z),
    fold_left (process_result m) rs (acc, n) =
      ((acc ++ map (detection_info m) (all_boxes rs))%list,
       n + Z.of_nat (length (all_boxes rs))).
Proof.
  induction rs as [| r rs IH]; intros acc n.
  - cbn. rewrite app_nil_r, Z.add_0_r. reflexivity.
  - cbn [fold_left]. unfold process_result at 2.
    unfold all_boxes. cbn [flat_map]. fold (all_boxes rs).
    destruct (boxes r) as [bs |]; cbn [default].
    + rewrite process_box_fold, IH.
      rewrite map_app, length_app, <- app_assoc. f_equal.
      rewrite Nat2Z.inj_add. unfold id. clear. lia.
    + rewrite IH. reflexivity.
Qed.

(** A run of [detect_objects] on a loaded model, a decodable payload and an
    inference that returns. *)
Lemma detect_objects_success
    (lib : Libraries) (image_data : list byte) (w : world)
    (m : Model) (img : ndarray) (results : list Results) :
  model_loaded (yolo_detector w) = true ->
  model (yolo_detector w) = Some m ->
  cv2_imdecode lib image_data = inr (Some img) ->
  predict m img (Some (float_literal (3 # 10))) = inr results ->
  detect_objects lib image_data w =
    (inr (Some {| total_objects := Z.of_nat (length (all_boxes results));
                  objects_detected := map (detection_info m) (all_boxes results);
                  image_dimensions :=
                    {| image_width := snd (fst (shape img));
                       image_height := fst (fst (shape img)) |} |},
          None),
     with_calls (calls w ++ [CallImdecode image_data;
                             CallModel m img (Some (float_literal (3 # 10)))]) w).
Proof.
  intros Hloaded Hmodel Hdecode Hinfer.
  unfold detect_objects. run_monad. rewrite Hloaded. cbn.
  rewrite Hdecode. cbn. rewrite Hmodel. cbn. rewrite Hinfer. cbn.
  rewrite process_result_fold. cbn.
  destruct (shape img) as [[rows cols] chans]. cbn.
  rewrite <- app_assoc. reflexivity.
Qed.

(** Rounding the float [b - a] and subtracting the rounded [a] from the
    rounded [b] differ by one at most, as long as [a] and [b] are at most
    [2^50] in magnitude. *)
Lemma py_round_sub_close (a b : Q) :
  (Qabs a <= 2 ^ 50)%Q -> (Qabs b <= 2 ^ 50)%Q ->
  Z.abs (py_round (float_sub b a) - (py_round b - py_round a)) <= 1.
Proof.
  intros Ha Hb.
  apply Qabs_Qle_condition in Ha, Hb.
  assert (Hd : (Qabs (b - a) < 2 ^ (51 + 1))%Q).
  { apply Qle_lt_trans with (2 ^ 51)%Q; [| reflexivity].
    apply Qabs_Qle_condition. change (2 ^ 51)%Q with (2 ^ 50 + 2 ^ 50)%Q.
    split; lra. }
  destruct (to_double_error 51 (b - a) ltac:(lia) Hd) as [He1 He2].
  fold (float_sub b a) in He1, He2.
  change (2 ^ (51 - 53))%Q with (1 # 4)%Q in He1, He2.
  pose proof (py_round_lower a) as Ha1. pose proof (py_round_upper a) as Ha2.
  pose proof (py_round_lower b) as Hb1. pose proof (py_round_upper b) as Hb2.
  pose proof (py_round_lower (float_sub b a)) as Hd1.
  pose proof (py_round_upper (float_sub b a)) as Hd2.
  set (d := float_sub b a) in *.
  set (ra := py_round a) in *. set (rb := py_round b) in *.
  set (rd := py_round d) in *.
  assert (Hlt : (inject_Z (rd - (rb - ra)) < inject_Z 2)%Q).
  { unfold Z.sub. repeat (rewrite inject_Z_plus || rewrite inject_Z_opp).
    change (inject_Z 2) with 2%Q. lra. }
  assert (Hgt : (inject_Z (-2) < inject_Z (rd - (rb - ra)))%Q).
  { unfold Z.sub. repeat (rewrite inject_Z_plus || rewrite inject_Z_opp).
    change (inject_Z (-2)) with (-2 # 1)%Q. lra. }
  rewrite <- Zlt_Qlt in Hlt, Hgt. clear - Hlt Hgt. lia.
Qed.

(** A probability times 100, as a float rounded to a tenth, lies in
    [[0, 100]]; the float product is within [2^-47] of the exact one. *)
Lemma percent_bounds (c : Q) :
  (0 <= c)%Q -> (c <= 1)%Q ->
  let p := float_mul c 100 in
  ((0 <= p)%Q /\ (p <= 100)%Q) /\
  ((c * 100 - 2 ^ (-47) <= p)%Q /\ (p <= c * 100 + 2 ^ (-47))%Q) /\
  (0 <= py_round_n 1 p)%Q /\ (py_round_n 1 p <= 100)%Q.
Proof.
  intros Hc0 Hc1. cbn zeta.
  assert (Hsmall : (Qabs (c * 100) < 2 ^ (6 + 1))%Q).
  { apply Qle_lt_trans with 100%Q; [| reflexivity].
    apply Qabs_Qle_condition. split; lra. }
  assert (Hp : (0 <= float_mul c 100)%Q /\ (float_mul c 100 <= 100)%Q).
  { assert (H53 : (Qabs (c * 100) < 2 ^ 53)%Q)
      by (apply Qlt_trans with (2 ^ (6 + 1))%Q; [exact Hsmall | reflexivity]).
    split.
    - apply (to_double_ge_int (c * 100) 0 H53). change (inject_Z 0) with 0%Q. lra.
    - apply (to_double_le_int (c * 100) 100 H53). change (inject_Z 100) with 100%Q. lra. }
  split; [exact Hp |]. split.
  - exact (to_double_error 6 (c * 100) ltac:(lia) Hsmall).
  - destruct Hp as [Hp0 Hp1].
    apply (py_round_n_range 1 0 100); [lia | lia | exact Hp0 | exact Hp1].
Qed.

(** The dictionary of one box: bounds on what [detection_info] writes. *)
Lemma detection_info_bounds (m : Model) (b : Box) :
  probability b -> corner_ordered b ->
  let d := detection_info m b in
  (0 <= confidence d)%Q /\ (confidence d <= 100)%Q /\
  x1 (bounding_box d) <= x2 (bounding_box d) /\
  y1 (bounding_box d) <= y2 (bounding_box d).
Proof.
  destruct b as [cf cl [[[bx1 by1] bx2] by2]].
  unfold probability, corner_ordered, detection_info.
  cbn [conf cls xyxy confidence bounding_box x1 x2 y1 y2].
  intros [Hc0 Hc1] [Hx Hy].
  destruct (percent_bounds (float cf) Hc0 Hc1) as (_ & _ & Hlo & Hhi).
  split; [exact Hlo |]. split; [exact Hhi |].
  split; apply py_round_mono; assumption.
Qed.

(** C4.  On a loaded model, a decodable payload and an inference that emits
    the boxes [all_boxes results], [detect_objects] returns a result and no
    error; [total_objects] and the length of [objects_detected] both equal
    the number of boxes emitted, the detections come in emission order, every
    confidence lies in [0, 100] when the model's confidences are
    probabilities, and every box has [x2 >= x1] and [y2 >= y1] when the
    model's corners come ordered. *)
Theorem detect_objects_counts
    (lib : Libraries) (image_data : list byte) (w : world)
    (m : Model) (img : ndarray) (results : list Results)
    (Hloaded : model_loaded (yolo_detector w) = true)
    (Hmodel : model (yolo_detector w) = Some m)
    (Hdecode : cv2_imdecode lib image_data = inr (Some img))
    (Hinfer : predict m img (Some (float_literal (3 # 10))) = inr results)
    (Hprob : Forall probability (all_boxes results))
    (Hcorner : Forall corner_ordered (all_boxes results)) :
  exists res,
    result (detect_objects lib image_data w) = inr (Some res, None) /\
    total_objects res = Z.of_nat (length (all_boxes results)) /\
    length (objects_detected res) = length (all_boxes results) /\
    objects_detected res = map (detection_info m) (all_boxes results) /\
    Forall (fun d =>
              (0 <= confidence d)%Q /\ (confidence d <= 100)%Q /\
              x1 (bounding_box d) <= x2 (bounding_box d) /\
              y1 (bounding_box d) <= y2 (bounding_box d))
           (objects_detected res).
Proof.
  rewrite (detect_objects_success lib image_data w m img results) by assumption.
  eexists. split; [reflexivity |]. cbn.
  split; [reflexivity |]. split; [apply length_map |]. split; [reflexivity |].
  apply List.Forall_map.
  induction Hprob as [| b bs Hb Hbs IH]; [constructor |].
  inversion Hcorner as [| b' bs' Hcb Hcbs]; subst.
  constructor; [apply detection_info_bounds; assumption | apply IH, Hcbs].
Qed.

(** The theorem at work: two boxes found in a loaded server's picture. *)
Lemma detect_objects_counts_witness :
  exists res,
    result (detect_objects sample_lib tomato_jpeg (world_loaded veggie_model fast_clock))
      = inr (Some res, None) /\
    total_objects res = 2 /\
    length (objects_detected res) = 2%nat.
Proof.
  destruct (detect_objects_counts sample_lib tomato_jpeg
              (world_loaded veggie_model fast_clock) veggie_model picture
              [mk_Results (Some [tomato_box; quarter_box])]
              eq_refl eq_refl eq_refl eq_refl)
    as [res [Hres [Htotal [Hlen _]]]].
  - repeat constructor; discriminate.
  - repeat constructor; discriminate.
  - exists res. split; [exact Hres | split; [exact Htotal | exact Hlen]].
Defined.

(** C6 (amended).  The four corners written are the model's corners rounded
    to the nearest integer (within half a pixel of them); [width] and
    [height] are the float differences [x2 - x1] and [y2 - y1] of the
    unrounded corners, rounded to the nearest integer; for corners of
    magnitude at most [2^50] they are within one of the differences of the
    corners written. *)
Theorem bounding_box_rounding (m : Model) (b : Box) :
  let bb := bounding_box (detection_info m b) in
  let bx1 := float (fst (fst (fst (xyxy b)))) in
  let by1 := float (snd (fst (fst (xyxy b)))) in
  let bx2 := float (snd (fst (xyxy b))) in
  let by2 := float (snd (xyxy b)) in
  (x1 bb = py_round bx1 /\ y1 bb = py_round by1 /\
   x2 bb = py_round bx2 /\ y2 bb = py_round by2) /\
  ((bx1 - (1 # 2) <= inject_Z (x1 bb))%Q /\ (inject_Z (x1 bb) <= bx1 + (1 # 2))%Q /\
   (by1 - (1 # 2) <= inject_Z (y1 bb))%Q /\ (inject_Z (y1 bb) <= by1 + (1 # 2))%Q /\
   (bx2 - (1 # 2) <= inject_Z (x2 bb))%Q /\ (inject_Z (x2 bb) <= bx2 + (1 # 2))%Q /\
   (by2 - (1 # 2) <= inject_Z (y2 bb))%Q /\ (inject_Z (y2 bb) <= by2 + (1 # 2))%Q) /\
  (width bb = py_round (float_sub bx2 bx1) /\
   height bb = py_round (float_sub by2 by1)) /\
  (in_frame b ->
   Z.abs (width bb - (x2 bb - x1 bb)) <= 1 /\
   Z.abs (height bb - (y2 bb - y1 bb)) <= 1).
Proof.
  destruct b as [cf cl [[[bx1 by1] bx2] by2]]. unfold in_frame.
  cbn [detection_info conf cls xyxy fst snd bounding_box x1 y1 x2 y2 width height].
  split; [repeat split |].
  split; [repeat split; first [apply py_round_lower | apply py_round_upper] |].
  split; [split; reflexivity |].
  intros (Hx1 & Hy1 & Hx2 & Hy2).
  split; apply py_round_sub_close; assumption.
Qed.

(** The theorem at work: the box on quarter pixels. *)
Lemma bounding_box_rounding_witness :
  let bb := bounding_box (detection_info veggie_model quarter_box) in
  Z.abs (width bb - (x2 bb - x1 bb)) <= 1 /\
  Z.abs (height bb - (y2 bb - y1 bb)) <= 1.
Proof.
  destruct (bounding_box_rounding veggie_model quarter_box) as (_ & _ & _ & H).
  apply H. unfold in_frame. cbn. repeat split; discriminate.
Defined.

(** C6 as stated fails: corners at 0.25 and 0.75 round to 0 and 1, while the
    width written is [round(0.5) = 0], not [1 - 0]. *)
Lemma width_is_not_corner_difference :
  let bb := bounding_box (detection_info veggie_model quarter_box) in
  x1 bb = 0 /\ x2 bb = 1 /\ width bb = 0 /\ width bb <> x2 bb - x1 bb.
Proof. vm_compute. repeat split; discriminate. Qed.

(** The difference is the float one: from [2^-100] to [1.5] the width
    written is [round(1.5) = 2], where the exact difference rounds to 1. *)
Example width_of_float_difference :
  let bb := bounding_box (detection_info veggie_model sliver_box) in
  width bb = 2 /\ py_round ((3 # 2) - (1 # 2 ^ 100)) = 1.
Proof. split; vm_compute; reflexivity. Qed.

(** Outside the frame the two can be far apart: from [-100] to [2^60] the
    float difference is [2^60], 100 less than the difference of the corners
    written. *)
Example wide_box_width :
  let bb := bounding_box (detection_info veggie_model wide_box) in
  width bb = 2 ^ 60 /\ x2 bb - x1 bb = 2 ^ 60 + 100.
Proof. split; vm_compute; reflexivity. Qed.

(** The two shapes of the pair [detect_objects] returns. *)
Lemma failure_shape (msg : string) :
  msg <> "" ->
  (@None DetectionResults = None /\ truthy (Some msg) = true) /\
  (exists msg', Some msg = Some msg' /\ msg' <> "").
Proof.
  intros Hmsg. split; [split; [reflexivity |] | exists msg; split; [reflexivity | exact Hmsg]].
  destruct msg; [contradiction | reflexivity].
Qed.

(** C10.  Every call of [detect_objects] returns a pair of which exactly one
    component is [None].  Every failure gives [(None, error)] with a
    non-empty message: no model loaded, a payload the decoder rejects or
    raises on, an inference that raises.  A loaded model, a payload that
    decodes and an inference that returns give [(result, None)].  So the
    truth value of the error alone tells the two apart. *)
Theorem detect_objects_result_xor_error
    (lib : Libraries) (image_data : list byte) (w : world) :
  exists res err,
    result (detect_objects lib image_data w) = inr (res, err) /\
    ((res = None /\ exists msg, err = Some msg /\ msg <> "") \/
     ((exists v, res = Some v) /\ err = None)) /\
    (truthy err = true <-> res = None) /\
    (model_loaded (yolo_detector w) = false ->
     res = None /\ truthy err = true) /\
    (cv2_imdecode lib image_data = inr None ->
     res = None /\ truthy err = true) /\
    (forall e, cv2_imdecode lib image_data = inl e ->
               res = None /\ truthy err = true) /\
    (forall m img e,
       model (yolo_detector w) = Some m ->
       cv2_imdecode lib image_data = inr (Some img) ->
       predict m img (Some (float_literal (3 # 10))) = inl e ->
       res = None /\ truthy err = true) /\
    (forall m img results,
       model_loaded (yolo_detector w) = true ->
       model (yolo_detector w) = Some m ->
       cv2_imdecode lib image_data = inr (Some img) ->
       predict m img (Some (float_literal (3 # 10))) = inr results ->
       (exists v, res = Some v) /\ err = None).
Proof.
  match goal with
  | |- ?statement =>
      assert (Hfail : forall msg w',
                msg <> "" ->
                (model_loaded (yolo_detector w) = true ->
                 forall m img results,
                   model (yolo_detector w) = Some m ->
                   cv2_imdecode lib image_data = inr (Some img) ->
                   predict m img (Some (float_literal (3 # 10))) = inr results -> False) ->
                detect_objects lib image_data w = (inr (None, Some msg), w') ->
                statement)
  end.
  { intros msg w' Hmsg Hno Hrun.
    destruct (failure_shape msg Hmsg) as [Hshape Hmsg'].
    exists None, (Some msg). rewrite Hrun.
    split; [reflexivity |]. split; [left; split; [reflexivity | exact Hmsg'] |].
    split; [split; intros _; apply Hshape |].
    repeat (split; [intros; exact Hshape |]).
    intros m img results Hl Hm Hd Hp. destruct (Hno Hl m img results Hm Hd Hp). }
  destruct (model_loaded (yolo_detector w)) eqn:Hloaded.
  2: { eapply (Hfail "YOLO model not loaded"); [discriminate | discriminate |].
       unfold detect_objects. run_monad. rewrite Hloaded. reflexivity. }
  destruct (cv2_imdecode lib image_data) as [e | [img |]] eqn:Hdecode.
  - eapply (Hfail ("Detection error: " ++ e)); [discriminate | discriminate |].
    unfold detect_objects. run_monad. rewrite Hloaded. cbn. rewrite Hdecode.
    reflexivity.
  - destruct (model (yolo_detector w)) as [m |] eqn:Hmodel.
    + destruct (predict m img (Some (float_literal (3 # 10)))) as [e | results] eqn:Hinfer.
      * eapply (Hfail ("Detection error: " ++ e)); [discriminate | |].
        -- intros _ m' img' results' Hm' Hd' Hp'.
           injection Hm' as <-. injection Hd' as <-. congruence.
        -- unfold detect_objects. run_monad. rewrite Hloaded. cbn.
           rewrite Hdecode. cbn. rewrite Hmodel. cbn. rewrite Hinfer. reflexivity.
      * rewrite (detect_objects_success lib image_data w m img results)
          by assumption.
        do 2 eexists. split; [reflexivity |].
        split; [right; split; [eexists; reflexivity | reflexivity] |].
        split; [split; discriminate |].
        split; [discriminate |]. split; [discriminate |].
        split; [discriminate |].
        split; [intros m' img' e Hm' Hd' Hp'; injection Hm' as <-;
                injection Hd' as <-; congruence |].
        intros. split; [eexists; reflexivity | reflexivity].
    + eapply (Hfail "Detection error: 'NoneType' object is not callable");
        [discriminate | discriminate |].
      unfold detect_objects. run_monad. rewrite Hloaded. cbn.
      rewrite Hdecode. cbn. rewrite Hmodel. reflexivity.
  - eapply (Hfail "Failed to decode image"); [discriminate | discriminate |].
    unfold detect_objects. run_monad. rewrite Hloaded. cbn. rewrite Hdecode.
    reflexivity.
Qed.

(** The theorem at work: a payload the decoder rejects, sent to a loaded
    detector, and a picture on which the model raises. *)
Lemma detect_objects_result_xor_error_witness :
  (exists err,
     result (detect_objects sample_lib [x00] (world_loaded veggie_model fast_clock))
       = inr (None, err) /\ truthy err = true) /\
  (exists err,
     result (detect_objects sample_lib tomato_jpeg
               (world_loaded broken_model fast_clock))
       = inr (None, err) /\ truthy err = true).
Proof.
  split.
  - destruct (detect_objects_result_xor_error sample_lib [x00]
                (world_loaded veggie_model fast_clock))
      as (res & err & Hres & _ & _ & _ & Hrejected & _).
    destruct (Hrejected eq_refl) as [-> Herr].
    exists err. split; [exact Hres | exact Herr].
  - destruct (detect_objects_result_xor_error sample_lib tomato_jpeg
                (world_loaded broken_model fast_clock))
      as (res & err & Hres & _ & _ & _ & _ & _ & Hraised & _).
    destruct (Hraised broken_model picture
                "CUDA error: no kernel image is available"
                eq_refl eq_refl eq_refl) as [-> Herr].
    exists err. split; [exact Hres | exact Herr].
Defined.

End Detection.

(** ** The HTTP facade: [/yolo-detect] *)

Module Facade.
Import PyNum Py Lib World Detector Server Samples.
Import Lifecycle Detection.

Ltac run_handler :=
  cbv [elapsed error_response model_not_loaded_response];
  run_monad.

(** *** Computations that call [load_model] no further time *)

Lemma load_attempts_app (cs cs' : list call) :
  load_attempts (cs ++ cs') = (load_attempts cs + load_attempts cs')%nat.
Proof.
  induction cs as [| c cs IH]; [reflexivity |].
  destruct c; cbn; rewrite IH; reflexivity.
Qed.

Lemma keeps_loads_ret {A} (a : A) : keeps_loads (ret a).
Proof. intros w. reflexivity. Qed.

Lemma keeps_loads_raise {A} (e : string) : keeps_loads (@raise A e).
Proof. intros w. reflexivity. Qed.

Lemma keeps_loads_bind {A B} (m : M A) (k : A -> M B) :
  keeps_loads m -> (forall a, keeps_loads (k a)) -> keeps_loads (bind m k).
Proof.
  intros Hm Hk w. specialize (Hm w). unfold bind, final in *.
  destruct (m w) as [[e | a] w']; cbn in *; [exact Hm |].
  rewrite <- Hm. apply Hk.
Qed.

Lemma keeps_loads_try {A} (body : M A) (handler : string -> M A) :
  keeps_loads body -> (forall e, keeps_loads (handler e)) ->
  keeps_loads (try_except body handler).
Proof.
  intros Hb Hh w. specialize (Hb w). unfold try_except, final in *.
  destruct (body w) as [[e | a] w']; cbn in *; [| exact Hb].
  rewrite <- Hb. apply Hh.
Qed.

Lemma keeps_loads_elapsed (start_time : Q) : keeps_loads (elapsed start_time).
Proof. intros w. reflexivity. Qed.

Lemma keeps_loads_error_response (status : Z) (msg : string) (start_time : Q) :
  keeps_loads (error_response status msg start_time).
Proof. intros w. reflexivity. Qed.

Lemma keeps_loads_detect_objects (lib : Libraries) (image_data : list byte) :
  keeps_loads (detect_objects lib image_data).
Proof.
  intros w. unfold detect_objects. run_monad.
  destruct (model_loaded (yolo_detector w)); cbn; [| reflexivity].
  destruct (cv2_imdecode lib image_data) as [e | [img |]]; cbn.
  - rewrite load_attempts_app. cbn. lia.
  - destruct (model (yolo_detector w)) as [m |]; cbn.
    + destruct (predict m img (Some (float_literal (3 # 10)))) as [e | results]; cbn.
      * rewrite !load_attempts_app. cbn. lia.
      * destruct (fold_left (process_result m) results ([], 0)) as [dets total].
        destruct (shape img) as [[rows cols] chans]. cbn.
        rewrite !load_attempts_app. cbn. lia.
    + rewrite load_attempts_app. cbn. lia.
  - rewrite load_attempts_app. cbn. lia.
Qed.

Lemma keeps_loads_validate_and_detect
    (lib : Libraries) (request : Request) (start_time : Q) (request_time : string) :
  keeps_loads (yolo_validate_and_detect lib request start_time request_time).
Proof.
  unfold yolo_validate_and_detect.
  destruct (Z.of_nat (length (body request)) <? 1000);
    [apply keeps_loads_error_response |].
  destruct (Z.of_nat (length (body request)) >? 10 * 1024 * 1024);
    [apply keeps_loads_error_response |].
  destruct (negb (is_jpeg (body request)));
    [apply keeps_loads_error_response |].
  apply keeps_loads_bind; [intros w; reflexivity | intros t0].
  apply keeps_loads_bind; [apply keeps_loads_detect_objects | intros [res err]].
  apply keeps_loads_bind; [apply keeps_loads_elapsed | intros dt].
  destruct (truthy err); [apply keeps_loads_error_response |].
  apply keeps_loads_bind; [apply keeps_loads_elapsed | intros pt].
  destruct res; [apply keeps_loads_ret | apply keeps_loads_raise].
Qed.

(** A load is one attempt. *)
Lemma load_model_one_attempt (lib : Libraries) (mp : option string) (w : world) :
  load_attempts (calls (final (load_model lib mp w))) = S (load_attempts (calls w)).
Proof.
  rewrite load_model_run. unfold final. cbn.
  rewrite load_attempts_app.
  destruct (outcome_at lib (str_or mp "best.pt") w); cbn; lia.
Qed.

(** *** The shape of [yolo_detect_objects] *)

(** The handler past its two clock readings, by whether a model is loaded. *)
Lemma yolo_detect_objects_unloaded (lib : Libraries) (request : Request) (w : world) :
  model_loaded (yolo_detector w) = false ->
  yolo_detect_objects lib request w =
    let start_time := epoch (clock w (ticks w)) in
    let request_time := isoformat (local (clock w (S (ticks w)))) in
    try_except
      (reload_success <- load_model lib None;;
       if negb reload_success then model_not_loaded_response start_time
       else yolo_validate_and_detect lib request start_time request_time)
      (fun e => error_response 500 ("YOLO detection error: " ++ e) start_time)
      (with_ticks (S (S (ticks w))) w).
Proof.
  intros Hnl. unfold yolo_detect_objects.
  cbv [bind ret try_except gets tick time_time datetime_now].
  cbn [fst snd yolo_detector ticks clock with_ticks]. rewrite Hnl. reflexivity.
Qed.

Lemma yolo_detect_objects_loaded (lib : Libraries) (request : Request) (w : world) :
  model_loaded (yolo_detector w) = true ->
  yolo_detect_objects lib request w =
    let start_time := epoch (clock w (ticks w)) in
    let request_time := isoformat (local (clock w (S (ticks w)))) in
    try_except
      (yolo_validate_and_detect lib request start_time request_time)
      (fun e => error_response 500 ("YOLO detection error: " ++ e) start_time)
      (with_ticks (S (S (ticks w))) w).
Proof.
  intros Hl. unfold yolo_detect_objects.
  cbv [bind ret try_except gets tick time_time datetime_now].
  cbn [fst snd yolo_detector ticks clock with_ticks]. rewrite Hl. reflexivity.
Qed.

(** A payload under 1000 bytes is answered at the first check. *)
Lemma validate_rejects_small
    (lib : Libraries) (request : Request) (start_time : Q) (request_time : string)
    (w : world) :
  Z.of_nat (length (body request)) < 1000 ->
  PayloadTooSmall
    (result (yolo_validate_and_detect lib request start_time request_time w)).
Proof.
  intros Hshort. unfold yolo_validate_and_detect.
  rewrite (proj2 (Z.ltb_lt _ _) Hshort). run_handler.
  eexists. repeat split; reflexivity.
Qed.

Lemma str_or_nonempty (x : option string) (default : string) :
  default <> "" -> str_or x default <> "".
Proof. intros Hd. destruct x as [[| c s] |]; cbn; [exact Hd | discriminate | exact Hd]. Qed.

Lemma isoformat_nonempty (t : datetime) : isoformat t <> "".
Proof. unfold isoformat, zero_pad4. cbn. discriminate. Qed.

(** C2.  A detection request that finds no model loaded calls [load_model]
    exactly once, whatever happens next.  If the artifact is not loadable
    (so that this reload returns [False]) the answer is the 503
    [ModelNotLoaded] response, whose [error] and [details] are non-empty
    strings and whose [last_attempt] is the timestamp the reload recorded
    for itself. *)
Theorem reload_once_then_503 (lib : Libraries) (request : Request) (w : world)
    (Hnl : model_loaded (yolo_detector w) = false) :
  let r := yolo_detect_objects lib request w in
  let attempt := local (clock w (S (S (ticks w)))) in
  load_attempts (calls (final r)) = S (load_attempts (calls w)) /\
  (loadable lib "best.pt" w = false ->
   ModelNotLoaded (result r) /\
   (exists resp details,
      result r = inr resp /\
      jget "details" (content resp) = Some (JStr details) /\ details <> "" /\
      jget "last_attempt" (content resp) = Some (JStr (isoformat attempt)) /\
      isoformat attempt <> "") /\
   last_load_attempt (yolo_detector (final r)) = Some attempt /\
   model_loaded (yolo_detector (final r)) = false).
Proof.
  cbn zeta. rewrite (yolo_detect_objects_unloaded lib request w Hnl). cbn zeta.
  split.
  - unfold try_except, bind, final.
    pose proof (load_model_one_attempt lib None (with_ticks (S (S (ticks w))) w)) as Hone.
    unfold final in Hone.
    destruct (load_model lib None (with_ticks (S (S (ticks w))) w)) as [[e | ok] w3];
      cbn [snd] in Hone |- *;
      (transitivity (load_attempts (calls w3)); [| exact Hone]).
    + reflexivity.
    + pose proof (keeps_loads_try
        (if negb ok
         then model_not_loaded_response (epoch (clock w (ticks w)))
         else yolo_validate_and_detect lib request (epoch (clock w (ticks w)))
                (isoformat (local (clock w (S (ticks w))))))
        (fun e => error_response 500 ("YOLO detection error: " ++ e)
                    (epoch (clock w (ticks w))))) as Hk.
      unfold keeps_loads, try_except, final in Hk. apply Hk.
      * intros w0. destruct ok; cbn [negb];
          [| reflexivity].
        exact (keeps_loads_validate_and_detect lib request
                 (epoch (clock w (ticks w)))
                 (isoformat (local (clock w (S (ticks w))))) w0).
      * intros e w0. reflexivity.
  - intros Hfail. unfold try_except, bind.
    rewrite load_model_run.
    change (loadable lib (str_or None "best.pt") (with_ticks (S (S (ticks w))) w))
      with (loadable lib "best.pt" w).
    rewrite Hfail. run_handler.
    split; [eexists; repeat split; reflexivity |].
    split; [| split].
    + do 2 eexists. split; [reflexivity |].
      split; [reflexivity |].
      split; [apply str_or_nonempty; discriminate |].
      split; [| apply isoformat_nonempty].
      destruct (outcome_at lib (str_or None "best.pt") (with_ticks (S (S (ticks w))) w));
        reflexivity.
    + destruct (outcome_at lib (str_or None "best.pt") (with_ticks (S (S (ticks w))) w));
        reflexivity.
    + unfold loadable in Hfail.
      change (outcome_at lib (str_or None "best.pt") (with_ticks (S (S (ticks w))) w))
        with (outcome_at lib "best.pt" w).
      destruct (outcome_at lib "best.pt" w); cbn; [exact Hnl .. | discriminate].
Qed.

(** The theorem at work: a fresh server without an artifact. *)
Lemma reload_once_then_503_witness :
  let r := yolo_detect_objects sample_lib (mk_Request tomato_jpeg)
             (fresh_world fast_clock) in
  load_attempts (calls (final r)) = 1%nat /\
  ModelNotLoaded (result r) /\
  last_load_attempt (yolo_detector (final r))
    = Some (mk_datetime 2024 3 7 9 5 59 2000).
Proof.
  destruct (reload_once_then_503 sample_lib (mk_Request tomato_jpeg)
              (fresh_world fast_clock) eq_refl) as [Hcount Hfail].
  specialize (Hfail eq_refl). destruct Hfail as [H503 [_ [Hattempt _]]].
  split; [exact Hcount | split; [exact H503 | exact Hattempt]].
Defined.

(** *** Payloads under 1000 bytes *)

(** [upload_image_direct] answers a small payload at its first check. *)
Lemma upload_rejects_small (request : Request) (w : world) :
  Z.of_nat (length (body request)) < 1000 ->
  PayloadTooSmall (result (upload_image_direct request w)).
Proof.
  intros Hshort. unfold upload_image_direct. run_handler.
  rewrite (proj2 (Z.ltb_lt _ _) Hshort). cbn.
  eexists. repeat split; reflexivity.
Qed.

(** C1 (amended).  A payload shorter than 1000 bytes gets the 400
    [PayloadTooSmall] answer from [/upload-image] whatever its bytes and
    whatever the state of the server, and from [/yolo-detect] whenever a
    model is loaded or the reload at the head of the handler succeeds; when
    no model is loaded and the artifact is not loadable, [/yolo-detect]
    answers 503 [ModelNotLoaded] without looking at the payload. *)
Theorem small_payload_rejected (lib : Libraries) (request : Request) (w : world)
    (Hshort : Z.of_nat (length (body request)) < 1000) :
  PayloadTooSmall (result (upload_image_direct request w)) /\
  (if model_loaded (yolo_detector w) || loadable lib "best.pt" w
   then PayloadTooSmall (result (yolo_detect_objects lib request w))
   else ModelNotLoaded (result (yolo_detect_objects lib request w))).
Proof.
  split; [apply upload_rejects_small, Hshort |].
  destruct (model_loaded (yolo_detector w)) eqn:Hl; cbn [orb].
  - rewrite (yolo_detect_objects_loaded lib request w Hl). cbn zeta.
    pose proof (validate_rejects_small lib request
                  (epoch (clock w (ticks w)))
                  (isoformat (local (clock w (S (ticks w)))))
                  (with_ticks (S (S (ticks w))) w) Hshort) as Hv.
    unfold try_except, result in *.
    destruct (yolo_validate_and_detect lib request _ _ _) as [[e | resp] w'];
      [| exact Hv].
    destruct Hv as [resp [Hresp _]]. discriminate Hresp.
  - destruct (loadable lib "best.pt" w) eqn:Hok.
    + rewrite (yolo_detect_objects_unloaded lib request w Hl). cbn zeta.
      unfold try_except, bind. rewrite load_model_run.
      change (loadable lib (str_or None "best.pt") (with_ticks (S (S (ticks w))) w))
        with (loadable lib "best.pt" w).
      rewrite Hok. cbn [negb].
      match goal with
      | |- context [yolo_validate_and_detect lib request ?st ?rt ?w'] =>
          pose proof (validate_rejects_small lib request st rt w' Hshort) as Hv;
          unfold result in *;
          destruct (yolo_validate_and_detect lib request st rt w') as [[e | resp] w'']
      end; [| exact Hv].
      destruct Hv as [resp [Hresp _]]. discriminate Hresp.
    + rewrite (yolo_detect_objects_unloaded lib request w Hl). cbn zeta.
      unfold try_except, bind. rewrite load_model_run.
      change (loadable lib (str_or None "best.pt") (with_ticks (S (S (ticks w))) w))
        with (loadable lib "best.pt" w).
      rewrite Hok. run_handler.
      eexists; repeat split; reflexivity.
Qed.

(** The theorem at work: four bytes sent to a server with a model loaded. *)
Lemma small_payload_rejected_witness :
  PayloadTooSmall
    (result (upload_image_direct (mk_Request short_payload)
               (world_loaded veggie_model fast_clock))) /\
  PayloadTooSmall
    (result (yolo_detect_objects sample_lib (mk_Request short_payload)
               (world_loaded veggie_model fast_clock))).
Proof.
  apply (small_payload_rejected sample_lib (mk_Request short_payload)
           (world_loaded veggie_model fast_clock)).
  vm_compute. reflexivity.
Defined.

(** C1 as stated fails: four bytes sent to [/yolo-detect] on a server that
    has no model and no artifact are answered 503, not 400. *)
Lemma small_payload_meets_503 :
  let r := result (yolo_detect_objects sample_lib (mk_Request short_payload)
                     (fresh_world fast_clock)) in
  Z.of_nat (length short_payload) < 1000 /\
  (exists resp, r = inr resp /\ status_code resp = 503) /\
  ~ PayloadTooSmall r.
Proof.
  cbn zeta. split; [vm_compute; reflexivity |].
  split.
  - eexists. split; [vm_compute; reflexivity | reflexivity].
  - intros [resp [Hresp [Hstatus _]]].
    vm_compute in Hresp. injection Hresp as <-. discriminate Hstatus.
Qed.

(** *** No detections *)

(** C5.  On a loaded model and a payload that passes the size and marker
    checks and decodes, an inference that emits no box makes
    [detect_objects] return a result with [total_objects = 0] and an empty
    [objects_detected], and no error; [/yolo-detect] answers 200 with
    [status = "success"], [total_objects = 0] and [objects_detected = []]. *)
Theorem no_detections_is_success
    (lib : Libraries) (request : Request) (w : world)
    (m : Model) (img : ndarray) (results : list Results)
    (Hloaded : model_loaded (yolo_detector w) = true)
    (Hmodel : model (yolo_detector w) = Some m)
    (Hmin : 1000 <= Z.of_nat (length (body request)))
    (Hmax : Z.of_nat (length (body request)) <= 10 * 1024 * 1024)
    (Hjpeg : is_jpeg (body request) = true)
    (Hdecode : cv2_imdecode lib (body request) = inr (Some img))
    (Hinfer : predict m img (Some (float_literal (3 # 10))) = inr results)
    (Hnone : all_boxes results = []) :
  (exists res,
     result (detect_objects lib (body request) w) = inr (Some res, None) /\
     total_objects res = 0 /\ objects_detected res = []) /\
  (exists resp found,
     result (yolo_detect_objects lib request w) = inr resp /\
     status_code resp = 200 /\
     jget "status" (content resp) = Some (JStr "success") /\
     jget "detection_results" (content resp) = Some found /\
     jget "total_objects" found = Some (JInt 0) /\
     jget "objects_detected" found = Some (JList [])).
Proof.
  split.
  - rewrite (detect_objects_success lib (body request) w m img results) by assumption.
    rewrite Hnone. eexists. split; [reflexivity |]. split; reflexivity.
  - rewrite (yolo_detect_objects_loaded lib request w Hloaded). cbn zeta.
    unfold try_except, yolo_validate_and_detect.
    rewrite (proj2 (Z.ltb_ge _ _) Hmin).
    replace (Z.of_nat (length (body request)) >? 10 * 1024 * 1024) with false
      by (symmetry; rewrite Z.gtb_ltb; apply Z.ltb_ge; exact Hmax).
    rewrite Hjpeg. cbn [negb]. unfold bind at 1. unfold time_time at 1.
    unfold bind at 1. unfold tick at 1. unfold ret at 1. unfold bind at 1.
    rewrite (detect_objects_success lib (body request) _ m img results)
      by assumption.
    rewrite Hnone. run_handler. cbn.
    do 2 eexists. repeat split; reflexivity.
Qed.

(** The theorem at work: a model that finds nothing in the picture. *)
Lemma no_detections_is_success_witness :
  exists resp found,
    result (yolo_detect_objects sample_lib (mk_Request tomato_jpeg)
              (world_loaded blind_model fast_clock)) = inr resp /\
    status_code resp = 200 /\
    jget "detection_results" (content resp) = Some found /\
    jget "total_objects" found = Some (JInt 0) /\
    jget "objects_detected" found = Some (JList []).
Proof.
  destruct (no_detections_is_success sample_lib (mk_Request tomato_jpeg)
              (world_loaded blind_model fast_clock) blind_model picture
              [mk_Results None; mk_Results (Some [])]
              eq_refl eq_refl)
    as [_ [resp [found [Hresp [Hstatus [_ [Hfound [Htotal Hobjects]]]]]]]].
  - vm_compute. discriminate.
  - vm_compute. discriminate.
  - vm_compute. reflexivity.
  - vm_compute. reflexivity.
  - reflexivity.
  - reflexivity.
  - exists resp, found. repeat split; assumption.
Defined.

End Facade.

(** ** The HTTP facade: [/upload-image] *)

Module Upload.
Import PyNum Py Lib World Detector Server Samples.
Import Lifecycle Facade.

(** *** File names *)

Lemma digit_value_digit (n : Z) : digit_value (digit n) = n mod 10.
Proof.
  pose proof (Z.mod_pos_bound n 10 ltac:(lia)) as Hb.
  unfold digit. remember (n mod 10) as x eqn:Hx. clear Hx.
  assert (Hcases : x = 0 \/ x = 1 \/ x = 2 \/ x = 3 \/ x = 4 \/
                   x = 5 \/ x = 6 \/ x = 7 \/ x = 8 \/ x = 9) by lia.
  clear Hb.
  repeat (destruct Hcases as [-> | Hcases]; [reflexivity |]).
  subst x. reflexivity.
Qed.

Lemma digit_not_slash (n : Z) : Ascii.eqb (digit n) "/" = false.
Proof.
  pose proof (Z.mod_pos_bound n 10 ltac:(lia)) as Hb.
  unfold digit. remember (n mod 10) as x eqn:Hx. clear Hx.
  assert (Hcases : x = 0 \/ x = 1 \/ x = 2 \/ x = 3 \/ x = 4 \/
                   x = 5 \/ x = 6 \/ x = 7 \/ x = 8 \/ x = 9) by lia.
  clear Hb.
  repeat (destruct Hcases as [-> | Hcases]; [reflexivity |]).
  subst x. reflexivity.
Qed.

Lemma slash_free_app (s t : string) :
  slash_free (s ++ t) = slash_free s && slash_free t.
Proof.
  induction s as [| c s IH]; [reflexivity |].
  change (String c s ++ t) with (String c (s ++ t)).
  cbn [slash_free]. rewrite IH. apply andb_assoc.
Qed.

Lemma slash_free_zero_pad2 (n : Z) : slash_free (zero_pad2 n) = true.
Proof. unfold zero_pad2. cbn. rewrite !digit_not_slash. reflexivity. Qed.

Lemma slash_free_zero_pad4 (n : Z) : slash_free (zero_pad4 n) = true.
Proof. unfold zero_pad4, zero_pad2. cbn. rewrite !digit_not_slash. reflexivity. Qed.

Lemma slash_free_strftime (t : datetime) : slash_free (strftime_Ymd_HMS t) = true.
Proof.
  unfold strftime_Ymd_HMS.
  rewrite !slash_free_app, slash_free_zero_pad4, !slash_free_zero_pad2.
  reflexivity.
Qed.

Lemma dirname_slash_free (s : string) : slash_free s = true -> dirname s = None.
Proof.
  induction s as [| c s IH]; [reflexivity |].
  cbn. intros H. apply andb_prop in H as [Hc Hs].
  rewrite (IH Hs). destruct (Ascii.eqb c "/"); [discriminate | reflexivity].
Qed.

Lemma dirname_join (d name : string) :
  slash_free name = true -> dirname (d ++ "/" ++ name) = Some d.
Proof.
  intros Hn. induction d as [| c d IH].
  - change ("" ++ "/" ++ name) with (String "/" name).
    cbn [dirname]. rewrite (dirname_slash_free name Hn). reflexivity.
  - change (String c d ++ "/" ++ name) with (String c (d ++ "/" ++ name)).
    cbn [dirname]. rewrite IH. reflexivity.
Qed.

(** The path the handler builds is the one [upload_path] names; its
    directory part is [received_images]. *)
Lemma os_path_join_upload (t : datetime) :
  os_path_join "received_images" ("esp32_image_" ++ strftime_Ymd_HMS t ++ ".jpg")
  = upload_path t.
Proof. reflexivity. Qed.

Lemma dirname_upload_path (t : datetime) :
  dirname (upload_path t) = Some "received_images".
Proof.
  change (upload_path t)
    with ("received_images" ++ "/" ++ ("esp32_image_" ++ strftime_Ymd_HMS t ++ ".jpg")).
  apply dirname_join.
  rewrite !slash_free_app, slash_free_strftime. reflexivity.
Qed.

Lemma upload_path_not_dir (t : datetime) : upload_path t <> "received_images".
Proof.
  intros H. pose proof (dirname_upload_path t) as Hd. rewrite H in Hd.
  discriminate Hd.
Qed.

(** *** Opening and writing in one step *)

Lemma open_wb_write_run (path d : string) (data : list byte) (w : world) :
  dirname path = Some d -> d <> "" ->
  open_wb_write path data w =
    match fs w !! d with
    | None => (inl ("[Errno 2] No such file or directory: '" ++ path ++ "'"), w)
    | Some (File _) => (inl ("[Errno 20] Not a directory: '" ++ path ++ "'"), w)
    | Some Dir =>
        match fs w !! path with
        | Some Dir => (inl ("[Errno 21] Is a directory: '" ++ path ++ "'"), w)
        | _ =>
            match write_fault w path with
            | Some e => (inl e, w)
            | None =>
                match io_fault w path with
                | Some (e, n) =>
                    (inl e, with_fs (<[path := File (take n data)]> (fs w)) w)
                | None => (inr tt, with_fs (<[path := File data]> (fs w)) w)
                end
            end
        end
    end.
Proof.
  intros Hd Hne. unfold open_wb_write, open_wb, file_write, bind. rewrite Hd.
  destruct d as [| c d']; [contradiction |].
  destruct (fs w !! String c d') as [[content |] |]; try reflexivity.
  destruct (fs w !! path) as [[old |] |]; try reflexivity;
    (destruct (write_fault w path) as [e |]; [reflexivity |]);
    cbn [io_fault with_fs fs];
    (destruct (io_fault w path) as [[e n] |]);
    unfold with_fs; cbn [fs yolo_detector cwd write_fault io_fault clock ticks calls];
    rewrite insert_insert_eq; reflexivity.
Qed.

(** *** What a successful upload did *)

(** Reduce a run kept in a hypothesis; dismiss a run that ended in an error
    answer. *)
Ltac norm_run H :=
  cbv beta iota zeta in H;
  cbn [negb fs ticks clock write_fault io_fault cwd calls yolo_detector with_fs] in H.

Ltac failed_run H Hstatus := injection H as <- <-; discriminate Hstatus.

Lemma upload_success_inv
    (request : Request) (w : world) (resp : JSONResponse) (w' : world) :
  upload_image_direct request w = (inr resp, w') ->
  status_code resp = 200 ->
  let path := upload_path (local (clock w (S (S (ticks w))))) in
  jget "status" (content resp) = Some (JStr "success") /\
  jget "saved_to" (content resp) = Some (JStr path) /\
  fs w' = <[path := File (body request)]> (<["received_images" := Dir]> (fs w)) /\
  ticks w' = S (S (S (S (ticks w)))) /\
  clock w' = clock w /\
  write_fault w' = write_fault w.
Proof.
  intros Hrun Hstatus. cbn zeta. unfold upload_image_direct in Hrun.
  cbv [bind ret try_except gets tick time_time datetime_now elapsed
       error_response os_path_exists] in Hrun.
  cbn -[upload_path strftime_Ymd_HMS isoformat py_round_n float_sub float_div
        os_path_join os_makedirs open_wb_write Z.gtb Z.mul] in Hrun.
  destruct (Z.of_nat (length (body request)) <? 1000);
    [injection Hrun as <- <-; discriminate Hstatus |].
  destruct (Z.of_nat (length (body request)) >? 5 * 1024 * 1024);
    [injection Hrun as <- <-; discriminate Hstatus |].
  destruct (negb (is_jpeg (body request)));
    [injection Hrun as <- <-; discriminate Hstatus |].
  rewrite os_path_join_upload in Hrun.
  unfold with_ticks in Hrun.
  cbn [fs ticks clock write_fault io_fault cwd calls yolo_detector] in Hrun.
  pose proof (dirname_upload_path (local (clock w (S (S (ticks w)))))) as Hparent.
  pose proof (upload_path_not_dir (local (clock w (S (S (ticks w)))))) as Hne.
  set (path := upload_path (local (clock w (S (S (ticks w)))))) in *.
  unfold os_makedirs in Hrun.
  destruct (fs w !! "received_images") as [nd |] eqn:Hdir; norm_run Hrun.
  - rewrite (open_wb_write_run path "received_images") in Hrun
      by (assumption || discriminate).
    norm_run Hrun. rewrite Hdir in Hrun.
    destruct nd; norm_run Hrun; [failed_run Hrun Hstatus |].
    destruct (fs w !! path) as [[data |] |] eqn:Hold; norm_run Hrun;
      try (failed_run Hrun Hstatus);
      (destruct (write_fault w path) as [e |]; norm_run Hrun;
       [failed_run Hrun Hstatus |]);
      (destruct (io_fault w path) as [[e n] |]; norm_run Hrun;
       [failed_run Hrun Hstatus |]);
      injection Hrun as <- <-; cbn;
      rewrite (insert_id (fs w) "received_images" Dir Hdir);
      repeat split; reflexivity.
  - rewrite Hdir in Hrun.
    destruct (write_fault w "received_images") as [e |]; norm_run Hrun;
      [failed_run Hrun Hstatus |].
    rewrite (open_wb_write_run path "received_images") in Hrun
      by (assumption || discriminate).
    norm_run Hrun.
    rewrite lookup_insert_eq in Hrun. norm_run Hrun.
    rewrite lookup_insert_ne in Hrun by (intros Heq; apply Hne; symmetry; exact Heq).
    destruct (fs w !! path) as [[data |] |] eqn:Hold; norm_run Hrun;
      try (failed_run Hrun Hstatus);
      (destruct (write_fault w path) as [e |]; norm_run Hrun;
       [failed_run Hrun Hstatus |]);
      (destruct (io_fault w path) as [[e n] |]; norm_run Hrun;
       [failed_run Hrun Hstatus |]);
      injection Hrun as <- <-; cbn;
      repeat split; reflexivity.
Qed.

(** *** Names and seconds *)

Lemma same_second_upload_path (t u : datetime) :
  same_second t u -> upload_path t = upload_path u.
Proof.
  intros (Hy & Hmo & Hd & Hh & Hmi & Hs).
  unfold upload_path, strftime_Ymd_HMS.
  rewrite Hy, Hmo, Hd, Hh, Hmi, Hs. reflexivity.
Qed.

Lemma two_digits_inj (a b : Z) :
  0 <= a < 100 -> 0 <= b < 100 ->
  (a / 10) mod 10 = (b / 10) mod 10 -> a mod 10 = b mod 10 -> a = b.
Proof. intros Ha Hb H1 H0. Z.div_mod_to_equations. lia. Qed.

Lemma four_digits_inj (a b : Z) :
  0 <= a < 10000 -> 0 <= b < 10000 ->
  (a / 1000) mod 10 = (b / 1000) mod 10 ->
  (a / 100) mod 10 = (b / 100) mod 10 ->
  (a / 10) mod 10 = (b / 10) mod 10 -> a mod 10 = b mod 10 -> a = b.
Proof. intros Ha Hb H3 H2 H1 H0. Z.div_mod_to_equations. lia. Qed.

Lemma upload_path_same_second (t u : datetime) :
  datetime_wf t -> datetime_wf u ->
  upload_path t = upload_path u -> same_second t u.
Proof.
  intros Ht Hu Heq.
  cbv [upload_path strftime_Ymd_HMS zero_pad4 zero_pad2 String.append] in Heq.
  injection Heq as Hy3 Hy2 Hy1 Hy0 Hmo1 Hmo0 Hd1 Hd0 Hh1 Hh0 Hmi1 Hmi0 Hs1 Hs0.
  apply (f_equal digit_value) in Hy3, Hy2, Hy1, Hy0, Hmo1, Hmo0, Hd1, Hd0,
    Hh1, Hh0, Hmi1, Hmi0, Hs1, Hs0.
  rewrite !digit_value_digit in *.
  unfold datetime_wf in Ht, Hu.
  destruct Ht as (Hty & Htmo & Htd & Hth & Htmi & Hts).
  destruct Hu as (Huy & Humo & Hud & Huh & Humi & Hus).
  unfold same_second. repeat split.
  - apply four_digits_inj; first [assumption | lia].
  - apply two_digits_inj; first [assumption | lia].
  - apply two_digits_inj; first [assumption | lia].
  - apply two_digits_inj; first [assumption | lia].
  - apply two_digits_inj; first [assumption | lia].
  - apply two_digits_inj; first [assumption | lia].
Qed.

(** C8.  When [/upload-image] answers 200, the file at the [saved_to] path
    of the answer holds exactly the bytes of the request body. *)
Theorem upload_round_trip
    (request : Request) (w : world) (resp : JSONResponse) (w' : world)
    (Hrun : upload_image_direct request w = (inr resp, w'))
    (Hok : status_code resp = 200) :
  exists path,
    jget "saved_to" (content resp) = Some (JStr path) /\
    read_file path w' = Some (body request).
Proof.
  destruct (upload_success_inv request w resp w' Hrun Hok)
    as (_ & Hsaved & Hfs & _).
  eexists. split; [exact Hsaved |].
  unfold read_file. rewrite Hfs, lookup_insert_eq. reflexivity.
Qed.

(** The theorem at work: a first upload to a fresh server. *)
Lemma upload_round_trip_witness :
  exists resp w',
    upload_image_direct (mk_Request tomato_jpeg) (fresh_world fast_clock)
      = (inr resp, w') /\
    jget "saved_to" (content resp)
      = Some (JStr "received_images/esp32_image_20240307_090559.jpg") /\
    read_file "received_images/esp32_image_20240307_090559.jpg" w'
      = Some tomato_jpeg.
Proof.
  pose (r := upload_image_direct (mk_Request tomato_jpeg) (fresh_world fast_clock)).
  pose (resp := match fst r with
                | inr x => x
                | inl _ => {| content := JNull; status_code := 0 |}
                end).
  assert (Hfst : fst r = inr resp) by (vm_compute; reflexivity).
  assert (Hrun : upload_image_direct (mk_Request tomato_jpeg) (fresh_world fast_clock)
                 = (inr resp, snd r)) by (rewrite <- Hfst; apply surjective_pairing).
  assert (Hok : status_code resp = 200) by (vm_compute; reflexivity).
  destruct (upload_round_trip _ _ resp (snd r) Hrun Hok) as [path [Hsaved Hread]].
  assert (Hpath : jget "saved_to" (content resp)
                  = Some (JStr "received_images/esp32_image_20240307_090559.jpg"))
    by (vm_compute; reflexivity).
  rewrite Hpath in Hsaved. injection Hsaved as <-.
  exists resp, (snd r). split; [exact Hrun | split; [exact Hpath | exact Hread]].
Defined.

(** C9 (amended).  Of two successful uploads in a row, each is saved under
    the name its own timestamp gives and the second one's file holds the
    second body.  When the two timestamps agree down to the second the names
    are the same, so that file is the first one's too and the first body is
    gone; when they differ (calendar timestamps), the names differ and the
    first one's file still holds the first body. *)
Theorem sequential_uploads
    (request1 request2 : Request) (w : world)
    (resp1 : JSONResponse) (w1 : world) (resp2 : JSONResponse) (w2 : world)
    (Hrun1 : upload_image_direct request1 w = (inr resp1, w1))
    (Hok1 : status_code resp1 = 200)
    (Hrun2 : upload_image_direct request2 w1 = (inr resp2, w2))
    (Hok2 : status_code resp2 = 200) :
  let t1 := local (clock w (2 + ticks w)%nat) in
  let t2 := local (clock w (6 + ticks w)%nat) in
  jget "saved_to" (content resp1) = Some (JStr (upload_path t1)) /\
  jget "saved_to" (content resp2) = Some (JStr (upload_path t2)) /\
  read_file (upload_path t2) w2 = Some (body request2) /\
  (same_second t1 t2 ->
   upload_path t1 = upload_path t2 /\
   read_file (upload_path t1) w2 = Some (body request2)) /\
  (datetime_wf t1 -> datetime_wf t2 -> ~ same_second t1 t2 ->
   upload_path t1 <> upload_path t2 /\
   read_file (upload_path t1) w2 = Some (body request1)).
Proof.
  cbn zeta.
  destruct (upload_success_inv request1 w resp1 w1 Hrun1 Hok1)
    as (_ & Hsaved1 & Hfs1 & Hticks1 & Hclock1 & _).
  destruct (upload_success_inv request2 w1 resp2 w2 Hrun2 Hok2)
    as (_ & Hsaved2 & Hfs2 & _).
  cbn zeta in Hsaved1, Hsaved2, Hfs1, Hfs2.
  rewrite Hticks1, Hclock1 in Hsaved2, Hfs2.
  change (2 + ticks w)%nat with (S (S (ticks w))).
  change (6 + ticks w)%nat with (S (S (S (S (S (S (ticks w))))))).
  set (t1 := local (clock w (S (S (ticks w))))) in *.
  set (t2 := local (clock w (S (S (S (S (S (S (ticks w))))))))) in *.
  assert (Hread2 : read_file (upload_path t2) w2 = Some (body request2)).
  { unfold read_file. rewrite Hfs2, lookup_insert_eq. reflexivity. }
  split; [exact Hsaved1 |]. split; [exact Hsaved2 |]. split; [exact Hread2 |].
  split.
  - intros Hsame. pose proof (same_second_upload_path t1 t2 Hsame) as Hp.
    split; [exact Hp |]. rewrite Hp. exact Hread2.
  - intros Hwf1 Hwf2 Hdiff.
    assert (Hp : upload_path t1 <> upload_path t2).
    { intros Hp. apply Hdiff. apply upload_path_same_second; assumption. }
    split; [exact Hp |].
    unfold read_file. rewrite Hfs2.
    rewrite lookup_insert_ne by (intros Heq; apply Hp; symmetry; exact Heq).
    rewrite lookup_insert_ne by (apply not_eq_sym, upload_path_not_dir).
    rewrite Hfs1, lookup_insert_eq. reflexivity.
Qed.

(** The theorem at work: two uploads within one second of the fast clock. *)
Lemma sequential_uploads_witness :
  let r1 := upload_image_direct (mk_Request tomato_jpeg) (fresh_world fast_clock) in
  let r2 := upload_image_direct (mk_Request empty_jpeg) (snd r1) in
  read_file "received_images/esp32_image_20240307_090559.jpg" (snd r2)
    = Some empty_jpeg.
Proof.
  intros r1 r2.
  pose (blank := {| content := JNull; status_code := 0 |}).
  pose (resp1 := match fst r1 with inr x => x | inl _ => blank end).
  pose (resp2 := match fst r2 with inr x => x | inl _ => blank end).
  assert (Hfst1 : fst r1 = inr resp1) by (vm_compute; reflexivity).
  assert (Hfst2 : fst r2 = inr resp2) by (vm_compute; reflexivity).
  assert (Hrun1 : upload_image_direct (mk_Request tomato_jpeg) (fresh_world fast_clock)
                  = (inr resp1, snd r1))
    by (rewrite <- Hfst1; apply surjective_pairing).
  assert (Hrun2 : upload_image_direct (mk_Request empty_jpeg) (snd r1)
                  = (inr resp2, snd r2))
    by (rewrite <- Hfst2; apply surjective_pairing).
  assert (Hok1 : status_code resp1 = 200) by (vm_compute; reflexivity).
  assert (Hok2 : status_code resp2 = 200) by (vm_compute; reflexivity).
  destruct (sequential_uploads _ _ _ resp1 (snd r1) resp2 (snd r2)
              Hrun1 Hok1 Hrun2 Hok2) as (_ & _ & _ & Hsame & _).
  destruct Hsame as [_ Hread]; [vm_compute; repeat split |].
  exact Hread.
Defined.

(** On the clock that advances a second per reading, the two uploads are
    stamped 09:05:02 and 09:05:06 and both files are there afterwards. *)
Example uploads_in_different_seconds :
  let r1 := upload_image_direct (mk_Request tomato_jpeg) (fresh_world slow_clock) in
  let r2 := upload_image_direct (mk_Request empty_jpeg) (snd r1) in
  read_file "received_images/esp32_image_20240307_090502.jpg" (final r2)
    = Some tomato_jpeg /\
  read_file "received_images/esp32_image_20240307_090506.jpg" (final r2)
    = Some empty_jpeg.
Proof. split; vm_compute; reflexivity. Qed.

(** C9 as stated fails: two uploads in a row within one second both succeed,
    are both saved under the same name, and the file keeps the second body
    only. *)
Lemma same_second_uploads_collide :
  let r1 := upload_image_direct (mk_Request tomato_jpeg) (fresh_world fast_clock) in
  let r2 := upload_image_direct (mk_Request empty_jpeg) (snd r1) in
  let path := "received_images/esp32_image_20240307_090559.jpg" in
  saved_as path (result r1) /\ saved_as path (result r2) /\
  read_file path (final r1) = Some tomato_jpeg /\
  read_file path (final r2) = Some empty_jpeg /\
  tomato_jpeg <> empty_jpeg.
Proof.
  cbn zeta. split; [| split; [| split; [| split]]].
  - eexists. split; [vm_compute; reflexivity |].
    split; [reflexivity | split; reflexivity].
  - eexists. split; [vm_compute; reflexivity |].
    split; [reflexivity | split; reflexivity].
  - vm_compute. reflexivity.
  - vm_compute. reflexivity.
  - intros H. vm_compute in H. discriminate H.
Qed.

End Upload.

(** ** The server over time: what [model_loaded] vouches for *)

Module Invariant.
Import PyNum Py Lib World Detector Server Samples.
Import Lifecycle Facade.

Section Preservation.
Context {A B : Type} (I : world -> Prop).

Lemma preserves_ret (a : A) : preserves I (ret a).
Proof. intros w H. exact H. Qed.

Lemma preserves_raise (e : string) : preserves I (@raise A e).
Proof. intros w H. exact H. Qed.

Lemma preserves_gets (f : world -> A) : preserves I (gets f).
Proof. intros w H. exact H. Qed.

Lemma preserves_lift (r : Exc A) : preserves I (lift r).
Proof. intros w H. exact H. Qed.

Lemma preserves_bind (m : M A) (k : A -> M B) :
  preserves I m -> (forall a, preserves I (k a)) -> preserves I (bind m k).
Proof.
  intros Hm Hk w H. specialize (Hm w H). unfold bind, final in *.
  destruct (m w) as [[e | a] w']; cbn in *; [exact Hm | apply Hk, Hm].
Qed.

Lemma preserves_try (body : M A) (handler : string -> M A) :
  preserves I body -> (forall e, preserves I (handler e)) ->
  preserves I (try_except body handler).
Proof.
  intros Hb Hh w H. specialize (Hb w H). unfold try_except, final in *.
  destruct (body w) as [[e | a] w']; cbn in *; [apply Hh, Hb | exact Hb].
Qed.

End Preservation.

(** The invariant looks at the detector and at the calls only, and more
    calls do not hurt it. *)
Lemma tested_frame (w w' : world) (extra : list call) :
  yolo_detector w' = yolo_detector w ->
  calls w' = (calls w ++ extra)%list ->
  loaded_means_tested w -> loaded_means_tested w'.
Proof.
  intros Hd Hc H Hl. rewrite Hd in Hl.
  destruct (H Hl) as (m & Hm & Hin & Hres).
  exists m. rewrite Hd. split; [exact Hm |]. split; [| exact Hres].
  rewrite Hc. apply elem_of_app. left. exact Hin.
Qed.

Lemma tested_same (w w' : world) :
  yolo_detector w' = yolo_detector w ->
  calls w' = calls w ->
  loaded_means_tested w -> loaded_means_tested w'.
Proof.
  intros Hd Hc. apply (tested_frame w w' []); [exact Hd |].
  rewrite app_nil_r. exact Hc.
Qed.

Lemma preserves_tick : preserves loaded_means_tested tick.
Proof. intros w. apply tested_same; reflexivity. Qed.

Lemma preserves_time_time : preserves loaded_means_tested time_time.
Proof.
  apply preserves_bind; [apply preserves_tick | intros i; apply preserves_ret].
Qed.

Lemma preserves_datetime_now : preserves loaded_means_tested datetime_now.
Proof.
  apply preserves_bind; [apply preserves_tick | intros i; apply preserves_ret].
Qed.

Lemma preserves_log_call (c : call) : preserves loaded_means_tested (log_call c).
Proof. intros w. apply (tested_frame _ _ [c]); reflexivity. Qed.

Lemma preserves_elapsed (start_time : Q) :
  preserves loaded_means_tested (elapsed start_time).
Proof.
  apply preserves_bind; [apply preserves_time_time | intros t; apply preserves_ret].
Qed.

Lemma preserves_error_response (status : Z) (msg : string) (start_time : Q) :
  preserves loaded_means_tested (error_response status msg start_time).
Proof.
  apply preserves_bind; [apply preserves_elapsed | intros t; apply preserves_ret].
Qed.

Lemma preserves_os_makedirs (path : string) :
  preserves loaded_means_tested (os_makedirs path).
Proof.
  intros w H. unfold os_makedirs, final.
  destruct (fs w !! path); [exact H |].
  destruct (write_fault w path); [exact H |].
  revert H. apply tested_same; reflexivity.
Qed.

Lemma preserves_open_wb_write (path : string) (data : list byte) :
  preserves loaded_means_tested (open_wb_write path data).
Proof.
  apply preserves_bind; [| intros _]; intros w H.
  - unfold open_wb, final.
    destruct (match dirname path with
              | None | Some "" => Some Dir
              | Some d => fs w !! d
              end) as [[content |] |]; try exact H.
    destruct (fs w !! path) as [[d |] |];
      try exact H;
      (destruct (write_fault w path); [exact H |]);
      revert H; apply tested_same; reflexivity.
  - unfold file_write, final.
    destruct (io_fault w path) as [[e n] |];
      revert H; apply tested_same; reflexivity.
Qed.

(** A load that starts with nothing loaded keeps the invariant: it sets
    [model_loaded] only after the test inference of the model it has just
    stored has returned. *)
Lemma load_model_tested (lib : Libraries) (mp : option string) (w : world) :
  model_loaded (yolo_detector w) = false ->
  loaded_means_tested (final (load_model lib mp w)).
Proof.
  intros Hnl. rewrite load_model_run. unfold final, loaded_means_tested.
  cbn [snd yolo_detector calls with_detector with_ticks with_calls].
  unfold outcome_at.
  destruct (fs w !! str_or mp "best.pt") as [nd |];
    [| cbn; rewrite Hnl; discriminate].
  destruct (YOLO lib (str_or mp "best.pt") nd) as [e | m];
    [cbn; rewrite Hnl; discriminate |].
  destruct (predict m dummy_image None) as [e | res] eqn:Hsmoke;
    [cbn; rewrite Hnl; discriminate |].
  intros _. exists m. split; [reflexivity |]. split; [| exists res; exact Hsmoke].
  cbn. apply elem_of_app. right. set_solver.
Qed.

Lemma preserves_call_model (img : ndarray) (conf : option Q) :
  preserves loaded_means_tested (call_model img conf).
Proof.
  apply preserves_bind; [apply preserves_gets | intros [m |]].
  - apply preserves_bind; [apply preserves_log_call | intros _].
    apply preserves_bind; [apply preserves_lift | intros results].
    apply preserves_ret.
  - apply preserves_raise.
Qed.

Lemma preserves_detect_objects (lib : Libraries) (image_data : list byte) :
  preserves loaded_means_tested (detect_objects lib image_data).
Proof.
  apply preserves_bind; [apply preserves_gets | intros loaded].
  destruct (negb loaded); [apply preserves_ret |].
  apply preserves_try; [| intros e; apply preserves_ret].
  apply preserves_bind; [apply preserves_log_call | intros _].
  apply preserves_bind; [apply preserves_lift | intros [img |]];
    [| apply preserves_ret].
  apply preserves_bind; [apply preserves_call_model | intros [m results]].
  destruct (fold_left (process_result m) results ([], 0)) as [dets total].
  destruct (shape img) as [[rows cols] chans]. apply preserves_ret.
Qed.

Lemma preserves_validate_and_detect
    (lib : Libraries) (request : Request) (start_time : Q) (request_time : string) :
  preserves loaded_means_tested
    (yolo_validate_and_detect lib request start_time request_time).
Proof.
  unfold yolo_validate_and_detect.
  destruct (_ <? 1000); [apply preserves_error_response |].
  destruct (_ >? _); [apply preserves_error_response |].
  destruct (negb _); [apply preserves_error_response |].
  apply preserves_bind; [apply preserves_time_time | intros t0].
  apply preserves_bind; [apply preserves_detect_objects | intros [res err]].
  apply preserves_bind; [apply preserves_elapsed | intros dt].
  destruct (truthy err); [apply preserves_error_response |].
  apply preserves_bind; [apply preserves_elapsed | intros pt].
  destruct res; [apply preserves_ret | apply preserves_raise].
Qed.

Lemma preserves_yolo_detect_objects (lib : Libraries) (request : Request) :
  preserves loaded_means_tested (yolo_detect_objects lib request).
Proof.
  intros w H.
  destruct (model_loaded (yolo_detector w)) eqn:Hl.
  - rewrite (yolo_detect_objects_loaded lib request w Hl). cbn zeta.
    apply (preserves_try loaded_means_tested);
      [apply preserves_validate_and_detect
      | intros e; apply preserves_error_response |].
    revert H. apply tested_same; reflexivity.
  - rewrite (yolo_detect_objects_unloaded lib request w Hl). cbn zeta.
    set (w2 := with_ticks (S (S (ticks w))) w).
    assert (Hrest : forall ok,
      preserves loaded_means_tested
        (try_except
           (if negb ok
            then model_not_loaded_response (epoch (clock w (ticks w)))
            else yolo_validate_and_detect lib request (epoch (clock w (ticks w)))
                   (isoformat (local (clock w (S (ticks w))))))
           (fun e => error_response 500 ("YOLO detection error: " ++ e)
                       (epoch (clock w (ticks w)))))).
    { intros ok. apply preserves_try; [| intros e; apply preserves_error_response].
      destruct ok; cbn [negb]; [apply preserves_validate_and_detect |].
      apply preserves_bind; [apply preserves_gets | intros d].
      apply preserves_bind; [apply preserves_elapsed | intros pt].
      apply preserves_ret. }
    assert (Hload : loaded_means_tested (final (load_model lib None w2)))
      by (apply load_model_tested; exact Hl).
    unfold try_except, bind, final in Hload |- *.
    destruct (load_model lib None w2) as [[e | ok] w3]; cbn [snd] in Hload.
    + exact (preserves_error_response 500 ("YOLO detection error: " ++ e)
               (epoch (clock w (ticks w))) w3 Hload).
    + exact (Hrest ok w3 Hload).
Qed.

Lemma preserves_upload_image_direct (request : Request) :
  preserves loaded_means_tested (upload_image_direct request).
Proof.
  unfold upload_image_direct.
  apply preserves_bind; [apply preserves_time_time | intros start_time].
  apply preserves_bind; [apply preserves_datetime_now | intros now].
  apply preserves_try; [| intros e; apply preserves_error_response].
  cbv zeta.
  destruct (Z.of_nat (length (body request)) <? 1000);
    [apply preserves_error_response |].
  destruct (Z.of_nat (length (body request)) >? 5 * 1024 * 1024);
    [apply preserves_error_response |].
  destruct (negb (is_jpeg (body request))); [apply preserves_error_response |].
  apply preserves_bind; [apply preserves_datetime_now | intros stamp].
  apply preserves_bind; [apply preserves_gets | intros there].
  apply preserves_bind;
    [destruct (negb there); [apply preserves_os_makedirs | apply preserves_ret] |
     intros _].
  apply preserves_bind; [apply preserves_open_wb_write | intros _].
  apply preserves_bind; [apply preserves_elapsed | intros pt].
  apply preserves_ret.
Qed.

(** In every world the server can reach, a detector with
    [model_loaded = True] holds a model that has passed the test
    inference. *)
Lemma reachable_loaded_means_tested (lib : Libraries) (w : world) :
  reachable lib w -> loaded_means_tested w.
Proof.
  induction 1 as [w Hinit | mp w _ IH Hnl | data w _ IH | request w _ IH
                  | request w _ IH | files w _ IH].
  - intros Hl. rewrite Hinit in Hl. discriminate Hl.
  - apply load_model_tested, Hnl.
  - apply preserves_detect_objects, IH.
  - apply preserves_yolo_detect_objects, IH.
  - apply preserves_upload_image_direct, IH.
  - revert IH. apply tested_same; reflexivity.
Qed.

(** C7 (amended).  When the artifact parses into a model [m], the load calls
    the constructor once and then runs exactly one inference, [m] on the
    blank 640 x 640 image; if that inference raises, the load returns
    [False], records the same kind of error message a parse failure records
    and leaves [model_loaded] untouched; if it succeeds the load returns
    [True] with [model_loaded = True].  A parse failure makes no inference.
    A load returns [True], or turns [model_loaded] from [False] to [True],
    only when the test inference of the model it leaves in the detector has
    succeeded; and as long as [load_model] is called only while nothing is
    loaded, as the server does, a detector with [model_loaded = True] holds
    a model that has passed the test inference. *)
Theorem load_model_smoke_test (lib : Libraries) (mp : option string) (w : world) :
  let path := str_or mp "best.pt" in
  let r := load_model lib mp w in
  let d := yolo_detector w in
  let d' := yolo_detector (final r) in
  let passed := exists nd m res,
      fs w !! path = Some nd /\ YOLO lib path nd = inr m /\
      predict m dummy_image None = inr res /\ model d' = Some m in
  (forall nd, fs w !! path = Some nd ->
     match YOLO lib path nd with
     | inr m =>
         calls (final r) =
           (calls w ++ [CallLoadModel mp; CallYOLO path;
                        CallModel m dummy_image None])%list /\
         match predict m dummy_image None with
         | inr _ =>
             result r = inr true /\ model_loaded d' = true /\ load_error d' = None
         | inl e =>
             result r = inr false /\ model_loaded d' = model_loaded d /\
             load_error d' = Some ("Error loading YOLO model: " ++ e)
         end
     | inl e =>
         calls (final r) = (calls w ++ [CallLoadModel mp; CallYOLO path])%list /\
         result r = inr false /\ model_loaded d' = model_loaded d /\
         load_error d' = Some ("Error loading YOLO model: " ++ e)
     end) /\
  (result r = inr true -> passed) /\
  (model_loaded d = false -> model_loaded d' = true -> passed) /\
  (reachable lib w -> loaded_means_tested w).
Proof.
  cbn zeta. split; [| split; [| split; [| apply reachable_loaded_means_tested]]];
    rewrite load_model_run; unfold loadable, outcome_at, result, final; cbn.
  - intros nd Hfs. rewrite Hfs.
    destruct (YOLO lib (str_or mp "best.pt") nd) as [e | m]; cbn; [tauto |].
    destruct (predict m dummy_image None) as [e | res]; cbn; tauto.
  - destruct (fs w !! str_or mp "best.pt") as [nd |]; [| discriminate].
    destruct (YOLO lib (str_or mp "best.pt") nd) as [e | m] eqn:Hy; [discriminate |].
    destruct (predict m dummy_image None) as [e | res] eqn:Hp; [discriminate |].
    intros _. exists nd, m, res. rewrite Hy. auto.
  - destruct (fs w !! str_or mp "best.pt") as [nd |]; cbn; [| congruence].
    destruct (YOLO lib (str_or mp "best.pt") nd) as [e | m] eqn:Hy; cbn; [congruence |].
    destruct (predict m dummy_image None) as [e | res] eqn:Hp; cbn; [congruence |].
    intros _ _. exists nd, m, res. rewrite Hy. auto.
Qed.

(** The theorem at work on the artifact that parses but cannot run. *)
Lemma load_model_smoke_test_witness :
  let r := load_model sample_lib None (world_with_artifact x03 fast_clock) in
  calls (final r) =
    [CallLoadModel None; CallYOLO "best.pt"; CallModel broken_model dummy_image None] /\
  result r = inr false /\
  model_loaded (yolo_detector (final r)) = false.
Proof.
  destruct (load_model_smoke_test sample_lib None
              (world_with_artifact x03 fast_clock)) as [H _].
  specialize (H (File [x03; x50; x4b]) eq_refl).
  cbn in H. destruct H as [Hcalls [Hres [Hloaded _]]].
  split; [exact Hcalls | split; [exact Hres | exact Hloaded]].
Defined.

(** C7 as stated fails: a model is loaded, the artifact is replaced by one
    that parses but cannot run, and [load_model] is called again.  The test
    inference raises and the load returns [False], yet [model_loaded] is
    still [True] and the detector now holds the model that failed. *)
Lemma loaded_with_a_model_that_failed :
  let r1 := load_model sample_lib None (world_with_artifact x01 fast_clock) in
  let w2 := with_fs {[ "best.pt" := File [x03; x50; x4b] ]} (final r1) in
  let r2 := load_model sample_lib None w2 in
  result r1 = inr true /\
  result r2 = inr false /\
  model_loaded (yolo_detector (final r2)) = true /\
  model (yolo_detector (final r2)) = Some broken_model /\
  predict broken_model dummy_image None
    = inl "CUDA error: no kernel image is available" /\
  ~ loaded_means_tested (final r2).
Proof.
  cbn zeta.
  assert (Hmodel : model (yolo_detector (final (load_model sample_lib None
            (with_fs {[ "best.pt" := File [x03; x50; x4b] ]}
               (final (load_model sample_lib None
                         (world_with_artifact x01 fast_clock))))))) = Some broken_model)
    by (vm_compute; reflexivity).
  assert (Hloaded : model_loaded (yolo_detector (final (load_model sample_lib None
            (with_fs {[ "best.pt" := File [x03; x50; x4b] ]}
               (final (load_model sample_lib None
                         (world_with_artifact x01 fast_clock))))))) = true)
    by (vm_compute; reflexivity).
  split; [vm_compute; reflexivity |]. split; [vm_compute; reflexivity |].
  split; [exact Hloaded |]. split; [exact Hmodel |]. split; [reflexivity |].
  intros H. destruct (H Hloaded) as (m & Hm & _ & res & Hres).
  rewrite Hmodel in Hm. injection Hm as <-. discriminate Hres.
Qed.

End Invariant.

(** ** Frames: what a computation leaves alone *)

Module Frames.
Import PyNum Py Lib World Detector Server Application.
Import Lifecycle Invariant.

(** *** Rules for [no_raise] and [post] *)

Section Rules.
Context {A B : Type}.

Lemma no_raise_ret (a : A) : no_raise (ret a).
Proof. intros w. exists a. reflexivity. Qed.

Lemma no_raise_bind (m : M A) (k : A -> M B) :
  no_raise m -> (forall a, no_raise (k a)) -> no_raise (bind m k).
Proof.
  intros Hm Hk w. destruct (Hm w) as [a Ha]. unfold bind, result in *.
  destruct (m w) as [[e | a'] w']; cbn in *; [discriminate Ha |]. apply Hk.
Qed.

Lemma no_raise_try (body : M A) (handler : string -> M A) :
  (forall e, no_raise (handler e)) -> no_raise (try_except body handler).
Proof.
  intros Hh w. unfold try_except, result.
  destruct (body w) as [[e | a] w']; [apply Hh | exists a; reflexivity].
Qed.

Lemma post_ret (P : A -> Prop) (a : A) : P a -> post P (ret a).
Proof. intros Ha w a' H. injection H as <-. exact Ha. Qed.

Lemma post_raise (P : A -> Prop) (e : string) : post P (raise e).
Proof. intros w a H. discriminate H. Qed.

Lemma post_bind (P : B -> Prop) (m : M A) (k : A -> M B) :
  (forall a, post P (k a)) -> post P (bind m k).
Proof.
  intros Hk w b. unfold bind, result.
  destruct (m w) as [[e | a] w']; cbn; [discriminate | apply Hk].
Qed.

Lemma post_try (P : A -> Prop) (body : M A) (handler : string -> M A) :
  post P body -> (forall e, post P (handler e)) ->
  post P (try_except body handler).
Proof.
  intros Hb Hh w a. specialize (Hb w). unfold try_except, result in *.
  destruct (body w) as [[e | a'] w']; cbn in *; [apply Hh | apply Hb].
Qed.

End Rules.

(** *** Invariants that the clock and the call log cannot break *)

Section Frame.
Context (I : world -> Prop).
Hypothesis I_ticks : forall n w, I w -> I (with_ticks n w).
Hypothesis I_calls : forall cs w, I w -> I (with_calls cs w).

Lemma frame_tick : preserves I tick.
Proof. intros w H. apply I_ticks, H. Qed.

Lemma frame_time_time : preserves I time_time.
Proof.
  apply preserves_bind; [apply frame_tick | intros i; apply preserves_ret].
Qed.

Lemma frame_datetime_now : preserves I datetime_now.
Proof.
  apply preserves_bind; [apply frame_tick | intros i; apply preserves_ret].
Qed.

Lemma frame_log_call (c : call) : preserves I (log_call c).
Proof. intros w H. apply I_calls, H. Qed.

Lemma frame_elapsed (start_time : Q) : preserves I (elapsed start_time).
Proof.
  apply preserves_bind; [apply frame_time_time | intros t; apply preserves_ret].
Qed.

Lemma frame_error_response (status : Z) (msg : string) (start_time : Q) :
  preserves I (error_response status msg start_time).
Proof.
  apply preserves_bind; [apply frame_elapsed | intros t; apply preserves_ret].
Qed.

Lemma frame_call_model (img : ndarray) (conf : option Q) :
  preserves I (call_model img conf).
Proof.
  apply preserves_bind; [apply preserves_gets | intros [m |]].
  - apply preserves_bind; [apply frame_log_call | intros _].
    apply preserves_bind; [apply preserves_lift | intros results].
    apply preserves_ret.
  - apply preserves_raise.
Qed.

Lemma frame_detect_objects (lib : Libraries) (image_data : list byte) :
  preserves I (detect_objects lib image_data).
Proof.
  apply preserves_bind; [apply preserves_gets | intros loaded].
  destruct (negb loaded); [apply preserves_ret |].
  apply preserves_try; [| intros e; apply preserves_ret].
  apply preserves_bind; [apply frame_log_call | intros _].
  apply preserves_bind; [apply preserves_lift | intros [img |]];
    [| apply preserves_ret].
  apply preserves_bind; [apply frame_call_model | intros [m results]].
  destruct (fold_left (process_result m) results ([], 0)) as [dets total].
  destruct (shape img) as [[rows cols] chans]. apply preserves_ret.
Qed.

Lemma frame_validate_and_detect
    (lib : Libraries) (request : Request) (start_time : Q) (request_time : string) :
  preserves I (yolo_validate_and_detect lib request start_time request_time).
Proof.
  unfold yolo_validate_and_detect.
  destruct (_ <? 1000); [apply frame_error_response |].
  destruct (_ >? _); [apply frame_error_response |].
  destruct (negb _); [apply frame_error_response |].
  apply preserves_bind; [apply frame_time_time | intros t0].
  apply preserves_bind; [apply frame_detect_objects | intros [res err]].
  apply preserves_bind; [apply frame_elapsed | intros dt].
  destruct (truthy err); [apply frame_error_response |].
  apply preserves_bind; [apply frame_elapsed | intros pt].
  destruct res; [apply preserves_ret | apply preserves_raise].
Qed.

Lemma frame_log_requests {A} (call_next : M A) :
  preserves I call_next -> preserves I (log_requests call_next).
Proof.
  intros Hnext.
  apply preserves_bind; [apply frame_time_time | intros t0].
  apply preserves_bind; [exact Hnext | intros response].
  apply preserves_bind; [apply frame_time_time | intros t1].
  apply preserves_ret.
Qed.

(** A handler that finds the model loaded goes straight to validation. *)
Lemma frame_yolo_detect_objects_loaded
    (lib : Libraries) (request : Request) (w : world) :
  model_loaded (yolo_detector w) = true ->
  I w -> I (final (yolo_detect_objects lib request w)).
Proof.
  intros Hl H. rewrite (Facade.yolo_detect_objects_loaded lib request w Hl).
  cbn zeta.
  apply (preserves_try I);
    [apply frame_validate_and_detect | intros e; apply frame_error_response |].
  apply I_ticks, H.
Qed.

End Frame.

End Frames.

(** ** Every request is answered *)

Module Answers.
Import PyNum Py Lib World Detector Server Application Samples MoreSamples.
Import Lifecycle Facade Frames.

Lemma no_raise_tick : no_raise tick.
Proof. intros w. eexists. reflexivity. Qed.

Lemma no_raise_time_time : no_raise time_time.
Proof.
  apply no_raise_bind; [apply no_raise_tick | intros i; apply no_raise_ret].
Qed.

Lemma no_raise_datetime_now : no_raise datetime_now.
Proof.
  apply no_raise_bind; [apply no_raise_tick | intros i; apply no_raise_ret].
Qed.

Lemma no_raise_error_response (status : Z) (msg : string) (start_time : Q) :
  no_raise (error_response status msg start_time).
Proof.
  apply no_raise_bind; [| intros t; apply no_raise_ret].
  apply no_raise_bind; [apply no_raise_time_time | intros t; apply no_raise_ret].
Qed.

Lemma post_error_response
    (codes : list Z) (status : Z) (msg : string) (start_time : Q) :
  status ∈ codes -> msg <> "" ->
  post (answer_within codes) (error_response status msg start_time).
Proof.
  intros Hin Hmsg. apply post_bind. intros t. apply post_ret.
  right. split; [exact Hin |].
  split; [reflexivity | split; eexists; [split; [reflexivity | exact Hmsg] | reflexivity]].
Qed.

Lemma truthy_str_or (err : option string) :
  truthy err = true -> str_or err "" <> "".
Proof. destruct err as [[| c s] |]; cbn; discriminate. Qed.

Lemma post_validate_and_detect
    (lib : Libraries) (request : Request) (start_time : Q) (request_time : string) :
  post (answer_within [400; 413; 500; 503])
       (yolo_validate_and_detect lib request start_time request_time).
Proof.
  unfold yolo_validate_and_detect.
  destruct (_ <? 1000);
    [apply post_error_response; [set_solver | discriminate] |].
  destruct (_ >? _);
    [apply post_error_response; [set_solver | discriminate] |].
  destruct (negb _);
    [apply post_error_response; [set_solver | discriminate] |].
  apply post_bind. intros t0. apply post_bind. intros [res err].
  apply post_bind. intros dt.
  destruct (truthy err) eqn:Herr;
    [apply post_error_response; [set_solver | apply truthy_str_or, Herr] |].
  apply post_bind. intros pt.
  destruct res as [res |]; [| apply post_raise].
  apply post_ret. left. split; [reflexivity |].
  split; [reflexivity | eexists; reflexivity].
Qed.

(** X1.  [/yolo-detect] answers every request, whatever the libraries raise:
    a 200 success, or an error body (status ["error"], a non-empty message,
    the processing time) with code 400, 413, 500 or 503. *)
Theorem yolo_detect_always_answers
    (lib : Libraries) (request : Request) (w : world) :
  exists resp,
    result (yolo_detect_objects lib request w) = inr resp /\
    answer_within [400; 413; 500; 503] resp.
Proof.
  assert (Htotal : no_raise (yolo_detect_objects lib request)).
  { apply no_raise_bind; [apply no_raise_time_time | intros t0].
    apply no_raise_bind; [apply no_raise_datetime_now | intros now].
    apply no_raise_try. intros e. apply no_raise_error_response. }
  destruct (Htotal w) as [resp Hresp]. exists resp. split; [exact Hresp |].
  clear Htotal. revert w resp Hresp.
  change (post (answer_within [400; 413; 500; 503]) (yolo_detect_objects lib request)).
  apply post_bind. intros t0. apply post_bind. intros now.
  apply post_try;
    [| intros e; apply post_error_response; [set_solver | discriminate]].
  apply post_bind. intros loaded.
  destruct (negb loaded); [| apply post_validate_and_detect].
  apply post_bind. intros ok.
  destruct (negb ok); [| apply post_validate_and_detect].
  apply post_bind. intros d. apply post_bind. intros pt. apply post_ret.
  right. split; [set_solver |].
  split; [reflexivity |].
  split; eexists; [split; [reflexivity | discriminate] | reflexivity].
Qed.

(** X2.  [/upload-image] answers every request, whatever the file system
    does: a 200 success, or an error body with code 400, 413 or 500. *)
Theorem upload_always_answers (request : Request) (w : world) :
  exists resp,
    result (upload_image_direct request w) = inr resp /\
    answer_within [400; 413; 500] resp.
Proof.
  assert (Htotal : no_raise (upload_image_direct request)).
  { apply no_raise_bind; [apply no_raise_time_time | intros t0].
    apply no_raise_bind; [apply no_raise_datetime_now | intros now].
    apply no_raise_try. intros e. apply no_raise_error_response. }
  destruct (Htotal w) as [resp Hresp]. exists resp. split; [exact Hresp |].
  clear Htotal. revert w resp Hresp.
  change (post (answer_within [400; 413; 500]) (upload_image_direct request)).
  unfold upload_image_direct.
  apply post_bind. intros t0. apply post_bind. intros now.
  apply post_try;
    [| intros e; apply post_error_response; [set_solver | discriminate]].
  cbv zeta.
  destruct (Z.of_nat (length (body request)) <? 1000);
    [apply post_error_response; [set_solver | discriminate] |].
  destruct (Z.of_nat (length (body request)) >? 5 * 1024 * 1024);
    [apply post_error_response; [set_solver | discriminate] |].
  destruct (negb (is_jpeg (body request)));
    [apply post_error_response; [set_solver | discriminate] |].
  apply post_bind. intros stamp. apply post_bind. intros there.
  apply post_bind. intros _. apply post_bind. intros _.
  apply post_bind. intros pt. apply post_ret.
  left. split; [reflexivity |].
  split; [reflexivity | eexists; reflexivity].
Qed.

End Answers.

(** ** The detection service: errors and what it leaves alone *)

Module Service.
Import PyNum Py Lib World Detector Server Application Samples MoreSamples.
Import Lifecycle Detection Facade Frames.

Lemma startswith_app (prefix rest : list byte) :
  startswith (prefix ++ rest) prefix = true.
Proof.
  induction prefix as [| p prefix IH]; [destruct rest; reflexivity |].
  cbn [app startswith]. rewrite IH, (byte_dec_lb (eq_refl p)). reflexivity.
Qed.

(** X5.  The marker check of both handlers accepts exactly the payloads
    that begin with [FF D8] and end with [FF D9], the two markers not
    overlapping: such a payload has at least four bytes. *)
Theorem is_jpeg_iff (image_data : list byte) :
  is_jpeg image_data = true <->
  exists middle, image_data = ([xff; xd8] ++ middle ++ [xff; xd9])%list.
Proof.
  unfold is_jpeg, endswith. split.
  - intros H. apply andb_prop in H as [Hstart Hend].
    destruct image_data as [| b0 rest0]; [discriminate Hstart |].
    cbn [startswith] in Hstart. apply andb_prop in Hstart as [H0 Hstart].
    destruct rest0 as [| b1 rest]; [discriminate Hstart |].
    cbn [startswith] in Hstart. apply andb_prop in Hstart as [H1 _].
    apply byte_dec_bl in H0, H1. subst b0 b1.
    remember (rev (xff :: xd8 :: rest)) as r eqn:Hr.
    destruct r as [| c0 r1]; [discriminate Hend |].
    cbn [startswith] in Hend. apply andb_prop in Hend as [Hc0 Hend].
    destruct r1 as [| c1 r']; [discriminate Hend |].
    cbn [startswith] in Hend. apply andb_prop in Hend as [Hc1 _].
    apply byte_dec_bl in Hc0, Hc1. subst c0 c1.
    apply (f_equal (@rev byte)) in Hr. rewrite rev_involutive in Hr.
    cbn [rev] in Hr. rewrite <- app_assoc in Hr. cbn [app] in Hr.
    destruct (rev r') as [| a0 [| a1 middle]]; cbn in Hr.
    + discriminate Hr.
    + discriminate Hr.
    + injection Hr as Ha0 Ha1 Hrest. subst a0 a1 rest.
      exists middle. reflexivity.
  - intros [middle ->].
    rewrite (app_assoc [xff; xd8] middle [xff; xd9]), rev_app_distr.
    rewrite <- (app_assoc [xff; xd8] middle [xff; xd9]).
    rewrite !startswith_app. reflexivity.
Qed.

Lemma decodes_app (cs cs' : list call) :
  decodes (cs ++ cs') = (decodes cs + decodes cs')%nat.
Proof.
  induction cs as [| c cs IH]; [reflexivity |].
  destruct c; cbn; rewrite IH; reflexivity.
Qed.

Lemma inferences_app (cs cs' : list call) :
  inferences (cs ++ cs') = (inferences cs + inferences cs')%nat.
Proof.
  induction cs as [| c cs IH]; [reflexivity |].
  destruct c; cbn; rewrite IH; reflexivity.
Qed.

(** One run of [detect_objects], in full. *)
Lemma detect_objects_run (lib : Libraries) (image_data : list byte) (w : world) :
  exists res extra,
    detect_objects lib image_data w =
      (inr (res, detect_error lib image_data w),
       with_calls (calls w ++ extra) w) /\
    (model_loaded (yolo_detector w) = false -> extra = []) /\
    (model_loaded (yolo_detector w) = true -> decodes extra = 1%nat) /\
    (inferences extra <= decodes extra)%nat /\
    load_attempts extra = 0%nat /\
    (inferences extra = 1%nat ->
     exists img, cv2_imdecode lib image_data = inr (Some img)) /\
    match detect_error lib image_data w with
    | Some msg => res = None /\ truthy (Some msg) = true
    | None => exists v, res = Some v
    end.
Proof.
  unfold detect_objects, detect_error. run_monad.
  destruct (model_loaded (yolo_detector w)) eqn:Hl; cbn.
  2: { exists None, []. rewrite app_nil_r.
       split; [destruct w; reflexivity |].
       repeat split; try reflexivity; try discriminate; cbn; lia. }
  destruct (cv2_imdecode lib image_data) as [e | [img |]]; cbn.
  - exists None, [CallImdecode image_data].
    repeat split; try reflexivity; try discriminate; cbn; lia.
  - destruct (model (yolo_detector w)) as [m |]; cbn.
    + destruct (predict m img (Some (float_literal (3 # 10)))) as [e | results]; cbn.
      * exists None, [CallImdecode image_data; CallModel m img (Some (float_literal (3 # 10)))].
        rewrite <- app_assoc.
        repeat split; try reflexivity; try discriminate; cbn; try lia.
        intros _. exists img. reflexivity.
      * destruct (fold_left (process_result m) results ([], 0)) as [dets total].
        destruct (shape img) as [[rows cols] chans]. cbn.
        eexists (Some _),
          [CallImdecode image_data; CallModel m img (Some (float_literal (3 # 10)))].
        rewrite <- app_assoc.
        repeat split; try reflexivity; try discriminate; cbn; try lia.
        -- intros _. exists img. reflexivity.
        -- eexists. reflexivity.
    + exists None, [CallImdecode image_data].
      repeat split; try reflexivity; try discriminate; cbn; lia.
  - exists None, [CallImdecode image_data].
    repeat split; try reflexivity; try discriminate; cbn; lia.
Qed.


(** X6.  [detect_objects] leaves the detector, the files and the clock as
    they are and never calls [load_model].  It calls the decoder once when a
    model is loaded and not at all otherwise, and runs at most one inference,
    none unless the decoder returned an image. *)
Theorem detect_objects_frame (lib : Libraries) (image_data : list byte) (w : world) :
  let r := detect_objects lib image_data w in
  yolo_detector (final r) = yolo_detector w /\
  fs (final r) = fs w /\
  ticks (final r) = ticks w /\
  load_attempts (calls (final r)) = load_attempts (calls w) /\
  decodes (calls (final r)) =
    (decodes (calls w) + (if model_loaded (yolo_detector w) then 1 else 0))%nat /\
  (inferences (calls w) <= inferences (calls (final r)) <= inferences (calls w) + 1)%nat /\
  (inferences (calls (final r)) = S (inferences (calls w)) ->
   exists img, cv2_imdecode lib image_data = inr (Some img)).
Proof.
  cbn zeta.
  destruct (detect_objects_run lib image_data w)
    as (res & extra & -> & Hnone & Hone & Hle & Hload & Himg & _).
  unfold final. cbn.
  rewrite load_attempts_app, decodes_app, inferences_app, Hload.
  repeat split; try lia.
  - destruct (model_loaded (yolo_detector w)).
    + rewrite Hone by reflexivity. reflexivity.
    + rewrite Hnone by reflexivity. reflexivity.
  - destruct (model_loaded (yolo_detector w)).
    + specialize (Hone eq_refl). lia.
    + rewrite Hnone by reflexivity. cbn. lia.
  - intros H. apply Himg.
    destruct (model_loaded (yolo_detector w)).
    + specialize (Hone eq_refl). lia.
    + rewrite Hnone in H by reflexivity. cbn in H. lia.
Qed.

(** X7.  The error [detect_objects] returns names its cause: it is
    ["YOLO model not loaded"] exactly when no model is loaded, ["Failed to
    decode image"] exactly when a model is loaded and the decoder returns
    [None], and ["Detection error: "] followed by the message of the
    exception when the decoder or the model raises. *)
Theorem detect_objects_error (lib : Libraries) (image_data : list byte) (w : world) :
  exists res err,
    result (detect_objects lib image_data w) = inr (res, err) /\
    err = detect_error lib image_data w /\
    (err = Some "YOLO model not loaded" <-> model_loaded (yolo_detector w) = false) /\
    (err = Some "Failed to decode image" <->
     model_loaded (yolo_detector w) = true /\
     cv2_imdecode lib image_data = inr None) /\
    (forall e, model_loaded (yolo_detector w) = true ->
               cv2_imdecode lib image_data = inl e ->
               err = Some ("Detection error: " ++ e)) /\
    (forall m img e, model_loaded (yolo_detector w) = true ->
                     cv2_imdecode lib image_data = inr (Some img) ->
                     model (yolo_detector w) = Some m ->
                     predict m img (Some (float_literal (3 # 10))) = inl e ->
                     err = Some ("Detection error: " ++ e)).
Proof.
  destruct (detect_objects_run lib image_data w) as (res & extra & -> & _).
  exists res, (detect_error lib image_data w).
  split; [reflexivity |]. split; [reflexivity |].
  unfold detect_error.
  destruct (model_loaded (yolo_detector w)); cbn [negb].
  2: { split; [tauto |]. split; [| split; intros; discriminate].
       split; [discriminate | intros [H _]; discriminate H]. }
  destruct (cv2_imdecode lib image_data) as [e | [img |]].
  - split; [split; discriminate |].
    split; [split; [discriminate | intros [_ H]; discriminate H] |].
    split; [intros e' _ H; injection H as ->; reflexivity |].
    intros m img e' _ H; discriminate H.
  - destruct (model (yolo_detector w)) as [m |].
    + destruct (predict m img (Some (float_literal (3 # 10)))) as [e | results] eqn:Hp.
      * split; [split; discriminate |].
        split; [split; [discriminate | intros [_ H]; discriminate H] |].
        split; [intros e' _ H; discriminate H |].
        intros m' img' e' _ Himg Hm Hp'.
        injection Himg as <-. injection Hm as <-.
        rewrite Hp in Hp'. injection Hp' as ->. reflexivity.
      * split; [split; discriminate |].
        split; [split; [discriminate | intros [_ H]; discriminate H] |].
        split; [intros e' _ H; discriminate H |].
        intros m' img' e' _ Himg Hm Hp'.
        injection Himg as <-. injection Hm as <-.
        rewrite Hp in Hp'. discriminate Hp'.
    + split; [split; discriminate |].
      split; [split; [discriminate | intros [_ H]; discriminate H] |].
      split; [intros e' _ H; discriminate H |].
      intros m' img' e' _ _ Hm; discriminate Hm.
  - split; [split; discriminate |].
    split; [tauto |].
    split; intros; discriminate.
Qed.

(** The theorem at work: a payload the picky decoder refuses. *)
Lemma detect_objects_error_witness :
  exists res,
    result (detect_objects picky_lib empty_jpeg (world_loaded veggie_model fast_clock))
    = inr (res, Some "Failed to decode image").
Proof.
  destruct (detect_objects_error picky_lib empty_jpeg
              (world_loaded veggie_model fast_clock))
    as (res & err & Hres & _ & _ & Hdecode & _).
  exists res. rewrite Hres.
  rewrite (proj2 Hdecode (conj eq_refl eq_refl)). reflexivity.
Defined.

(** *** [/yolo-detect] with a model loaded *)

Lemma validated_run
    (lib : Libraries) (request : Request) (start_time : Q) (request_time : string)
    (w : world) :
  model_loaded (yolo_detector w) = true ->
  exists resp w',
    try_except
      (yolo_validate_and_detect lib request start_time request_time)
      (fun e => error_response 500 ("YOLO detection error: " ++ e) start_time) w
    = (inr resp, w') /\
    validated lib request w resp w'.
Proof.
  intros Hl. unfold validated. cbn zeta.
  unfold try_except, yolo_validate_and_detect.
  destruct (Z.of_nat (length (body request)) <? 1000).
  { run_handler. do 2 eexists. split; [reflexivity |].
    split; [reflexivity | split; [reflexivity |]].
    split; [eexists; repeat split; reflexivity | reflexivity]. }
  destruct (Z.of_nat (length (body request)) >? 10 * 1024 * 1024).
  { run_handler. do 2 eexists. split; [reflexivity |].
    split; [reflexivity | split; [reflexivity |]].
    split; [eexists; repeat split; reflexivity | reflexivity]. }
  destruct (negb (is_jpeg (body request))).
  { run_handler. do 2 eexists. split; [reflexivity |].
    split; [reflexivity | split; [reflexivity |]].
    split; [eexists; repeat split; reflexivity | reflexivity]. }
  unfold bind at 1. unfold time_time at 1. unfold bind at 1. unfold tick at 1.
  unfold ret at 1. unfold bind at 1.
  match goal with
  | |- context [detect_objects lib (body request) ?w1] =>
      destruct (detect_objects_run lib (body request) w1)
        as (res & extra & Hrun & _ & Hone & Hle & Hload & _ & Hres);
      rewrite Hrun;
      change (detect_error lib (body request) w1)
        with (detect_error lib (body request) w) in *
  end.
  specialize (Hone Hl).
  destruct (detect_error lib (body request) w) as [msg |].
  - destruct Hres as [-> Htruthy]. rewrite Htruthy. run_handler.
    do 2 eexists. split; [reflexivity |].
    split; [reflexivity | split; [reflexivity |]].
    split; [exists extra; repeat split; [assumption | lia | assumption] |].
    eexists. split; [reflexivity |]. split; [reflexivity |].
    split; [reflexivity |].
    cbn. destruct msg; [discriminate Htruthy | reflexivity].
  - destruct Hres as [v ->]. run_handler.
    do 2 eexists. split; [reflexivity |].
    split; [reflexivity | split; [reflexivity |]].
    split; [exists extra; repeat split; [assumption | lia | assumption] |].
    split; [reflexivity |]. split; [reflexivity | eexists; reflexivity].
Qed.

(** One run of the handler on a loaded detector. *)
Lemma yolo_loaded_run (lib : Libraries) (request : Request) (w : world) :
  model_loaded (yolo_detector w) = true ->
  exists resp w',
    yolo_detect_objects lib request w = (inr resp, w') /\
    validated lib request w resp w'.
Proof.
  intros Hl.
  rewrite (yolo_detect_objects_loaded lib request w Hl). cbn zeta.
  destruct (validated_run lib request (epoch (clock w (ticks w)))
              (isoformat (local (clock w (S (ticks w)))))
              (with_ticks (S (S (ticks w))) w) Hl)
    as (resp & w' & Hrun & Hv).
  exists resp, w'. split; [exact Hrun | exact Hv].
Qed.


Lemma is_error_response_inv (status : Z) (msg : string) (resp : JSONResponse) :
  is_error_response status msg (inr resp) ->
  status_code resp = status /\ jget "error" (content resp) = Some (JStr msg).
Proof. intros (r & Heq & Hs & _ & He). injection Heq as <-. split; assumption. Qed.

(** Decide an equivalence about the answer from what the answer is known to
    be: the known and the proposed status and message agree or clash. *)
Ltac clash :=
  repeat match goal with
         | H : is_error_response _ _ (inr _) |- _ =>
             apply is_error_response_inv in H; destruct H
         | H : PayloadTooSmall (inr _) |- _ =>
             apply is_error_response_inv in H; destruct H
         end;
  try congruence; try lia.

(** X3.  With a model loaded, what [/yolo-detect] rejects is decided by the
    payload alone and in this order: under 1000 bytes it is
    [PayloadTooSmall]; over 10 MiB it is 413; otherwise, without both JPEG
    markers, it is 400 ["Invalid JPEG format"].  Only a payload that passes
    all three reaches the decoder, once; the detector and the files are left
    as they were. *)
Theorem yolo_detect_validation (lib : Libraries) (request : Request) (w : world)
    (Hloaded : model_loaded (yolo_detector w) = true) :
  let size := Z.of_nat (length (body request)) in
  let r := yolo_detect_objects lib request w in
  let accepted := (1000 <=? size) && (size <=? 10 * 1024 * 1024)
                  && is_jpeg (body request) in
  exists resp,
    result r = inr resp /\
    (PayloadTooSmall (inr resp) <-> size < 1000) /\
    (status_code resp = 413 <-> 10 * 1024 * 1024 < size) /\
    (is_error_response 400 "Invalid JPEG format" (inr resp) <->
     1000 <= size <= 10 * 1024 * 1024 /\ is_jpeg (body request) = false) /\
    decodes (calls (final r)) =
      (decodes (calls w) + (if accepted then 1 else 0))%nat /\
    yolo_detector (final r) = yolo_detector w /\
    fs (final r) = fs w.
Proof.
  cbn zeta.
  destruct (yolo_loaded_run lib request w Hloaded)
    as (resp & w' & -> & Hd & Hfs & Hcase).
  exists resp. unfold result, final. cbn [fst snd].
  split; [reflexivity |].
  destruct (Z.ltb_spec (Z.of_nat (length (body request))) 1000) as [Hs | Hs].
  { destruct Hcase as [Hsmall Hcalls]. rewrite Hcalls.
    replace (1000 <=? Z.of_nat (length (body request))) with false
      by (symmetry; apply Z.leb_gt; lia).
    cbn [andb]. rewrite Nat.add_0_r.
    repeat split; try tauto; try assumption; intros; clash. }
  rewrite Z.gtb_ltb in Hcase.
  destruct (Z.ltb_spec (10 * 1024 * 1024) (Z.of_nat (length (body request))))
    as [Hb | Hb].
  { destruct Hcase as [Hlarge Hcalls]. rewrite Hcalls.
    replace (Z.of_nat (length (body request)) <=? 10 * 1024 * 1024) with false
      by (symmetry; apply Z.leb_gt; lia).
    rewrite andb_false_r. cbn [andb]. rewrite Nat.add_0_r.
    repeat split; try tauto; try assumption; intros; clash. }
  replace (1000 <=? Z.of_nat (length (body request))) with true
    by (symmetry; apply Z.leb_le; lia).
  replace (Z.of_nat (length (body request)) <=? 10 * 1024 * 1024) with true
    by (symmetry; apply Z.leb_le; lia).
  cbn [andb].
  destruct (is_jpeg (body request)); cbn [negb] in Hcase.
  - destruct Hcase as [(extra & Hcalls & Hone & _) Hout]. rewrite Hcalls.
    rewrite decodes_app, Hone.
    destruct (detect_error lib (body request) w) as [msg |];
      repeat split; try tauto; try assumption; intros; clash.
    all: destruct Hout; clash.
  - destruct Hcase as [Hbad Hcalls]. rewrite Hcalls, Nat.add_0_r.
    repeat split; try tauto; try assumption; intros; clash.
Qed.

(** The theorem at work: a thousand zero bytes sent to a loaded server. *)
Lemma yolo_detect_validation_witness :
  let r := yolo_detect_objects sample_lib (mk_Request plain_payload)
             (world_loaded veggie_model fast_clock) in
  is_error_response 400 "Invalid JPEG format" (result r) /\
  decodes (calls (final r)) = 0%nat.
Proof.
  destruct (yolo_detect_validation sample_lib (mk_Request plain_payload)
              (world_loaded veggie_model fast_clock) eq_refl)
    as (resp & Hres & _ & _ & Hbad & Hdec & _).
  cbn zeta. rewrite Hres, Hdec. split; [| reflexivity].
  apply Hbad. split; [vm_compute; split; discriminate | reflexivity].
Defined.

(** X4.  With a model loaded and a payload that passes the three checks,
    [/yolo-detect] decodes once and answers by what [detect_objects]
    returned: 500 carrying the detector's own error message when decoding
    or inference failed, 200 otherwise. *)
Theorem detection_failure_is_500 (lib : Libraries) (request : Request) (w : world)
    (Hloaded : model_loaded (yolo_detector w) = true)
    (Hmin : 1000 <= Z.of_nat (length (body request)))
    (Hmax : Z.of_nat (length (body request)) <= 10 * 1024 * 1024)
    (Hjpeg : is_jpeg (body request) = true) :
  let r := yolo_detect_objects lib request w in
  exists resp,
    result r = inr resp /\
    decodes (calls (final r)) = S (decodes (calls w)) /\
    match detect_error lib (body request) w with
    | Some msg => is_error_response 500 msg (inr resp)
    | None => status_code resp = 200 /\ success_body resp
    end.
Proof.
  cbn zeta.
  destruct (yolo_loaded_run lib request w Hloaded)
    as (resp & w' & -> & _ & _ & Hcase).
  exists resp. unfold result, final. cbn [fst snd].
  split; [reflexivity |].
  rewrite (proj2 (Z.ltb_ge _ _) Hmin) in Hcase.
  replace (Z.of_nat (length (body request)) >? 10 * 1024 * 1024) with false in Hcase
    by (symmetry; rewrite Z.gtb_ltb; apply Z.ltb_ge; exact Hmax).
  rewrite Hjpeg in Hcase. cbn [negb] in Hcase.
  destruct Hcase as [(extra & -> & Hone & _) Hout].
  split; [| exact Hout].
  rewrite decodes_app, Hone. lia.
Qed.

(** The theorem at work: the picky decoder raises on a payload of [x02]s,
    and the flaky model raises on a picture. *)
Lemma detection_failure_is_500_witness :
  is_error_response 500 "Detection error: OpenCV: unsupported image"
    (result (yolo_detect_objects picky_lib (mk_Request (jpeg_of x02))
               (world_loaded veggie_model fast_clock))) /\
  is_error_response 500 "Detection error: CUDA out of memory"
    (result (yolo_detect_objects picky_lib (mk_Request tomato_jpeg)
               (world_loaded flaky_model fast_clock))).
Proof.
  split.
  - destruct (detection_failure_is_500 picky_lib (mk_Request (jpeg_of x02))
                (world_loaded veggie_model fast_clock) eq_refl)
      as (resp & Hres & _ & Hout);
      [vm_compute; discriminate | vm_compute; discriminate | reflexivity |].
    cbn zeta in Hres. rewrite Hres. exact Hout.
  - destruct (detection_failure_is_500 picky_lib (mk_Request tomato_jpeg)
                (world_loaded flaky_model fast_clock) eq_refl)
      as (resp & Hres & _ & Hout);
      [vm_compute; discriminate | vm_compute; discriminate | reflexivity |].
    cbn zeta in Hres. rewrite Hres. exact Hout.
Defined.

(** *** Once loaded *)

Lemma validated_status (lib : Libraries) (request : Request) (w : world)
    (resp : JSONResponse) (w' : world) :
  validated lib request w resp w' ->
  status_code resp <> 503 /\
  load_attempts (calls w') = load_attempts (calls w).
Proof.
  unfold validated. cbn zeta. intros (_ & _ & Hcase).
  destruct (_ <? 1000); [destruct Hcase as [H ->]; clash |].
  destruct (_ >? _); [destruct Hcase as [H ->]; clash |].
  destruct (negb _); [destruct Hcase as [H ->]; clash |].
  destruct Hcase as [(extra & -> & _ & _ & Hload) Hout].
  rewrite load_attempts_app, Hload, Nat.add_0_r.
  split; [| reflexivity].
  destruct (detect_error lib (body request) w); [clash | destruct Hout; lia].
Qed.

(** Requests served by a loaded server. *)
Lemma serve_all_loaded
    (lib : Libraries) (requests : list Request) (w : world)
    (Hloaded : model_loaded (yolo_detector w) = true) :
  exists responses w',
    serve_all lib requests w = (inr responses, w') /\
    length responses = length requests /\
    Forall (fun resp => status_code resp <> 503) responses /\
    load_attempts (calls w') = load_attempts (calls w) /\
    yolo_detector w' = yolo_detector w /\
    fs w' = fs w.
Proof.
  revert w Hloaded. induction requests as [| request rest IH]; intros w Hloaded.
  - exists [], w. repeat split; constructor.
  - cbn [serve_all]. unfold log_requests.
    unfold bind at 1. unfold bind at 1. unfold time_time at 1.
    unfold bind at 1. unfold tick at 1. unfold ret at 1. unfold bind at 1.
    destruct (yolo_loaded_run lib request (with_ticks (S (ticks w)) w) Hloaded)
      as (resp & w1 & -> & Hv).
    pose proof (validated_status _ _ _ _ _ Hv) as [Hstatus Hloads].
    destruct Hv as (Hd & Hfs & _).
    cbn in Hd, Hfs, Hloads.
    run_monad.
    assert (Hl1 : model_loaded (yolo_detector (with_ticks (S (ticks w1)) w1)) = true)
      by (cbn; rewrite Hd; exact Hloaded).
    destruct (IH (with_ticks (S (ticks w1)) w1) Hl1)
      as (responses & w' & Hrun & Hlen & Hall & Hloads' & Hd' & Hfs').
    rewrite Hrun. cbn in *.
    exists (resp :: responses), w'.
    split; [reflexivity |]. split; [cbn; lia |].
    split; [constructor; assumption |].
    split; [congruence |]. split; congruence.
Qed.

(** X8.  A server whose model is loaded stays that way: however many
    detection requests follow, each one is answered, none of them calls
    [load_model] or gets the 503 answer, and the detector and the files are
    at the end what they were at the start. *)
Theorem loaded_server_never_reloads
    (lib : Libraries) (requests : list Request) (w : world)
    (Hloaded : model_loaded (yolo_detector w) = true) :
  exists responses w',
    serve_all lib requests w = (inr responses, w') /\
    length responses = length requests /\
    Forall (fun resp => status_code resp <> 503) responses /\
    load_attempts (calls w') = load_attempts (calls w) /\
    yolo_detector w' = yolo_detector w /\
    fs w' = fs w.
Proof. exact (serve_all_loaded lib requests w Hloaded). Qed.

(** The theorem at work: three requests, good and bad, to a loaded server. *)
Lemma loaded_server_never_reloads_witness :
  exists responses w',
    serve_all sample_lib
      [mk_Request tomato_jpeg; mk_Request short_payload; mk_Request plain_payload]
      (world_loaded veggie_model fast_clock) = (inr responses, w') /\
    length responses = 3%nat /\
    load_attempts (calls w') = 0%nat /\
    model_loaded (yolo_detector w') = true.
Proof.
  destruct (loaded_server_never_reloads sample_lib
              [mk_Request tomato_jpeg; mk_Request short_payload;
               mk_Request plain_payload]
              (world_loaded veggie_model fast_clock) eq_refl)
    as (responses & w' & Hrun & Hlen & _ & Hloads & Hd & _).
  exists responses, w'. rewrite Hd.
  split; [exact Hrun | split; [exact Hlen | split; [exact Hloads | reflexivity]]].
Defined.

(** *** The lazy reload *)

(** A request that finds no model and a loadable artifact: the load, then
    the handler as on a loaded detector. *)
Lemma yolo_reloaded_run (lib : Libraries) (request : Request) (w : world) (m : Model) :
  model_loaded (yolo_detector w) = false ->
  outcome_at lib "best.pt" w = Loadable m ->
  exists resp w3 w',
    yolo_detect_objects lib request w = (inr resp, w') /\
    w3 = final (load_model lib None (with_ticks (S (S (ticks w))) w)) /\
    yolo_detector w3 =
      {| model := Some m; model_loaded := true;
         last_load_attempt := Some (local (clock w (S (S (ticks w)))));
         load_error := None |} /\
    load_attempts (calls w3) = S (load_attempts (calls w)) /\
    validated lib request w3 resp w'.
Proof.
  intros Hnl Hout.
  rewrite (yolo_detect_objects_unloaded lib request w Hnl). cbn zeta.
  unfold try_except at 1. unfold bind at 1.
  pose proof (load_model_one_attempt lib None (with_ticks (S (S (ticks w))) w))
    as Hone.
  rewrite load_model_run in Hone |- *.
  set (w2 := with_ticks (S (S (ticks w))) w) in *.
  unfold loadable.
  change (outcome_at lib (str_or None "best.pt") w2)
    with (outcome_at lib "best.pt" w) in *.
  rewrite Hout in *. cbn [negb].
  match goal with
  | |- context [yolo_validate_and_detect lib request ?st ?rt ?w3] =>
      destruct (validated_run lib request st rt w3 eq_refl)
        as (resp & w' & Hrun & Hv);
      unfold try_except in Hrun; rewrite Hrun;
      exists resp, w3, w'
  end.
  split; [reflexivity |]. split; [reflexivity |].
  split; [reflexivity |]. split; [exact Hone | exact Hv].
Qed.

(** X9.  A detection request that finds no model loaded but a loadable
    artifact (the server started without one) loads it on the spot, once,
    and is then served as by a loaded server: the answer is not the 503 one,
    the detector is loaded with the parsed model and its error is cleared. *)
Theorem lazy_reload_recovers
    (lib : Libraries) (request : Request) (w : world) (m : Model)
    (Hnl : model_loaded (yolo_detector w) = false)
    (Hartifact : outcome_at lib "best.pt" w = Loadable m) :
  let r := yolo_detect_objects lib request w in
  exists resp,
    result r = inr resp /\
    status_code resp <> 503 /\
    model_loaded (yolo_detector (final r)) = true /\
    model (yolo_detector (final r)) = Some m /\
    load_error (yolo_detector (final r)) = None /\
    load_attempts (calls (final r)) = S (load_attempts (calls w)).
Proof.
  cbn zeta.
  destruct (yolo_reloaded_run lib request w m Hnl Hartifact)
    as (resp & w3 & w' & -> & _ & Hd3 & Hone & Hv).
  pose proof (validated_status _ _ _ _ _ Hv) as [Hstatus Hloads].
  destruct Hv as (Hd & _).
  exists resp. unfold result, final. cbn [fst snd].
  rewrite Hd, Hd3, Hloads, Hone. repeat split; assumption.
Qed.

(** The theorem at work: the artifact arrived after the server had started. *)
Lemma lazy_reload_recovers_witness :
  let r := yolo_detect_objects sample_lib (mk_Request tomato_jpeg)
             (world_with_artifact x01 fast_clock) in
  model_loaded (yolo_detector (final r)) = true /\
  load_attempts (calls (final r)) = 1%nat.
Proof.
  destruct (lazy_reload_recovers sample_lib (mk_Request tomato_jpeg)
              (world_with_artifact x01 fast_clock) veggie_model eq_refl eq_refl)
    as (resp & _ & _ & Hloaded & _ & _ & Hone).
  split; [exact Hloaded | exact Hone].
Defined.

(** X10.  When the artifact is loadable at startup, [initialize_yolo]
    returns [True], and of all the detection requests served afterwards
    none calls [load_model] again or gets the 503 answer: the model is
    loaded exactly once in the life of the server. *)
Theorem startup_then_serve
    (lib : Libraries) (requests : list Request) (w : world)
    (Hartifact : loadable lib "best.pt" w = true) :
  let r0 := startup lib w in
  result r0 = inr true /\
  exists responses w',
    serve_all lib requests (final r0) = (inr responses, w') /\
    length responses = length requests /\
    Forall (fun resp => status_code resp <> 503) responses /\
    load_attempts (calls w') = S (load_attempts (calls w)) /\
    model_loaded (yolo_detector w') = true.
Proof.
  cbn zeta. unfold startup, initialize_yolo.
  unfold bind, ret, result, final.
  pose proof (load_model_one_attempt lib None w) as Hone. unfold final in Hone.
  rewrite load_model_run in Hone |- *. cbn [fst snd] in Hone |- *.
  change (str_or None "best.pt") with "best.pt" in *.
  rewrite Hartifact. split; [reflexivity |].
  unfold loadable in Hartifact.
  destruct (outcome_at lib "best.pt" w) as [| e | m0 e | m0] eqn:Hout;
    try discriminate Hartifact.
  match goal with
  | |- context [serve_all lib requests ?w1] =>
      destruct (serve_all_loaded lib requests w1 eq_refl)
        as (responses & w' & Hrun & Hlen & Hall & Hloads & Hd & _);
      exists responses, w'
  end.
  split; [exact Hrun |]. split; [exact Hlen |]. split; [exact Hall |].
  split; [rewrite Hloads; exact Hone | rewrite Hd; reflexivity].
Qed.

(** The theorem at work: a server started next to a working artifact. *)
Lemma startup_then_serve_witness :
  exists responses w',
    serve_all sample_lib [mk_Request tomato_jpeg; mk_Request empty_jpeg]
      (final (startup sample_lib (world_with_artifact x01 fast_clock)))
      = (inr responses, w') /\
    Forall (fun resp => status_code resp <> 503) responses /\
    load_attempts (calls w') = 1%nat.
Proof.
  destruct (startup_then_serve sample_lib
              [mk_Request tomato_jpeg; mk_Request empty_jpeg]
              (world_with_artifact x01 fast_clock) eq_refl)
    as (_ & responses & w' & Hrun & _ & Hall & Hloads & _).
  exists responses, w'.
  split; [exact Hrun | split; [exact Hall | exact Hloads]].
Defined.

End Service.

(** ** The upload endpoint: what it accepts and what it touches *)

Module Storage.
Import PyNum Py Lib World Detector Server Application Samples MoreSamples.
Import Lifecycle Facade Upload Frames Service.

Ltac norm_goal :=
  cbv beta iota zeta;
  cbn [negb andb fst snd fs ticks clock write_fault io_fault cwd calls
       yolo_detector with_fs].

(** Close one case of [upload_run]: the run is what it is, the detector and
    the calls are untouched, and the answer and the files are as stated. *)
Ltac upload_case :=
  do 2 eexists; (split; [reflexivity |]);
  (split; [reflexivity | split; [reflexivity |]]);
  first
    [ split; [eexists; repeat split; reflexivity | reflexivity]
    | split; [eexists; eexists; repeat split; reflexivity | reflexivity] ].

(** One run of [upload_image_direct], in full. *)
Lemma upload_run (request : Request) (w : world) :
  exists resp w',
    upload_image_direct request w = (inr resp, w') /\
    uploaded request w resp w'.
Proof.
  unfold uploaded, upload_image_direct. cbn zeta.
  cbv [bind ret try_except gets tick time_time datetime_now elapsed
       error_response os_path_exists].
  cbn -[upload_path strftime_Ymd_HMS isoformat py_round_n float_sub float_div
        os_path_join os_makedirs open_wb_write Z.gtb Z.mul writable].
  destruct (Z.of_nat (length (body request)) <? 1000).
  { do 2 eexists. split; [reflexivity |].
    split; [reflexivity | split; [reflexivity |]].
    split; [eexists; repeat split; reflexivity | reflexivity]. }
  destruct (Z.of_nat (length (body request)) >? 5 * 1024 * 1024).
  { do 2 eexists. split; [reflexivity |].
    split; [reflexivity | split; [reflexivity |]].
    split; [eexists; repeat split; reflexivity | reflexivity]. }
  destruct (negb (is_jpeg (body request))).
  { do 2 eexists. split; [reflexivity |].
    split; [reflexivity | split; [reflexivity |]].
    split; [eexists; repeat split; reflexivity | reflexivity]. }
  rewrite os_path_join_upload.
  unfold with_ticks.
  cbn [fs ticks clock write_fault io_fault cwd calls yolo_detector].
  pose proof (dirname_upload_path (local (clock w (S (S (ticks w)))))) as Hparent.
  pose proof (upload_path_not_dir (local (clock w (S (S (ticks w)))))) as Hne.
  set (path := upload_path (local (clock w (S (S (ticks w)))))) in *.
  unfold os_makedirs, writable, openable, fs_with_directory.
  destruct (fs w !! "received_images") as [nd |] eqn:Hdir; norm_goal.
  - rewrite (open_wb_write_run path "received_images")
      by (assumption || discriminate).
    norm_goal. rewrite Hdir. destruct nd; norm_goal; [upload_case |].
    destruct (fs w !! path) as [[data |] |] eqn:Hold; norm_goal;
      try (destruct (write_fault w path) as [e |]; norm_goal);
      try (destruct (io_fault w path) as [[e' n] |]; norm_goal);
      try upload_case;
      do 2 eexists; (split; [reflexivity |]);
      (split; [reflexivity | split; [reflexivity |]]);
      (split; [eexists; repeat split; reflexivity |]);
      cbn; rewrite (insert_id (fs w) "received_images" Dir Hdir); reflexivity.
  - rewrite Hdir.
    destruct (write_fault w "received_images") as [e |]; norm_goal;
      [upload_case |].
    rewrite (open_wb_write_run path "received_images")
      by (assumption || discriminate).
    norm_goal. rewrite lookup_insert_eq. norm_goal.
    rewrite lookup_insert_ne by (intros Heq; apply Hne; symmetry; exact Heq).
    destruct (fs w !! path) as [[data |] |] eqn:Hold; norm_goal;
      try (destruct (write_fault w path) as [e' |]; norm_goal);
      try (destruct (io_fault w path) as [[e'' n] |]; norm_goal);
      upload_case.
Qed.

(** X11.  What [/upload-image] rejects is decided by the payload alone,
    whatever the state of the server, and in this order: under 1000 bytes it
    is [PayloadTooSmall]; over 5 MiB it is 413; otherwise, without both JPEG
    markers, it is 400 ["Invalid JPEG format"].  A request answered 400 or
    413 leaves the files as they were. *)
Theorem upload_validation (request : Request) (w : world) :
  let size := Z.of_nat (length (body request)) in
  let r := upload_image_direct request w in
  exists resp,
    result r = inr resp /\
    (PayloadTooSmall (inr resp) <-> size < 1000) /\
    (status_code resp = 413 <-> 5 * 1024 * 1024 < size) /\
    (is_error_response 400 "Invalid JPEG format" (inr resp) <->
     1000 <= size <= 5 * 1024 * 1024 /\ is_jpeg (body request) = false) /\
    (status_code resp = 400 \/ status_code resp = 413 -> fs (final r) = fs w).
Proof.
  cbn zeta.
  destruct (upload_run request w) as (resp & w' & -> & _ & _ & Hcase).
  exists resp. unfold result, final. cbn [fst snd].
  split; [reflexivity |].
  destruct (Z.ltb_spec (Z.of_nat (length (body request))) 1000) as [Hs | Hs].
  { destruct Hcase as [Hsmall Hfs].
    repeat split; try tauto; try assumption; intros; clash. }
  rewrite Z.gtb_ltb in Hcase.
  destruct (Z.ltb_spec (5 * 1024 * 1024) (Z.of_nat (length (body request))))
    as [Hb | Hb].
  { destruct Hcase as [Hlarge Hfs].
    repeat split; try tauto; try assumption; intros; clash. }
  destruct (is_jpeg (body request)); cbn [negb] in Hcase.
  - destruct (writable _ w).
    + destruct Hcase as [(r & Heq & Hstatus & _ & _) Hfs]. injection Heq as <-.
      repeat split; try tauto; intros; clash.
      all: match goal with
           | H : _ \/ _ |- _ => destruct H; lia
           end.
    + destruct Hcase as [[e Herr] Hfs].
      repeat split; try tauto; intros; clash.
      all: match goal with
           | H : _ \/ _ |- _ => destruct H; lia
           end.
  - destruct Hcase as [Hbad Hfs].
    repeat split; try tauto; try assumption; intros; clash.
Qed.

(** The theorem at work: one byte more than 5 MiB. *)
Lemma upload_validation_witness :
  exists resp,
    result (upload_image_direct (mk_Request (oversized (5 * 1024 * 1024)))
              (fresh_world fast_clock)) = inr resp /\
    status_code resp = 413.
Proof.
  destruct (upload_validation (mk_Request (oversized (5 * 1024 * 1024)))
              (fresh_world fast_clock))
    as (resp & Hres & _ & Hlarge & _).
  exists resp. split; [exact Hres |].
  apply Hlarge. cbn [body]. unfold oversized.
  rewrite repeat_length, Z2Nat.id; lia.
Defined.

(** X12.  [/upload-image] answers 200 exactly when the payload has between
    1000 bytes and 5 MiB, carries both JPEG markers, and the file system
    lets the directory and the file be written; the answer then names the
    path built from the timestamp. *)
Theorem upload_accepts_iff (request : Request) (w : world) :
  let size := Z.of_nat (length (body request)) in
  let path := upload_path (local (clock w (S (S (ticks w))))) in
  let r := upload_image_direct request w in
  exists resp,
    result r = inr resp /\
    (status_code resp = 200 <->
     1000 <= size <= 5 * 1024 * 1024 /\ is_jpeg (body request) = true /\
     writable path w = true) /\
    (status_code resp = 200 -> saved_as path (inr resp)).
Proof.
  cbn zeta.
  destruct (upload_run request w) as (resp & w' & -> & _ & _ & Hcase).
  exists resp. unfold result, final. cbn [fst snd].
  split; [reflexivity |].
  destruct (Z.ltb_spec (Z.of_nat (length (body request))) 1000) as [Hs | Hs].
  { destruct Hcase as [Hsmall Hfs]. split; [split |]; intros; clash. }
  rewrite Z.gtb_ltb in Hcase.
  destruct (Z.ltb_spec (5 * 1024 * 1024) (Z.of_nat (length (body request))))
    as [Hb | Hb].
  { destruct Hcase as [Hlarge Hfs]. split; [split |]; intros; clash. }
  destruct (is_jpeg (body request)); cbn [negb] in Hcase.
  - destruct (writable _ w).
    + destruct Hcase as [Hsaved Hfs]. pose proof Hsaved as (r & Heq & Hstatus & _).
      injection Heq as <-.
      split; [split; [intros _; repeat split; lia | intros _; exact Hstatus] |].
      intros _. exact Hsaved.
    + destruct Hcase as [[e Herr] Hfs].
      split; [split |]; intros; clash.
  - destruct Hcase as [Hbad Hfs].
    split; [split |]; intros; clash.
Qed.

(** The theorem at work: a valid payload and an empty working directory. *)
Lemma upload_accepts_iff_witness :
  exists resp,
    result (upload_image_direct (mk_Request tomato_jpeg) (fresh_world fast_clock))
      = inr resp /\
    status_code resp = 200.
Proof.
  destruct (upload_accepts_iff (mk_Request tomato_jpeg) (fresh_world fast_clock))
    as (resp & Hres & Hiff & _).
  exists resp. split; [exact Hres |].
  apply Hiff.
  split; [vm_compute; split; discriminate | split; vm_compute; reflexivity].
Defined.

(** The directory is made at most, and only where there was nothing. *)
Lemma fs_with_directory_cases (w : world) :
  fs_with_directory w = fs w \/
  fs_with_directory w = <["received_images" := Dir]> (fs w) /\
  fs w !! "received_images" = None.
Proof.
  unfold fs_with_directory.
  destruct (fs w !! "received_images") as [nd |]; [left; reflexivity |].
  destruct (write_fault w "received_images");
    [left; reflexivity | right; split; reflexivity].
Qed.

(** The files after an upload: the directory made or not, and on top of it
    the file of the upload written, in full or in part, or not. *)
Lemma upload_files (request : Request) (w : world)
    (resp : JSONResponse) (w' : world) :
  uploaded request w resp w' ->
  let path := upload_path (local (clock w (S (S (ticks w))))) in
  exists base,
    (base = fs w \/
     base = <["received_images" := Dir]> (fs w) /\
     (fs w !! "received_images" = None \/ fs w !! "received_images" = Some Dir)) /\
    (fs w' = base \/ exists data, fs w' = <[path := File data]> base).
Proof.
  intros (_ & _ & Hcase). cbn zeta.
  assert (Hdir : exists base,
            fs_with_directory w = base /\
            (base = fs w \/
             base = <["received_images" := Dir]> (fs w) /\
             (fs w !! "received_images" = None \/
              fs w !! "received_images" = Some Dir))).
  { eexists. split; [reflexivity |].
    destruct (fs_with_directory_cases w) as [-> | [-> Hnone]];
      [left; reflexivity | right; split; [reflexivity | left; exact Hnone]]. }
  destruct (_ <? 1000);
    [exists (fs w); split; [left; reflexivity | left; apply Hcase] |].
  destruct (_ >? _);
    [exists (fs w); split; [left; reflexivity | left; apply Hcase] |].
  destruct (negb _);
    [exists (fs w); split; [left; reflexivity | left; apply Hcase] |].
  destruct (writable _ w) eqn:Hw.
  - destruct Hcase as [_ Hfs].
    exists (<["received_images" := Dir]> (fs w)). split.
    + right. split; [reflexivity |].
      unfold writable, openable in Hw.
      destruct (fs w !! "received_images") as [[data |] |];
        [discriminate Hw | right; reflexivity | left; reflexivity].
    + right. eexists. exact Hfs.
  - destruct Hcase as [_ Hfs].
    destruct Hdir as (base & Hbase & Hcases). rewrite Hbase in Hfs.
    exists base. split; [exact Hcases |].
    destruct (openable _ w); [| left; exact Hfs].
    destruct (io_fault w _) as [[e n] |]; [right; eexists; exact Hfs | left; exact Hfs].
Qed.

(** X13.  An upload touches nothing but its own file and its directory:
    the detector and the record of library calls are as before, every other
    path holds what it held, and an existing [received_images] entry is
    never replaced. *)
Theorem upload_touches_only_its_file (request : Request) (w : world) (p : string) :
  let path := upload_path (local (clock w (S (S (ticks w))))) in
  let r := upload_image_direct request w in
  yolo_detector (final r) = yolo_detector w /\
  calls (final r) = calls w /\
  (p <> path -> p <> "received_images" -> fs (final r) !! p = fs w !! p) /\
  (is_Some (fs w !! "received_images") ->
   fs (final r) !! "received_images" = fs w !! "received_images").
Proof.
  cbn zeta.
  destruct (upload_run request w) as (resp & w' & -> & Hup).
  pose proof Hup as (Hd & Hcalls & _).
  unfold final. cbn [snd].
  split; [exact Hd |]. split; [exact Hcalls |].
  pose proof (upload_path_not_dir (local (clock w (S (S (ticks w)))))) as Hne.
  destruct (upload_files request w resp w' Hup) as (base & Hbase & Hfs).
  cbn zeta in Hfs.
  assert (Hlook : forall q,
            q <> upload_path (local (clock w (S (S (ticks w))))) ->
            fs w' !! q = base !! q).
  { intros q Hq. destruct Hfs as [-> | [data ->]]; [reflexivity |].
    apply lookup_insert_ne, not_eq_sym, Hq. }
  split.
  - intros Hp1 Hp2. rewrite (Hlook p Hp1).
    destruct Hbase as [-> | [-> _]]; [reflexivity |].
    apply lookup_insert_ne, not_eq_sym, Hp2.
  - intros [nd Hsome]. rewrite (Hlook "received_images") by (apply not_eq_sym, Hne).
    destruct Hbase as [-> | [-> [Hnone | Hdir]]]; [reflexivity | |].
    + rewrite Hnone in Hsome. discriminate Hsome.
    + rewrite lookup_insert_eq, Hdir. reflexivity.
Qed.

(** The theorem at work: the artifact survives an upload. *)
Lemma upload_touches_only_its_file_witness :
  let r := upload_image_direct (mk_Request tomato_jpeg)
             (world_with_artifact x01 fast_clock) in
  fs (final r) !! "best.pt" = Some (File [x01; x50; x4b]).
Proof.
  destruct (upload_touches_only_its_file (mk_Request tomato_jpeg)
              (world_with_artifact x01 fast_clock) "best.pt")
    as (_ & _ & Hother & _).
  cbn zeta in *. rewrite Hother; [reflexivity | discriminate | discriminate].
Defined.

(** X14.  When the payload passes the checks but the file system does not
    let it be written, the answer is 500 with a ["Save error: ..."]
    message.  If the file could not be opened it is as it was; if it was
    opened and the writing was interrupted, it holds the part of the payload
    that had been written, whatever it held before.  The directory
    [received_images] is as it was or newly made. *)
Theorem upload_write_failure (request : Request) (w : world)
    (Hmin : 1000 <= Z.of_nat (length (body request)))
    (Hmax : Z.of_nat (length (body request)) <= 5 * 1024 * 1024)
    (Hjpeg : is_jpeg (body request) = true) :
  let path := upload_path (local (clock w (S (S (ticks w))))) in
  let r := upload_image_direct request w in
  writable path w = false ->
  (exists e, is_error_response 500 ("Save error: " ++ e) (result r)) /\
  (openable path w = false -> fs (final r) !! path = fs w !! path) /\
  (openable path w = true ->
   exists e n,
     io_fault w path = Some (e, n) /\
     fs (final r) !! path = Some (File (take n (body request)))) /\
  (fs (final r) !! "received_images" = fs w !! "received_images" \/
   fs w !! "received_images" = None /\
   fs (final r) !! "received_images" = Some Dir).
Proof.
  cbn zeta. intros Hw.
  destruct (upload_run request w) as (resp & w' & -> & _ & _ & Hcase).
  unfold result, final. cbn [fst snd].
  rewrite (proj2 (Z.ltb_ge _ _) Hmin) in Hcase.
  replace (Z.of_nat (length (body request)) >? 5 * 1024 * 1024) with false in Hcase
    by (symmetry; rewrite Z.gtb_ltb; apply Z.ltb_ge; exact Hmax).
  rewrite Hjpeg, Hw in Hcase. cbn [negb] in Hcase.
  destruct Hcase as [Herr Hfs]. split; [exact Herr |].
  pose proof (upload_path_not_dir (local (clock w (S (S (ticks w)))))) as Hne.
  set (path := upload_path (local (clock w (S (S (ticks w)))))) in *.
  assert (Hdir : forall files,
            files = fs_with_directory w \/
            (exists data, files = <[path := File data]> (fs_with_directory w)) ->
            (files !! "received_images" = fs w !! "received_images" \/
             fs w !! "received_images" = None /\
             files !! "received_images" = Some Dir)).
  { intros files Hfiles.
    assert (Hri : files !! "received_images"
                  = fs_with_directory w !! "received_images").
    { destruct Hfiles as [-> | [data ->]]; [reflexivity |].
      apply lookup_insert_ne. exact Hne. }
    rewrite Hri.
    destruct (fs_with_directory_cases w) as [-> | [-> Hnone]];
      [left; reflexivity | right; split; [exact Hnone | apply lookup_insert_eq]]. }
  assert (Hpath : fs_with_directory w !! path = fs w !! path).
  { destruct (fs_with_directory_cases w) as [-> | [-> _]]; [reflexivity |].
    apply lookup_insert_ne, not_eq_sym, Hne. }
  unfold writable in Hw.
  destruct (openable path w) eqn:Hopen.
  - cbn [andb] in Hw.
    destruct (io_fault w path) as [[e n] |]; [| discriminate Hw].
    split; [discriminate |]. split.
    + intros _. exists e, n. split; [reflexivity |].
      rewrite Hfs. apply lookup_insert_eq.
    + apply Hdir. right. eexists. exact Hfs.
  - split; [intros _; rewrite Hfs; exact Hpath |].
    split; [discriminate |].
    apply Hdir. left. exact Hfs.
Qed.

(** The theorem at work: [received_images] is a regular file, so nothing is
    opened; and a disk that fills up after 100 bytes. *)
Lemma upload_write_failure_witness :
  let path := "received_images/esp32_image_20240307_090559.jpg" in
  let r := upload_image_direct (mk_Request tomato_jpeg) (world_blocked fast_clock) in
  let r' := upload_image_direct (mk_Request tomato_jpeg) (world_full_disk fast_clock) in
  fs (final r) !! path = None /\
  fs (final r') !! path = Some (File (take 100 tomato_jpeg)).
Proof.
  cbn zeta. split.
  - destruct (upload_write_failure (mk_Request tomato_jpeg) (world_blocked fast_clock))
      as (_ & Hclosed & _);
      [vm_compute; discriminate | vm_compute; discriminate | reflexivity
      | vm_compute; reflexivity |].
    cbn zeta in Hclosed.
    change (upload_path (local (clock (world_blocked fast_clock)
                                  (S (S (ticks (world_blocked fast_clock)))))))
      with "received_images/esp32_image_20240307_090559.jpg" in Hclosed.
    rewrite Hclosed; [reflexivity | vm_compute; reflexivity].
  - destruct (upload_write_failure (mk_Request tomato_jpeg) (world_full_disk fast_clock))
      as (_ & _ & Hopened & _);
      [vm_compute; discriminate | vm_compute; discriminate | reflexivity
      | vm_compute; reflexivity |].
    cbn zeta in Hopened.
    change (upload_path (local (clock (world_full_disk fast_clock)
                                  (S (S (ticks (world_full_disk fast_clock)))))))
      with "received_images/esp32_image_20240307_090559.jpg" in Hopened.
    destruct Hopened as (e & n & Hfault & Hfile); [vm_compute; reflexivity |].
    change (io_fault (world_full_disk fast_clock)
              "received_images/esp32_image_20240307_090559.jpg")
      with (Some ("[Errno 28] No space left on device", 100%nat)) in Hfault.
    injection Hfault as <- <-. exact Hfile.
Defined.

End Storage.

(** ** Loading again *)

Module Reload.
Import PyNum Py Lib World Detector Server Application Samples MoreSamples.
Import Lifecycle Facade Frames Service.

(** A load reads the files and never writes them. *)
Lemma outcome_at_after_load
    (lib : Libraries) (mp : option string) (path : string) (w : world) :
  outcome_at lib path (final (load_model lib mp w)) = outcome_at lib path w.
Proof. rewrite load_model_run. reflexivity. Qed.

(** X15.  [load_model] leaves the files, the working directory and the
    clock's course alone, reads the clock once, counts as one attempt and
    never calls the decoder; it runs one inference when the artifact parses
    and none otherwise.  Without a path, or with the empty path, it loads
    ["best.pt"]: the result and the detector are those of
    [load_model("best.pt")]. *)
Theorem load_model_frame (lib : Libraries) (mp : option string) (w : world) :
  let r := load_model lib mp w in
  (fs (final r) = fs w /\ cwd (final r) = cwd w /\ clock (final r) = clock w /\
   ticks (final r) = S (ticks w)) /\
  (load_attempts (calls (final r)) = S (load_attempts (calls w)) /\
   decodes (calls (final r)) = decodes (calls w) /\
   inferences (calls (final r)) =
     (inferences (calls w) +
      match outcome_at lib (str_or mp "best.pt") w with
      | SmokeFailed _ _ | Loadable _ => 1
      | _ => 0
      end)%nat) /\
  (mp = None \/ mp = Some "" ->
   result r = result (load_model lib (Some "best.pt") w) /\
   yolo_detector (final r) = yolo_detector (final (load_model lib (Some "best.pt") w))).
Proof.
  cbn zeta. rewrite !load_model_run. unfold result, final. cbn [fst snd].
  split; [repeat split |]. split.
  - cbn. rewrite load_attempts_app, decodes_app, inferences_app.
    destruct (outcome_at lib (str_or mp "best.pt") w); cbn; repeat split; lia.
  - intros [-> | ->]; split; reflexivity.
Qed.

(** The theorem at work: the empty path. *)
Lemma load_model_frame_witness :
  result (load_model sample_lib (Some "") (world_with_artifact x01 fast_clock))
  = result (load_model sample_lib (Some "best.pt") (world_with_artifact x01 fast_clock)).
Proof.
  destruct (load_model_frame sample_lib (Some "") (world_with_artifact x01 fast_clock))
    as (_ & _ & Hdefault).
  destruct (Hdefault (or_intror eq_refl)) as [Hres _]. exact Hres.
Defined.

(** X16.  Loading twice in a row is loading once: the second call returns
    what the first returned and leaves the same model, the same
    [model_loaded] and the same error message; only the time of the attempt
    moves on. *)
Theorem load_model_idempotent (lib : Libraries) (mp : option string) (w : world) :
  let r1 := load_model lib mp w in
  let r2 := load_model lib mp (final r1) in
  result r2 = result r1 /\
  model (yolo_detector (final r2)) = model (yolo_detector (final r1)) /\
  model_loaded (yolo_detector (final r2)) = model_loaded (yolo_detector (final r1)) /\
  load_error (yolo_detector (final r2)) = load_error (yolo_detector (final r1)) /\
  last_load_attempt (yolo_detector (final r2)) = Some (local (clock w (S (ticks w)))).
Proof.
  cbn zeta.
  pose proof (outcome_at_after_load lib mp (str_or mp "best.pt") w) as Hsame.
  rewrite (load_model_run lib mp (final (load_model lib mp w))).
  unfold loadable. rewrite Hsame.
  rewrite (load_model_run lib mp w). unfold loadable, result, final. cbn [fst snd].
  destruct (outcome_at lib (str_or mp "best.pt") w); cbn; repeat split.
Qed.

(** X17.  A load that fails its test inference on a detector that was
    loaded before returns [False] and records the error, yet the detector
    keeps [model_loaded = True] and now holds the model that failed: the
    next [detect_objects] runs that model. *)
Theorem failed_reload_swaps_model
    (lib : Libraries) (mp : option string) (w : world) (m : Model) (e : string)
    (Hloaded : model_loaded (yolo_detector w) = true)
    (Hartifact : outcome_at lib (str_or mp "best.pt") w = SmokeFailed m e) :
  let r := load_model lib mp w in
  result r = inr false /\
  load_error (yolo_detector (final r)) = Some ("Error loading YOLO model: " ++ e) /\
  model_loaded (yolo_detector (final r)) = true /\
  model (yolo_detector (final r)) = Some m /\
  forall image_data img,
    cv2_imdecode lib image_data = inr (Some img) ->
    detect_error lib image_data (final r) =
      match predict m img (Some (float_literal (3 # 10))) with
      | inl e' => Some ("Detection error: " ++ e')
      | inr _ => None
      end.
Proof.
  cbn zeta. rewrite load_model_run. unfold loadable, result, final. cbn [fst snd].
  rewrite Hartifact. cbn.
  split; [reflexivity |]. split; [reflexivity |]. split; [exact Hloaded |].
  split; [reflexivity |].
  intros image_data img Hdecode. unfold detect_error. cbn.
  rewrite Hloaded, Hdecode. reflexivity.
Qed.

(** The theorem at work: a working artifact is loaded and then replaced by
    one that parses but cannot run. *)
Lemma failed_reload_swaps_model_witness :
  let w1 := final (load_model sample_lib None (world_with_artifact x01 fast_clock)) in
  let w2 := with_fs {[ "best.pt" := File [x03; x50; x4b] ]} w1 in
  let r := load_model sample_lib None w2 in
  result r = inr false /\
  model_loaded (yolo_detector (final r)) = true /\
  detect_error sample_lib tomato_jpeg (final r)
    = Some "Detection error: CUDA error: no kernel image is available".
Proof.
  intros w1 w2 r.
  destruct (failed_reload_swaps_model sample_lib None w2 broken_model
              "CUDA error: no kernel image is available" eq_refl eq_refl)
    as (Hres & _ & Hloaded & _ & Hdetect).
  split; [exact Hres | split; [exact Hloaded |]].
  exact (Hdetect tomato_jpeg picture eq_refl).
Defined.

(** X21.  After a load that returns [True], [detect_objects] works with
    the model just parsed: on a payload that decodes and an inference that
    returns, the detections are that model's boxes, labelled from its
    [names], in emission order. *)
Theorem load_then_detect
    (lib : Libraries) (mp : option string) (image_data : list byte) (w : world)
    (m : Model) (img : ndarray) (results : list Results)
    (Hartifact : outcome_at lib (str_or mp "best.pt") w = Loadable m)
    (Hdecode : cv2_imdecode lib image_data = inr (Some img))
    (Hinfer : predict m img (Some (float_literal (3 # 10))) = inr results) :
  let r1 := load_model lib mp w in
  result r1 = inr true /\
  exists out,
    result (detect_objects lib image_data (final r1)) = inr (Some out, None) /\
    objects_detected out = map (detection_info m) (all_boxes results) /\
    total_objects out = Z.of_nat (length (all_boxes results)) /\
    image_dimensions out
      = {| image_width := snd (fst (shape img));
           image_height := fst (fst (shape img)) |}.
Proof.
  cbn zeta. rewrite load_model_run. unfold loadable, result, final. cbn [fst snd].
  rewrite Hartifact. split; [reflexivity |].
  rewrite (Detection.detect_objects_success lib image_data _ m img results);
    [| reflexivity | reflexivity | exact Hdecode | exact Hinfer].
  eexists. split; [reflexivity |]. repeat split.
Qed.

(** The theorem at work: the artifact of the veggie model and a picture. *)
Lemma load_then_detect_witness :
  exists out,
    result (detect_objects sample_lib tomato_jpeg
              (final (load_model sample_lib None (world_with_artifact x01 fast_clock))))
      = inr (Some out, None) /\
    map object (objects_detected out) = ["tomato"; "class_1"].
Proof.
  destruct (load_then_detect sample_lib None tomato_jpeg
              (world_with_artifact x01 fast_clock) veggie_model picture
              [mk_Results (Some [tomato_box; quarter_box])]
              eq_refl eq_refl eq_refl)
    as (_ & out & Hres & Hobjects & _).
  exists out. split; [exact Hres |]. rewrite Hobjects. reflexivity.
Defined.

(** X22.  The [details] of the 503 answer tell why the reload failed: the
    path and the working directory when there is no artifact, the message
    of the exception when the artifact does not parse or fails the test
    inference. *)
Theorem model_not_loaded_details
    (lib : Libraries) (request : Request) (w : world)
    (Hnl : model_loaded (yolo_detector w) = false)
    (Hfail : loadable lib "best.pt" w = false) :
  let r := yolo_detect_objects lib request w in
  exists resp details,
    result r = inr resp /\ status_code resp = 503 /\
    jget "details" (content resp) = Some (JStr details) /\
    match outcome_at lib "best.pt" w with
    | FileMissing => details = "YOLO model file 'best.pt' not found in " ++ cwd w
    | ParseFailed e | SmokeFailed _ e => details = "Error loading YOLO model: " ++ e
    | Loadable _ => False
    end.
Proof.
  cbn zeta. rewrite (yolo_detect_objects_unloaded lib request w Hnl). cbn zeta.
  unfold try_except, bind. rewrite load_model_run.
  change (loadable lib (str_or None "best.pt") (with_ticks (S (S (ticks w))) w))
    with (loadable lib "best.pt" w).
  rewrite Hfail. run_handler.
  change (outcome_at lib (str_or None "best.pt") (with_ticks (S (S (ticks w))) w))
    with (outcome_at lib "best.pt" w).
  unfold loadable in Hfail.
  do 2 eexists. split; [reflexivity |]. split; [reflexivity |].
  split; [reflexivity |].
  destruct (outcome_at lib "best.pt" w); [| | | discriminate Hfail]; reflexivity.
Qed.

(** The theorem at work: no artifact in [/srv/app]. *)
Lemma model_not_loaded_details_witness :
  exists resp,
    result (yolo_detect_objects sample_lib (mk_Request tomato_jpeg)
              (fresh_world fast_clock)) = inr resp /\
    jget "details" (content resp)
      = Some (JStr "YOLO model file 'best.pt' not found in /srv/app").
Proof.
  destruct (model_not_loaded_details sample_lib (mk_Request tomato_jpeg)
              (fresh_world fast_clock) eq_refl eq_refl)
    as (resp & details & Hres & _ & Hdetails & Hcause).
  exists resp. split; [exact Hres |].
  rewrite Hdetails. cbn in Hcause. rewrite Hcause. reflexivity.
Defined.

End Reload.

(** ** The shape of what is returned *)

Module Shape.
Import PyNum Py Lib World Detector Server Application Samples MoreSamples.
Import Rounding Floats Lifecycle Detection Facade Frames Service.

Lemma post_bind_with {A B} (Q : A -> Prop) (P : B -> Prop) (m : M A) (k : A -> M B) :
  post Q m -> (forall a, Q a -> post P (k a)) -> post P (bind m k).
Proof.
  intros Hm Hk w b. specialize (Hm w). unfold bind, result in *.
  destruct (m w) as [[e | a] w']; cbn in *; [discriminate |].
  apply Hk, Hm. reflexivity.
Qed.

Lemma post_error_status {P : JSONResponse -> Prop}
    (status : Z) (msg : string) (start_time : Q) :
  (forall resp, status_code resp = status -> P resp) ->
  post P (error_response status msg start_time).
Proof.
  intros HP. apply post_bind. intros t. apply post_ret. apply HP. reflexivity.
Qed.

(** The result of [detect_objects] counts its own list. *)
Lemma post_detect_objects (lib : Libraries) (image_data : list byte) :
  post (fun out => forall v, fst out = Some v ->
                   total_objects v = Z.of_nat (length (objects_detected v)))
       (detect_objects lib image_data).
Proof.
  unfold detect_objects.
  apply post_bind. intros loaded.
  destruct (negb loaded); [apply post_ret; intros v H; discriminate H |].
  apply post_try; [| intros e; apply post_ret; intros v H; discriminate H].
  apply post_bind. intros _. apply post_bind. intros [img |];
    [| apply post_ret; intros v H; discriminate H].
  apply post_bind. intros [m results].
  rewrite process_result_fold. cbn [app].
  destruct (shape img) as [[rows cols] chans].
  apply post_ret. intros v H. injection H as <-. cbn.
  rewrite length_map. lia.
Qed.

(** X18.  Whenever [/yolo-detect] answers 200, whatever the libraries
    returned and whether the model was loaded before or by this request,
    the payload had between 1000 bytes and 10 MiB and both JPEG markers,
    [size_bytes] is its length, and [total_objects] is the length of the
    [objects_detected] list. *)
Theorem yolo_detect_success_shape
    (lib : Libraries) (request : Request) (w : world) (resp : JSONResponse)
    (Hres : result (yolo_detect_objects lib request w) = inr resp)
    (Hok : status_code resp = 200) :
  detect_success_shape request resp.
Proof.
  revert Hok.
  set (P := fun resp : JSONResponse =>
              status_code resp = 200 -> detect_success_shape request resp).
  change (P resp). revert w resp Hres.
  change (post P (yolo_detect_objects lib request)).
  assert (Herr : forall status msg st, status <> 200 ->
                   post P (error_response status msg st)).
  { intros status msg st Hne. apply post_error_status.
    intros r Hs Hok. congruence. }
  assert (Hvalidate : forall st rt,
            post P (yolo_validate_and_detect lib request st rt)).
  { intros st rt. unfold yolo_validate_and_detect.
    destruct (Z.ltb_spec (Z.of_nat (length (body request))) 1000) as [Hs | Hs];
      [apply Herr; discriminate |].
    rewrite Z.gtb_ltb.
    destruct (Z.ltb_spec (10 * 1024 * 1024) (Z.of_nat (length (body request))))
      as [Hb | Hb]; [apply Herr; discriminate |].
    destruct (is_jpeg (body request)) eqn:Hj; cbn [negb];
      [| apply Herr; discriminate].
    apply post_bind. intros t0.
    apply (post_bind_with _ _ _ _ (post_detect_objects lib (body request))).
    intros [res err] Hcount. cbn [fst] in Hcount.
    apply post_bind. intros dt.
    destruct (truthy err); [apply Herr; discriminate |].
    apply post_bind. intros pt.
    destruct res as [v |]; [| apply post_raise].
    apply post_ret. intros _. split; [split; [lia | exact Hj] |].
    do 4 eexists. repeat split; try reflexivity.
    rewrite length_map. apply Hcount. reflexivity. }
  unfold yolo_detect_objects.
  apply post_bind. intros t0. apply post_bind. intros now.
  apply post_try; [| intros e; apply Herr; discriminate].
  apply post_bind. intros loaded.
  destruct (negb loaded); [| apply Hvalidate].
  apply post_bind. intros ok.
  destruct (negb ok); [| apply Hvalidate].
  apply post_bind. intros d. apply post_bind. intros pt.
  apply post_ret. intros H. discriminate H.
Qed.

(** The theorem at work: the picture with two detections. *)
Lemma yolo_detect_success_shape_witness :
  exists resp,
    result (yolo_detect_objects sample_lib (mk_Request tomato_jpeg)
              (world_loaded veggie_model fast_clock)) = inr resp /\
    status_code resp = 200 /\
    detect_success_shape (mk_Request tomato_jpeg) resp.
Proof.
  pose (r := yolo_detect_objects sample_lib (mk_Request tomato_jpeg)
               (world_loaded veggie_model fast_clock)).
  pose (resp := match fst r with
                | inr x => x
                | inl _ => {| content := JNull; status_code := 0 |}
                end).
  assert (Hres : result r = inr resp) by (vm_compute; reflexivity).
  assert (Hok : status_code resp = 200) by (vm_compute; reflexivity).
  exists resp. split; [exact Hres |]. split; [exact Hok |].
  exact (yolo_detect_success_shape sample_lib _ _ resp Hres Hok).
Defined.

(** X19.  The confidence written for a detection is a float, the double
    nearest to a whole number of tenths.  When the model's confidence is a
    probability that number of tenths lies between 0 and 1000, and the
    confidence written is within [0.05 + 2^-46] of the model's confidence
    times 100. *)
Theorem confidence_rounding (m : Model) (b : Box) (Hprob : probability b) :
  let c := confidence (detection_info m b) in
  exists tenths,
    0 <= tenths <= 1000 /\
    c = to_double (inject_Z tenths / 10) /\
    (float (conf b) * 100 - (1 # 20) - 2 ^ (-46) <= c)%Q /\
    (c <= float (conf b) * 100 + (1 # 20) + 2 ^ (-46))%Q.
Proof.
  destruct b as [cf cl [[[bx1 by1] bx2] by2]]. destruct Hprob as [Hc0 Hc1].
  cbn [conf] in Hc0, Hc1.
  cbn [detection_info conf cls xyxy confidence].
  destruct (percent_bounds (float cf) Hc0 Hc1) as ((Hp0 & Hp1) & (He1 & He2) & _).
  cbn zeta in *. set (p := float_mul (float cf) 100) in *.
  unfold py_round_n. change (inject_Z (10 ^ Z.of_nat 1)) with 10%Q.
  destruct (decimal_round_error 1 p) as [Hd1 Hd2]. cbn zeta in Hd1, Hd2.
  change (inject_Z (10 ^ Z.of_nat 1)) with 10%Q in Hd1, Hd2.
  change ((1 # 2) / 10)%Q with (1 # 20)%Q in Hd1, Hd2.
  set (tenths := py_round (p * 10)) in *.
  assert (Ht : 0 <= tenths <= 1000).
  { unfold tenths. split.
    - rewrite <- (py_round_inject_Z 0). apply py_round_mono.
      change (inject_Z 0) with 0%Q. lra.
    - rewrite <- (py_round_inject_Z 1000). apply py_round_mono.
      change (inject_Z 1000) with 1000%Q. lra. }
  exists tenths. split; [exact Ht |]. split; [reflexivity |].
  set (r := (inject_Z tenths / 10)%Q) in *.
  assert (Hr : (Qabs r < 2 ^ (6 + 1))%Q).
  { apply Qle_lt_trans with (100 + (1 # 20))%Q; [| reflexivity].
    apply Qabs_Qle_condition. split; lra. }
  destruct (to_double_error 6 r ltac:(lia) Hr) as [Hr1 Hr2].
  change (2 ^ (6 - 53))%Q with (1 # 140737488355328)%Q in Hr1, Hr2.
  change (2 ^ (-47))%Q with (1 # 140737488355328)%Q in He1, He2.
  change (2 ^ (-46))%Q with (1 # 70368744177664)%Q.
  clearbody r p. split; lra.
Qed.

(** The theorem at work: a confidence of [0.875] is written as [87.5]. *)
Lemma confidence_rounding_witness :
  exists tenths,
    0 <= tenths <= 1000 /\
    confidence (detection_info veggie_model quarter_box)
      = to_double (inject_Z tenths / 10).
Proof.
  destruct (confidence_rounding veggie_model quarter_box)
    as (tenths & Ht & Hc & _).
  - split; discriminate.
  - exists tenths. split; [exact Ht | exact Hc].
Defined.

Example confidence_sample :
  confidence (detection_info veggie_model quarter_box) = (175 # 2)%Q.
Proof. vm_compute. reflexivity. Qed.

(** *** The tally of the log line *)

Lemma summary_count_add (name obj_name : string) (summary : list (string * Z)) :
  summary_count name (summary_add obj_name summary) =
    summary_count name summary + (if String.eqb name obj_name then 1 else 0).
Proof.
  induction summary as [| [k count] rest IH]; [cbn; lia |].
  cbn [summary_add summary_count].
  destruct (String.eqb_spec obj_name k) as [-> | Hne]; cbn [summary_count].
  - destruct (String.eqb_spec name k); lia.
  - rewrite IH. destruct (String.eqb_spec name k) as [-> | Hnk]; [| reflexivity].
    destruct (String.eqb_spec k obj_name); [congruence | lia].
Qed.

Lemma summary_total_add (obj_name : string) (summary : list (string * Z)) :
  summary_total (summary_add obj_name summary) = summary_total summary + 1.
Proof.
  induction summary as [| [k count] rest IH]; [reflexivity |].
  cbn [summary_add]. destruct (String.eqb obj_name k); cbn [summary_total]; lia.
Qed.

Lemma summary_keys_add (obj_name k : string) (summary : list (string * Z)) :
  k ∈ map fst (summary_add obj_name summary) <->
  k = obj_name \/ k ∈ map fst summary.
Proof.
  induction summary as [| [k' count] rest IH]; cbn [summary_add map fst].
  - rewrite list_elem_of_singleton. split; [tauto | intros [H | H]; [exact H |]].
    inversion H.
  - destruct (String.eqb_spec obj_name k') as [-> | Hne]; cbn [map fst];
      rewrite !elem_of_cons; [tauto |]. rewrite IH. tauto.
Qed.

Lemma summary_nodup_add (obj_name : string) (summary : list (string * Z)) :
  NoDup (map fst summary) -> NoDup (map fst (summary_add obj_name summary)).
Proof.
  induction summary as [| [k count] rest IH]; cbn [summary_add map fst].
  - intros _. apply NoDup_singleton.
  - rewrite NoDup_cons. intros [Hk Hrest].
    destruct (String.eqb_spec obj_name k) as [-> | Hne]; cbn [map fst];
      rewrite NoDup_cons; [tauto |].
    split; [| apply IH, Hrest].
    rewrite summary_keys_add. intros [H | H]; [congruence | contradiction].
Qed.

Lemma summary_positive_add (obj_name : string) (summary : list (string * Z)) :
  Forall (fun entry => 1 <= snd entry) summary ->
  Forall (fun entry => 1 <= snd entry) (summary_add obj_name summary).
Proof.
  induction 1 as [| [k count] rest Hk Hrest IH]; cbn [summary_add].
  - constructor; [cbn; lia | constructor].
  - cbn in Hk. destruct (String.eqb obj_name k); constructor; cbn; try lia; assumption.
Qed.

(** X20.  The tally built for the log line has one entry per distinct
    label, each counting the detections that carry the label (none of them
    zero), and its counts add up to the number of detections. *)
Theorem object_summary_counts (detections : list DetectionInfo) :
  (forall name,
     summary_count name (object_summary detections) = occurrences name detections) /\
  NoDup (map fst (object_summary detections)) /\
  Forall (fun entry => 1 <= snd entry) (object_summary detections) /\
  summary_total (object_summary detections) = Z.of_nat (length detections).
Proof.
  unfold object_summary.
  assert (Hgen : forall ds acc,
    NoDup (map fst acc) -> Forall (fun entry => 1 <= snd entry) acc ->
    let out := fold_left (fun summary d => summary_add (object d) summary) ds acc in
    (forall name, summary_count name out
                  = summary_count name acc + occurrences name ds) /\
    NoDup (map fst out) /\ Forall (fun entry => 1 <= snd entry) out /\
    summary_total out = summary_total acc + Z.of_nat (length ds)).
  { induction ds as [| d ds IH]; intros acc Hnd Hpos; cbn zeta.
    - cbn. repeat split; try assumption; intros; lia.
    - cbn [fold_left].
      destruct (IH (summary_add (object d) acc)
                   (summary_nodup_add _ _ Hnd) (summary_positive_add _ _ Hpos))
        as (Hc & Hn & Hp & Ht).
      cbn zeta in *. repeat split; try assumption.
      + intros name. rewrite Hc, summary_count_add. cbn [occurrences]. lia.
      + rewrite Ht, summary_total_add. cbn [length].
        rewrite Nat2Z.inj_succ. lia. }
  destruct (Hgen detections [] (NoDup_nil_2) (Forall_nil_2 _)) as (Hc & Hn & Hp & Ht).
  cbn zeta in *. repeat split; assumption.
Qed.

Example object_summary_sample :
  object_summary three_detections = [("tomato", 2); ("potato", 1)]
  /\ summary_str (object_summary three_detections) = "2x tomato, 1x potato".
Proof. split; reflexivity. Qed.

(** X23.  Whenever [/upload-image] answers 200, [size_bytes] is the length
    of the payload and [saved_to] is the [filename] of the answer inside
    [received_images]. *)
Theorem upload_success_shape
    (request : Request) (w : world) (resp : JSONResponse)
    (Hres : result (upload_image_direct request w) = inr resp)
    (Hok : status_code resp = 200) :
  exists info filename,
    jget "image_info" (content resp) = Some info /\
    jget "filename" info = Some (JStr filename) /\
    jget "size_bytes" info = Some (JInt (Z.of_nat (length (body request)))) /\
    jget "saved_to" (content resp) = Some (JStr ("received_images/" ++ filename)).
Proof.
  revert Hok.
  set (P := fun resp : JSONResponse =>
              status_code resp = 200 ->
              exists info filename,
                jget "image_info" (content resp) = Some info /\
                jget "filename" info = Some (JStr filename) /\
                jget "size_bytes" info
                  = Some (JInt (Z.of_nat (length (body request)))) /\
                jget "saved_to" (content resp)
                  = Some (JStr ("received_images/" ++ filename))).
  change (P resp). revert w resp Hres.
  change (post P (upload_image_direct request)).
  assert (Herr : forall status msg st, status <> 200 ->
                   post P (error_response status msg st)).
  { intros status msg st Hne. apply post_error_status.
    intros r Hs Hok. congruence. }
  unfold upload_image_direct.
  apply post_bind. intros t0. apply post_bind. intros now.
  apply post_try; [| intros e; apply Herr; discriminate].
  cbv zeta.
  destruct (Z.of_nat (length (body request)) <? 1000); [apply Herr; discriminate |].
  destruct (Z.of_nat (length (body request)) >? 5 * 1024 * 1024);
    [apply Herr; discriminate |].
  destruct (negb (is_jpeg (body request))); [apply Herr; discriminate |].
  apply post_bind. intros stamp. apply post_bind. intros there.
  apply post_bind. intros _. apply post_bind. intros _.
  apply post_bind. intros pt. apply post_ret. intros _.
  do 2 eexists. repeat split; reflexivity.
Qed.

(** The theorem at work: a first upload to a fresh server. *)
Lemma upload_success_shape_witness :
  exists resp info filename,
    result (upload_image_direct (mk_Request tomato_jpeg) (fresh_world fast_clock))
      = inr resp /\
    jget "filename" info = Some (JStr filename) /\
    jget "saved_to" (content resp) = Some (JStr ("received_images/" ++ filename)).
Proof.
  pose (r := upload_image_direct (mk_Request tomato_jpeg) (fresh_world fast_clock)).
  pose (resp := match fst r with
                | inr x => x
                | inl _ => {| content := JNull; status_code := 0 |}
                end).
  assert (Hres : result r = inr resp) by (vm_compute; reflexivity).
  assert (Hok : status_code resp = 200) by (vm_compute; reflexivity).
  destruct (upload_success_shape _ _ resp Hres Hok)
    as (info & filename & _ & Hname & _ & Hsaved).
  exists resp, info, filename.
  split; [exact Hres | split; [exact Hname | exact Hsaved]].
Defined.

End Shape.
